(** * Solana token detector: a model of [solana_token_detector.py]

    The monitoring engine of the script is embedded as Rocq functions:
    JSON values as Python sees them after [json.load], Python exceptions as
    an error result, and the file system, the console, the network and the
    module-level [DEFAULT_CONFIG] object as an explicit world that every
    effectful function threads. *)

From Stdlib Require Import ZArith String List Lia Bool.
From stdpp Require Import base option list countable gmap strings pretty.

Set Warnings "-register-all".

Local Open Scope string_scope.
Local Open Scope Z_scope.
Local Open Scope list_scope.

(** ** Values

    What [json.load] and [response.json()] hand to the program.  A JSON
    object is a Python dict: its bindings in insertion order (the order
    [json.dump] writes them in), with pairwise distinct keys; [dict_get]
    reads the first binding of a key.  Numbers are the integers; JSON
    numbers with a fraction or an exponent (Python floats) are not
    represented.  Strings are byte strings in UTF-8. *)
Inductive json : Type :=
  | JNull
  | JBool (b : bool)
  | JNum (z : Z)
  | JStr (s : string)
  | JArr (l : list json)
  | JObj (d : list (string * json)).

(** The exceptions the script can meet. *)
Inductive exn : Type :=
  | KeyError
  | TypeError
  | AttributeError
  | ValueError
  | UnicodeDecodeError
  | JSONDecodeError
  | OSError
  | EOFError
  | KeyboardInterrupt
  | RequestException (text : string).

(** A computation that returns or raises. *)
Inductive result (A : Type) : Type :=
  | Ok (a : A)
  | Raise (e : exn).
Arguments Ok {A} a.
Arguments Raise {A} e.

#[export] Instance result_ret : MRet result := fun A a => Ok a.
#[export] Instance result_bind : MBind result := fun A B f r =>
  match r with
  | Ok a => f a
  | Raise e => Raise e
  end.

(** ** The Python operations the script applies to such values *)
Module Py.

(** [bool(v)], the test of [if v], [not v] and [v or w]. *)
Definition truthy (v : json) : bool :=
  match v with
  | JNull => false
  | JBool b => b
  | JNum z => negb (z =? 0)
  | JStr s => negb (String.eqb s EmptyString)
  | JArr l => match l with [] => false | _ => true end
  | JObj d => match d with [] => false | _ => true end
  end.

(** [a or b], on values already computed. *)
Definition or_else (a b : json) : json := if truthy a then a else b.

Fixpoint dict_get (d : list (string * json)) (k : string) : option json :=
  match d with
  | [] => None
  | (k', v) :: d' => if String.eqb k' k then Some v else dict_get d' k
  end.

(** [d[k] = v] on a dict: an existing key keeps its place. *)
Fixpoint dict_set (d : list (string * json)) (k : string) (v : json)
  : list (string * json) :=
  match d with
  | [] => [(k, v)]
  | (k', v') :: d' =>
      if String.eqb k' k then (k, v) :: d' else (k', v') :: dict_set d' k v
  end.

(** [o.get(k, dflt)]: only a dict has the method. *)
Definition get (o : json) (k : string) (dflt : json) : result json :=
  match o with
  | JObj d => Ok (match dict_get d k with Some v => v | None => dflt end)
  | _ => Raise AttributeError
  end.

(** [o[k]] with a string key [k]. *)
Definition getitem (o : json) (k : string) : result json :=
  match o with
  | JObj d => match dict_get d k with Some v => Ok v | None => Raise KeyError end
  | _ => Raise TypeError
  end.

(** [o[k] = v] with a string key [k]. *)
Definition setitem (o : json) (k : string) (v : json) : result json :=
  match o with
  | JObj d => Ok (JObj (dict_set d k v))
  | _ => Raise TypeError
  end.

(** The items a [for] loop or a comprehension draws from [v]: the elements
    of a list, the keys of a dict, the characters of a string (here its
    bytes, one string each). *)
Definition iter (v : json) : result (list json) :=
  match v with
  | JArr l => Ok l
  | JObj d => Ok (map (fun kv => JStr (fst kv)) d)
  | JStr s => Ok (map (fun c => JStr (String c EmptyString)) (list_ascii_of_string s))
  | _ => Raise TypeError
  end.

(** [bool] is a subclass of [int]. *)
Definition as_int (v : json) : option Z :=
  match v with
  | JNum z => Some z
  | JBool b => Some (if b then 1 else 0)
  | _ => None
  end.

(** [a == b]; it never raises on these values. *)
Fixpoint equal (a b : json) {struct a} : bool :=
  match a, b with
  | JNull, JNull => true
  | JStr s, JStr t => String.eqb s t
  | JArr l, JArr m =>
      (fix all2 (l m : list json) : bool :=
         match l, m with
         | [], [] => true
         | x :: l', y :: m' => equal x y && all2 l' m'
         | _, _ => false
         end) l m
  | JObj d, JObj e =>
      (length d =? length e)%nat &&
      (fix sub (d : list (string * json)) : bool :=
         match d with
         | [] => true
         | (k, v) :: d' =>
             match dict_get e k with
             | Some w => equal v w && sub d'
             | None => false
             end
         end) d
  | (JBool _ | JNum _), (JBool _ | JNum _) =>
      match as_int a, as_int b with
      | Some x, Some y => x =? y
      | _, _ => false
      end
  | _, _ => false
  end.

(** [a > b]: integers by value, strings by code point (which is the byte
    order of UTF-8), lists by their first differing items; any other
    pairing is a [TypeError]. *)
Fixpoint gt (a b : json) {struct a} : result bool :=
  match a, b with
  | JStr s, JStr t => Ok (String.ltb t s)
  | JArr l, JArr m =>
      (fix first_diff (l m : list json) : result bool :=
         match l, m with
         | x :: l', y :: m' => if equal x y then first_diff l' m' else gt x y
         | _ :: _, [] => Ok true
         | [], _ => Ok false
         end) l m
  | (JBool _ | JNum _), (JBool _ | JNum _) =>
      match as_int a, as_int b with
      | Some x, Some y => Ok (x >? y)
      | _, _ => Raise TypeError
      end
  | _, _ => Raise TypeError
  end.

(** [a >= n] for an integer literal [n]. *)
Definition ge_int (a : json) (n : Z) : result bool :=
  match as_int a with
  | Some x => Ok (x >=? n)
  | None => Raise TypeError
  end.

(** [s * n]. *)
Fixpoint times (s : string) (n : nat) : string :=
  match n with
  | O => EmptyString
  | S n' => s +:+ times s n'
  end.

(** [str(v)], which is what an f-string puts for [{v}]; the text of a list
    or a dict is left to [repr_of]. *)
Definition str (repr_of : json -> string) (v : json) : string :=
  match v with
  | JNull => "None"
  | JBool true => "True"
  | JBool false => "False"
  | JNum z => pretty z
  | JStr s => s
  | JArr _ | JObj _ => repr_of v
  end.

(** [a or b] where [b] is only evaluated when [a] is falsy. *)
Definition or_lazy (a : json) (b : result json) : result json :=
  if truthy a then Ok a else b.

(** [l.append(x)]: only a list has the method. *)
Definition append (l x : json) : result json :=
  match l with
  | JArr items => Ok (JArr (items ++ [x]))
  | _ => Raise AttributeError
  end.

(** [isinstance(v, dict)]. *)
Definition is_dict (v : json) : bool :=
  match v with JObj _ => true | _ => false end.

End Py.

(** ** RiskClassifier *)

(** [classify_risk(score_normalised, threshold)]. *)
Definition classify_risk (score_normalised threshold : json) : result string :=
  match score_normalised with
  | JNull => Ok "UNKNOWN"
  | _ =>
      above ← Py.gt score_normalised threshold;
      if above : bool then Ok "LOW"
      else
        middle ← Py.ge_int score_normalised 50;
        if middle : bool then Ok "MEDIUM" else Ok "HIGH"
  end.

(** ** Hashable values: the members of a Python set

    [hash_key v] is the class of [v] under [==] among the hashable values
    ([True == 1], so both are the integer 1); lists and dicts are not
    hashable, and membership tests and insertions raise on them. *)
Inductive hkey : Type :=
  | HNone
  | HInt (z : Z)
  | HStr (s : string).

#[export] Instance hkey_eq_dec : EqDecision hkey.
Proof. solve_decision. Defined.

#[export] Instance hkey_countable : Countable hkey.
Proof.
  refine (inj_countable'
    (fun k => match k with
              | HNone => inl ()
              | HInt z => inr (inl z)
              | HStr s => inr (inr s)
              end)
    (fun x => match x with
              | inl _ => HNone
              | inr (inl z) => HInt z
              | inr (inr s) => HStr s
              end) _).
  intros []; reflexivity.
Defined.

Definition hash_key (v : json) : result hkey :=
  match v with
  | JNull => Ok HNone
  | JBool b => Ok (HInt (if b then 1 else 0))
  | JNum z => Ok (HInt z)
  | JStr s => Ok (HStr s)
  | JArr _ | JObj _ => Raise TypeError
  end.

(** ** The world around the script *)

(** What reading a file that exists does: [json.load] returns a value, or
    [open]/[read]/[json.load] raise. *)
Inductive file_content : Type :=
  | Parses (j : json)
  | ReadRaises (e : exn).

(** What a write does.  A failing one raises [OSError], either before the
    file is touched ([os.makedirs] or [open] fail) or after [open(path, "w")]
    has emptied it; [json.dump] itself cannot fail on values that came out
    of [json.load]. *)
Inductive write_outcome : Type :=
  | Written
  | Refused
  | Truncated.

(** The two endpoints; [Summary mint] is the template filled with [mint]. *)
Inductive request : Type :=
  | NewTokens
  | Summary (mint : json).

(** What [requests.get] does: it raises a [RequestException] (transport
    failure, timeout), or returns a response.  [body] is what
    [response.json()] does with the body: it returns the parsed value, or,
    on a body that is not JSON, raises what the installed [requests] raises
    there ([requests.exceptions.JSONDecodeError], a [RequestException], from
    version 2.27 on; a [ValueError] of the json module before).
    [error_text] is the text of the [HTTPError] that [raise_for_status]
    raises for this response. *)
Record response : Type :=
  { status_code : Z; body : result json; error_text : string }.

Inductive http_result : Type :=
  | Fails (text : string)
  | Responds (r : response).

Inductive event : Type :=
  | EvGet (r : request) (timeout : Z)
  | EvPrint (text : string)
  | EvInput (prompt : string)
  | EvWrite (path : string) (data : json)
  | EvSleep (seconds : Z).

(** The mutable part.  [trace] holds the events so far, newest first; its
    length is the logical time at which the surroundings are asked. *)
Record world : Type :=
  { files : gmap string file_content;
    default_config : json;          (* the module-level DEFAULT_CONFIG dict *)
    stdin : list string;
    trace : list event }.

(** The surroundings, free to answer differently at each time. *)
Record env : Type :=
  { http : nat -> request -> Z -> http_result;
    disk : nat -> string -> write_outcome;
    clock : nat -> string;          (* datetime.now(LAGOS_TZ).strftime(...) *)
    sigint : nat -> bool;           (* Ctrl+C, delivered while the loop sleeps *)
    repr : json -> string;          (* str() of a list or a dict *)
    to_int : string -> option Z;    (* int(text); None is a ValueError *)
    strip : string -> string }.     (* text.strip() *)

Definition now (w : world) : nat := length (trace w).

Definition log (ev : event) (w : world) : world :=
  {| files := files w; default_config := default_config w;
     stdin := stdin w; trace := ev :: trace w |}.

Definition set_files (fs : gmap string file_content) (w : world) : world :=
  {| files := fs; default_config := default_config w;
     stdin := stdin w; trace := trace w |}.

Definition set_default_config (j : json) (w : world) : world :=
  {| files := files w; default_config := j;
     stdin := stdin w; trace := trace w |}.

Definition set_stdin (l : list string) (w : world) : world :=
  {| files := files w; default_config := default_config w;
     stdin := l; trace := trace w |}.

(** ** Effectful computations: state and exceptions *)
Definition M (A : Type) : Type := world -> result A * world.

#[export] Instance M_ret : MRet M := fun A a w => (Ok a, w).
#[export] Instance M_bind : MBind M := fun A B f m w =>
  match m w with
  | (Ok a, w') => f a w'
  | (Raise e, w') => (Raise e, w')
  end.

(** A pure computation inside an effectful one. *)
Definition lift {A} (r : result A) : M A := fun w => (r, w).

(** [try: body / except <classes>: handler]. *)
Definition try_except {A} (body : M A) (catches : exn -> bool)
    (handler : exn -> M A) : M A := fun w =>
  match body w with
  | (Ok a, w') => (Ok a, w')
  | (Raise e, w') => if catches e then handler e w' else (Raise e, w')
  end.

Definition nl : string := String (Ascii.ascii_of_nat 10) EmptyString.

(** ** Module-level constants *)
Definition CONFIG_FILE : string := "config.json".

(** The value [DEFAULT_CONFIG] is bound to when the module is loaded. *)
Definition DEFAULT_CONFIG : json :=
  JObj [("score_threshold", JNum 81);
        ("polling_interval", JNum 30);
        ("api_timeout", JNum 30)].

Definition BASE_URL : string := "https://api.rugcheck.xyz/v1".
Definition NEW_TOKENS_ENDPOINT : string := BASE_URL +:+ "/stats/new_tokens".

(** The variable [config] of a caller of [load_config]: it is bound either to
    the [DEFAULT_CONFIG] object itself (a change made through it is a change
    of the module's default) or to a dict of its own, fresh from
    [json.load]. *)
Inductive config_ref : Type :=
  | TheDefault
  | Loaded (j : json).

Definition is_load_error (e : exn) : bool :=
  match e with JSONDecodeError | OSError => true | _ => false end.

Definition is_RequestException (e : exn) : bool :=
  match e with RequestException _ => true | _ => false end.

Definition is_KeyboardInterrupt (e : exn) : bool :=
  match e with KeyboardInterrupt => true | _ => false end.

Definition is_ValueError (e : exn) : bool :=
  match e with ValueError | UnicodeDecodeError | JSONDecodeError => true | _ => false end.

Section Engine.

Variable E : env.
(** [SAFE_TO_BUY_FILE]: ["safe_to_buy.json"] in the directory of the
    script. *)
Variable SAFE_TO_BUY_FILE : string.

Definition fmt (v : json) : string := Py.str (repr E) v.

(** [SUMMARY_ENDPOINT_TEMPLATE.format(mint=mint)]. *)
Definition url (r : request) : string :=
  match r with
  | NewTokens => NEW_TOKENS_ENDPOINT
  | Summary mint => BASE_URL +:+ "/tokens/" +:+ fmt mint +:+ "/report/summary"
  end.

(** *** Built-ins with an effect *)

Definition print (text : string) : M unit := fun w =>
  (Ok tt, log (EvPrint text) w).

Definition input (prompt : string) : M string := fun w =>
  let w1 := log (EvInput prompt) w in
  match stdin w with
  | [] => (Raise EOFError, w1)
  | line :: rest => (Ok line, set_stdin rest w1)
  end.

(** [os.path.exists(path)]. *)
Definition path_exists (path : string) : M bool := fun w =>
  (Ok (bool_decide (is_Some (files w !! path))), w).

(** [with open(path, "r", encoding="utf-8") as f: return json.load(f)]. *)
Definition read_json (path : string) : M json := fun w =>
  match files w !! path with
  | None => (Raise OSError, w)
  | Some (ReadRaises e) => (Raise e, w)
  | Some (Parses j) => (Ok j, w)
  end.

(** [with open(path, "w", encoding="utf-8") as f: json.dump(data, f,
    indent=2)]: what is read back from the file afterwards is [data]. *)
Definition write_json (path : string) (data : json) : M unit := fun w =>
  let w1 := log (EvWrite path data) w in
  match disk E (now w) path with
  | Written => (Ok tt, set_files (<[path := Parses data]> (files w)) w1)
  | Refused => (Raise OSError, w1)
  | Truncated =>
      (Raise OSError,
       set_files (<[path := ReadRaises JSONDecodeError]> (files w)) w1)
  end.

(** [requests.get(url, timeout=timeout)]. *)
Definition requests_get (r : request) (timeout : Z) : M response := fun w =>
  let w1 := log (EvGet r timeout) w in
  match http E (now w) r timeout with
  | Fails text => (Raise (RequestException text), w1)
  | Responds resp => (Ok resp, w1)
  end.

(** [response.raise_for_status()]. *)
Definition raise_for_status (resp : response) : M unit :=
  if (400 <=? status_code resp) && (status_code resp <? 600)
  then lift (Raise (RequestException (error_text resp)))
  else mret tt.

(** [time.sleep(seconds)]. *)
Definition sleep (seconds : json) : M unit := fun w =>
  match Py.as_int seconds with
  | None => (Raise TypeError, w)
  | Some z =>
      if z <? 0 then (Raise ValueError, w)
      else
        let w1 := log (EvSleep z) w in
        if sigint E (now w) then (Raise KeyboardInterrupt, w1) else (Ok tt, w1)
  end.

(** [datetime.now(LAGOS_TZ).strftime("%Y-%m-%d %H:%M:%S %Z")]. *)
Definition now_str : M string := fun w => (Ok (clock E (now w)), w).

(** *** Configuration and record files *)

Definition save_config (config : json) : M unit :=
  write_json CONFIG_FILE config.

Definition the_default : M json := fun w => (Ok (default_config w), w).

Definition load_config : M config_ref :=
  found ← path_exists CONFIG_FILE;
  if negb found then
    d ← the_default;
    save_config d;;
    mret TheDefault
  else
    try_except
      (j ← read_json CONFIG_FILE; mret (Loaded j))
      is_load_error
      (fun _ => mret TheDefault).

(** The dict a [config] variable is bound to. *)
Definition deref (config : config_ref) : M json :=
  match config with
  | TheDefault => the_default
  | Loaded j => mret j
  end.

Definition load_json (file_path : string) : M json :=
  found ← path_exists file_path;
  if negb found then mret (JArr [])
  else
    try_except (read_json file_path) is_load_error (fun _ => mret (JArr [])).

(** [os.makedirs(..., exist_ok=True)] and the write; a failure of either
    is a failing write of the surroundings. *)
Definition save_json (file_path : string) (data : json) : M unit :=
  write_json file_path data.

(** *** TokenSource *)

Definition fetch_new_tokens : M json :=
  try_except
    (resp ← requests_get NewTokens 30;
     raise_for_status resp;;
     lift (body resp))
    is_RequestException
    (fun exc =>
       print ("⚠️  Error fetching new tokens: " +:+
              match exc with RequestException text => text | _ => EmptyString end);;
       mret (JArr [])).

Definition fetch_token_summary (mint : json) : M json :=
  try_except
    (res ← requests_get (Summary mint) 30;
     if status_code res =? 200 then lift (body res) else mret (JObj []))
    is_RequestException
    (fun _ => mret (JObj [])).

(** *** The console report *)

Definition recommendation_of (risk : string) : result string :=
  if String.eqb risk "LOW" then Ok "SAFE_TO_BUY"
  else if String.eqb risk "MEDIUM" then Ok "CAUTION_ADVISED"
  else if String.eqb risk "HIGH" then Ok "HIGH_RISK_DONT_BUY"
  else if String.eqb risk "UNKNOWN" then Ok "CAUTION_ADVISED"
  else Raise KeyError.

(** One bullet of the risk reasons. *)
Definition risk_line (risk_item : json) : result string :=
  name ← Py.get risk_item "name" (JStr "Unknown Risk");
  desc ← Py.get risk_item "description" (JStr EmptyString);
  level ← Py.get risk_item "level" (JStr EmptyString);
  Ok ("    • " +:+ fmt name +:+ " (" +:+ fmt level +:+ ") - " +:+ fmt desc).

(** The list [lines] that [format_report] joins. *)
Definition report_lines (token summary : json) (detected_at : string)
    (threshold : json) : result (list string) :=
  mint ← Py.get token "mint" (JStr "Unknown");
  token_symbol ← Py.get token "symbol" JNull;
  symbol ← Py.or_lazy token_symbol
    (meta ← Py.get summary "tokenMeta" (JObj []);
     Py.get meta "symbol" (JStr EmptyString));
  meta ← Py.get summary "tokenMeta" (JObj []);
  name ← Py.get meta "name" (Py.or_else symbol (JStr "Unknown Token"));
  token_creator ← Py.get token "creator" JNull;
  creator ← Py.or_lazy token_creator
    (Py.get summary "creator" (JStr "Unknown"));
  score_norm ← Py.get summary "score_normalised" JNull;
  let score_display :=
    match score_norm with JNull => JStr "N/A" | _ => score_norm end in
  risk ← classify_risk score_norm threshold;
  recommendation ← recommendation_of risk;
  risks ← Py.get summary "risks" JNull;
  let risks_list := Py.or_else risks (JArr []) in
  reasons ←
    (if Py.truthy risks_list then
       items ← Py.iter risks_list;
       bullets ← mapM risk_line items;
       Ok ("- Risk Reasons:" :: bullets)
     else Ok []);
  Ok (([ Py.times "=" 80%nat;
        "🚀 NEW TOKEN DETECTED!";
        Py.times "=" 80%nat;
        EmptyString;
        "📋 TOKEN INFORMATION:";
        "✅ Token Name: " +:+ fmt name;
        "✅ Token Symbol: " +:+ fmt symbol;
        "✅ Token Mint: " +:+ fmt mint;
        "👤 Creator Wallet: " +:+ fmt creator;
        "🕒 Detection Time: " +:+ detected_at;
        EmptyString;
        "📊 RUGCHECK ANALYSIS:";
        "- Safety Score: " +:+ fmt score_display +:+ "/100";
        "- Risk Level: " +:+ risk;
        "- Recommendation: " +:+ recommendation ] ++ reasons)).

Definition format_report (token summary : json) (detected_at : string)
    (threshold : json) : result string :=
  lines ← report_lines token summary detected_at threshold;
  Ok (String.concat nl lines).

(** *** RecordStore *)

(** [{item.get("mint") for item in existing if isinstance(item, dict)}]. *)
Fixpoint mint_set (items : list json) : result (gset hkey) :=
  match items with
  | [] => Ok ∅
  | item :: rest =>
      if Py.is_dict item then
        mint ← Py.get item "mint" JNull;
        k ← hash_key mint;
        mints ← mint_set rest;
        Ok ({[ k ]} ∪ mints)
      else mint_set rest
  end.

Definition append_if_not_exists (file_path : string) (entry : json) : M unit :=
  existing ← load_json file_path;
  items ← lift (Py.iter existing);
  mints ← lift (mint_set items);
  mint ← lift (Py.get entry "mint" JNull);
  k ← lift (hash_key mint);
  if bool_decide (k ∈ mints) then mret tt
  else
    existing' ← lift (Py.append existing entry);
    save_json file_path existing'.

(** *** MonitorLoop *)

(** The dict literal bound to [entry]. *)
Definition make_entry (token summary mint score_norm : json)
    (risk now_str : string) : result json :=
  meta ← Py.get summary "tokenMeta" (JObj []);
  name ← Py.get meta "name" (JStr EmptyString);
  token_symbol ← Py.get token "symbol" JNull;
  symbol ← Py.or_lazy token_symbol
    (meta' ← Py.get summary "tokenMeta" (JObj []);
     Py.get meta' "symbol" (JStr EmptyString));
  token_creator ← Py.get token "creator" JNull;
  creator ← Py.or_lazy token_creator
    (Py.get summary "creator" (JStr EmptyString));
  risks ← Py.get summary "risks" (JArr []);
  Ok (JObj [("mint", mint);
            ("name", name);
            ("symbol", symbol);
            ("creator", creator);
            ("score_normalised", score_norm);
            ("risk", JStr risk);
            ("risks", risks);
            ("detected_at", JStr now_str)]).

(** What is done with a summary once [processed.add(mint)] is past:
    classify, store when LOW, report. *)
Definition classify_and_report (threshold : json) (now_str : string)
    (token mint summary : json) : M unit :=
  score_norm ← lift (Py.get summary "score_normalised" JNull);
  risk ← lift (classify_risk score_norm threshold);
  shown ← lift (Py.get token "symbol" (JStr "Unknown"));
  print ("🔍 DEBUG: Token " +:+ fmt shown +:+ " - Score: " +:+
         fmt score_norm +:+ ", Threshold: " +:+ fmt threshold +:+
         ", Risk: " +:+ risk);;
  entry ← lift (make_entry token summary mint score_norm risk now_str);
  (if String.eqb risk "LOW" then
     shown ← lift (Py.get token "symbol" (JStr "Unknown"));
     print ("✅ SAVING: Token " +:+ fmt shown +:+ " with score " +:+
            fmt score_norm +:+ " (>" +:+ fmt threshold +:+ ")");;
     append_if_not_exists SAFE_TO_BUY_FILE entry
   else
     shown ← lift (Py.get token "symbol" (JStr "Unknown"));
     print ("❌ NOT SAVING: Token " +:+ fmt shown +:+ " with score " +:+
            fmt score_norm +:+ " (risk: " +:+ risk +:+ ")"));;
  report ← lift (format_report token summary now_str threshold);
  print report;;
  print nl.

(** The body of [for token in tokens], from the state of [processed]
    before it to the state after it. *)
Definition process_token (threshold : json) (now_str : string)
    (processed : gset hkey) (token : json) : M (gset hkey) :=
  mint ← lift (Py.get token "mint" JNull);
  if negb (Py.truthy mint) then mret processed
  else
    k ← lift (hash_key mint);
    if bool_decide (k ∈ processed) then mret processed
    else
      summary ← fetch_token_summary mint;
      if negb (Py.truthy summary) then mret ({[ k ]} ∪ processed)
      else
        let processed := {[ k ]} ∪ processed in
        classify_and_report threshold now_str token mint summary;;
        mret processed.

Fixpoint for_tokens (threshold : json) (now_str : string)
    (tokens : list json) (processed : gset hkey) : M (gset hkey) :=
  match tokens with
  | [] => mret processed
  | token :: rest =>
      processed' ← process_token threshold now_str processed token;
      for_tokens threshold now_str rest processed'
  end.

(** One turn of [while True]. *)
Definition poll_cycle (threshold interval : json) (processed : gset hkey)
    : M (gset hkey) :=
  tokens ← fetch_new_tokens;
  stamp ← now_str;
  items ← lift (Py.iter tokens);
  processed' ← for_tokens threshold stamp items processed;
  sleep interval;;
  mret processed'.

(** [cycles] turns of the loop; it is left only by an exception. *)
Fixpoint monitor_loop (cycles : nat) (threshold interval : json)
    (processed : gset hkey) : M (gset hkey) :=
  match cycles with
  | O => mret processed
  | S n =>
      processed' ← poll_cycle threshold interval processed;
      monitor_loop n threshold interval processed'
  end.

(** Where [start_monitoring] is after [cycles] turns: still polling, with
    the set [processed], or returned after Ctrl+C. *)
Inductive monitor_status : Type :=
  | Polling (processed : gset hkey)
  | Stopped.

Definition start_monitoring (cycles : nat) : M monitor_status :=
  config ← load_config;
  settings ← deref config;
  threshold ← lift (Py.getitem settings "score_threshold");
  interval ← lift (Py.getitem settings "polling_interval");
  print (nl +:+ "🔍 Starting monitoring with threshold: " +:+ fmt threshold +:+ "+");;
  print ("⏱️  Polling interval: " +:+ fmt interval +:+ " seconds");;
  print ("Press Ctrl+C to stop monitoring" +:+ nl);;
  try_except
    (processed ← monitor_loop cycles threshold interval ∅;
     mret (Polling processed))
    is_KeyboardInterrupt
    (fun _ =>
       print (nl +:+ "🛑 Monitoring stopped.");;
       print (nl +:+ "💝 If you loved this tool, feel free to donate to:");;
       print "   FnqoYxGvhzJdiKvw5e8MGT2sL5V69XCTSCqA7uU4WX7v";;
       input "Press Enter to continue...";;
       mret Stopped).

(** *** Configuration editing *)

(** [config[key] = v]: the dict [config] is bound to changes in place. *)
Definition assign (config : config_ref) (key : string) (v : json)
    : M config_ref :=
  match config with
  | TheDefault => fun w =>
      match Py.setitem (default_config w) key v with
      | Ok d => (Ok TheDefault, set_default_config d w)
      | Raise e => (Raise e, w)
      end
  | Loaded j => d ← lift (Py.setitem j key v); mret (Loaded d)
  end.

(** [int(text)]. *)
Definition int_of (text : string) : result Z :=
  match to_int E text with
  | Some v => Ok v
  | None => Raise ValueError
  end.

(** The [try] statement of the branches 1, 2 and 3, which differ in the
    key, the bounds and the texts only. *)
Definition edit_bounded (config : config_ref) (key prompt : string)
    (lo hi : Z) (updated : Z -> string) (rejected : string) : M config_ref :=
  try_except
    (settings ← deref config;
     current ← lift (Py.getitem settings key);
     text ← input (prompt +:+ fmt current +:+ "): ");
     new_value ← lift (int_of text);
     if (lo <=? new_value) && (new_value <=? hi) then
       config' ← assign config key (JNum new_value);
       settings' ← deref config';
       save_config settings';;
       print (updated new_value);;
       mret config'
     else
       print rejected;;
       mret config)
    is_ValueError
    (fun _ => print "❌ Please enter a valid number";; mret config).

(** The [if]/[elif] chain on [choice]; the boolean tells whether the loop
    is left ([break]). *)
Definition edit_choice (config : config_ref) (choice : string)
    : M (config_ref * bool) :=
  if String.eqb choice "1" then
    config' ← edit_bounded config "score_threshold"
      "Enter new threshold (current: " 1 100
      (fun v => "✅ Threshold updated to " +:+ pretty v +:+ "+")
      "❌ Threshold must be between 1 and 100";
    mret (config', false)
  else if String.eqb choice "2" then
    config' ← edit_bounded config "polling_interval"
      "Enter new polling interval in seconds (current: " 5 300
      (fun v => "✅ Polling interval updated to " +:+ pretty v +:+ " seconds")
      "❌ Interval must be between 5 and 300 seconds";
    mret (config', false)
  else if String.eqb choice "3" then
    config' ← edit_bounded config "api_timeout"
      "Enter new API timeout in seconds (current: " 10 120
      (fun v => "✅ API timeout updated to " +:+ pretty v +:+ " seconds")
      "❌ Timeout must be between 10 and 120 seconds";
    mret (config', false)
  else if String.eqb choice "4" then mret (config, true)
  else
    print "❌ Invalid option. Please select 1-4.";;
    mret (config, false).

Definition edit_menu (config : config_ref) : M unit :=
  print (nl +:+ "🔧 Edit Configuration");;
  print (Py.times "=" 30%nat);;
  settings ← deref config;
  threshold ← lift (Py.getitem settings "score_threshold");
  print ("1. Score Threshold (current: " +:+ fmt threshold +:+ "+)");;
  interval ← lift (Py.getitem settings "polling_interval");
  print ("2. Polling Interval (current: " +:+ fmt interval +:+ "s)");;
  timeout ← lift (Py.getitem settings "api_timeout");
  print ("3. API Timeout (current: " +:+ fmt timeout +:+ "s)");;
  print "4. Back to main menu".

(** Where [edit_configuration] is after some turns of its loop. *)
Inductive edit_status : Type :=
  | Editing (config : config_ref)
  | Left.

Fixpoint edit_loop (turns : nat) (config : config_ref) : M edit_status :=
  match turns with
  | O => mret (Editing config)
  | S n =>
      edit_menu config;;
      line ← input (nl +:+ "Select option (1-4): ");
      '(config', leave) ← edit_choice config (strip E line);
      if leave : bool then mret Left
      else
        input "Press Enter to continue...";;
        edit_loop n config'
  end.

Definition edit_configuration (turns : nat) : M edit_status :=
  config ← load_config;
  edit_loop turns config.

End Engine.

(** ** Vocabulary of the properties *)

(** The entries the record file holds: the items of its array. *)
Definition stored (w : world) (path : string) : list json :=
  match files w !! path with
  | Some (Parses (JArr items)) => items
  | _ => []
  end.

(** Whether [item] is an entry whose [mint] is [k]. *)
Definition has_mint (k : hkey) (item : json) : bool :=
  match item with
  | JObj d =>
      match hash_key (match Py.dict_get d "mint" with Some v => v | None => JNull end) with
      | Ok k' => bool_decide (k' = k)
      | Raise _ => false
      end
  | _ => false
  end.

Definition entries_with_mint (k : hkey) (w : world) (path : string) : list json :=
  List.filter (has_mint k) (stored w path).

(** The events of [w'] that were not yet in [w], newest first. *)
Definition events_since (w w' : world) : list event :=
  take (length (trace w') - length (trace w)) (trace w').

(** Whether [ev] is a request to the summary endpoint for [mint]. *)
Definition is_summary_get_for (mint : json) (ev : event) : bool :=
  match ev with
  | EvGet (Summary m) _ => Py.equal m mint
  | _ => false
  end.

Definition summary_fetches (mint : json) (evs : list event) : nat :=
  length (List.filter (is_summary_get_for mint) evs).

(** [m] only adds events that satisfy [P]. *)
Definition emits {A} (P : event -> Prop) (m : M A) : Prop :=
  forall w, exists evs, trace (m w).2 = evs ++ trace w /\ Forall P evs.

(** The key under which a request to the summary endpoint is remembered. *)
Definition fetch_key (ev : event) : option (result hkey) :=
  match ev with
  | EvGet (Summary m) _ => Some (hash_key m)
  | _ => None
  end.

Definition fetch_keys (evs : list event) : list (result hkey) :=
  omap fetch_key evs.

(** [ev] is not a request to the summary endpoint. *)
Definition quiet (ev : event) : Prop := fetch_key ev = None.

(** Since the trace was [old], the summary endpoint has been asked at most
    once per key, and only for keys that are in [processed]. *)
Definition tracked (old : list event) (processed : gset hkey) (w : world) : Prop :=
  exists new,
    trace w = new ++ old /\
    NoDup (fetch_keys new) /\
    forall r, r ∈ fetch_keys new -> exists k, r = Ok k /\ k ∈ processed.

(** Every request carries the timeout 30. *)
Definition timeout_30 (ev : event) : Prop :=
  match ev with
  | EvGet _ timeout => timeout = 30
  | _ => True
  end.

(** The state of [processed] a computation ends with keeps the record of
    the requests, also when it ends with an exception. *)
Definition keeps_track (old : list event) (out : result (gset hkey) * world) : Prop :=
  exists processed,
    tracked old processed out.2 /\
    match out.1 with Ok q => q = processed | Raise _ => True end.

(** The summary endpoint did not deliver: [requests.get] raised, or the
    status is not 200. *)
Definition unavailable (answer : http_result) : Prop :=
  match answer with
  | Fails _ => True
  | Responds resp => status_code resp <> 200
  end.

(** The collection [append_if_not_exists] starts from, when the file gives
    one: nothing for a file that is absent or whose reading raises [OSError]
    or [JSONDecodeError], the items of the array for a file that holds one.
    A file whose reading raises anything else, or that holds a value other
    than an array, gives none. *)
Definition existing_items (w : world) (path : string) : option (list json) :=
  match files w !! path with
  | None => Some []
  | Some (ReadRaises e) => if is_load_error e then Some [] else None
  | Some (Parses (JArr items)) => Some items
  | Some (Parses _) => None
  end.

(** The file is absent, or reading it raises one of the two exceptions that
    [load_json] catches: [OSError] (it cannot be opened or read) or
    [JSONDecodeError] (its text is not JSON). *)
Definition absent_or_caught (w : world) (path : string) : Prop :=
  files w !! path = None \/
  exists e, files w !! path = Some (ReadRaises e) /\ is_load_error e = true.

(** The file gives [view_historical_data] nothing to show: it is absent or
    caught as above, or it holds a value that [not tokens] takes for empty
    (the empty list, but also [{}], [null], [0]). *)
Definition nothing_stored (w : world) (path : string) : Prop :=
  absent_or_caught w path \/
  exists j, files w !! path = Some (Parses j) /\ Py.truthy j = false.

(** [entry] is a dict whose [mint] hashes to [k]. *)
Definition entry_key (entry : json) (k : hkey) : Prop :=
  exists mint, Py.get entry "mint" JNull = Ok mint /\ hash_key mint = Ok k.


(** [token.get(key)]: what the discovery record says, [None] when it does
    not say. *)
Definition discovered (token : json) (key : string) : json :=
  match Py.get token key JNull with
  | Ok v => v
  | Raise _ => JNull
  end.

(** The symbol of the risk report, [summary["tokenMeta"]["symbol"]], or the
    empty string. *)
Definition reported_symbol (summary : json) : json :=
  match Py.get summary "tokenMeta" (JObj []) with
  | Ok meta =>
      match Py.get meta "symbol" (JStr EmptyString) with
      | Ok v => v
      | Raise _ => JNull
      end
  | Raise _ => JNull
  end.

(** The creator of the risk report, or [dflt]. *)
Definition reported_creator (summary dflt : json) : json :=
  match Py.get summary "creator" dflt with
  | Ok v => v
  | Raise _ => JNull
  end.

(** The precedence C8 states: the discovery record's value when the key is
    there, the report's value when it is not. *)
Definition present_else (token : json) (key : string) (reported : json) : json :=
  match token with
  | JObj d =>
      match Py.dict_get d key with
      | Some v => v
      | None => reported
      end
  | _ => reported
  end.

(** The three settings of the edit menu, with the choice that selects each,
    its key, its declared bounds and the text that reports a value outside
    them. *)
Inductive setting : Type :=
  | ScoreThreshold
  | PollingInterval
  | ApiTimeout.

Definition setting_choice (s : setting) : string :=
  match s with
  | ScoreThreshold => "1"
  | PollingInterval => "2"
  | ApiTimeout => "3"
  end.

Definition setting_key (s : setting) : string :=
  match s with
  | ScoreThreshold => "score_threshold"
  | PollingInterval => "polling_interval"
  | ApiTimeout => "api_timeout"
  end.

Definition setting_bounds (s : setting) : Z * Z :=
  match s with
  | ScoreThreshold => (1, 100)
  | PollingInterval => (5, 300)
  | ApiTimeout => (10, 120)
  end.

Definition setting_rejection (s : setting) : string :=
  match s with
  | ScoreThreshold => "❌ Threshold must be between 1 and 100"
  | PollingInterval => "❌ Interval must be between 5 and 300 seconds"
  | ApiTimeout => "❌ Timeout must be between 10 and 120 seconds"
  end.

(** The dict a [config] variable is bound to in the world [w]. *)
Definition settings_of (config : config_ref) (w : world) : json :=
  match config with
  | TheDefault => default_config w
  | Loaded j => j
  end.

(** ** Sample surroundings, for concrete runs *)

(** [int(text)] for a plain decimal numeral. *)
Fixpoint decimal (acc : Z) (digits : list Ascii.ascii) : option Z :=
  match digits with
  | [] => Some acc
  | c :: rest =>
      let n := Z.of_nat (Ascii.nat_of_ascii c) - 48 in
      if (0 <=? n) && (n <=? 9) then decimal (10 * acc + n) rest else None
  end.

Definition sample_to_int (text : string) : option Z :=
  match list_ascii_of_string text with
  | [] => None
  | digits => decimal 0 digits
  end.

(** A network given by [answer], a disk that takes every write, no Ctrl+C. *)
Definition sample_env (answer : request -> http_result) : env :=
  {| http := fun _ r _ => answer r;
     disk := fun _ _ => Written;
     clock := fun _ => "2025-01-01 12:00:00 UTC+01:00";
     sigint := fun _ => false;
     repr := fun _ => "[...]";
     to_int := sample_to_int;
     strip := fun text => text |}.

Definition ok_response (j : json) : http_result :=
  Responds {| status_code := 200; body := Ok j; error_text := EmptyString |}.

(** The same surroundings with a disk that refuses every write. *)
Definition with_full_disk (E : env) : env :=
  {| http := http E; disk := fun _ _ => Refused; clock := clock E;
     sigint := sigint E; repr := repr E; to_int := to_int E; strip := strip E |}.

(** The same surroundings with a disk on which every write fails after
    [open(path, "w")] has emptied the file. *)
Definition with_truncating_disk (E : env) : env :=
  {| http := http E; disk := fun _ _ => Truncated; clock := clock E;
     sigint := sigint E; repr := repr E; to_int := to_int E; strip := strip E |}.

(** The requests among [evs]. *)
Definition requests_of (evs : list event) : list event :=
  List.filter (fun ev => match ev with EvGet _ _ => true | _ => false end) evs.

(** A network with one new token, A, whose summary scores 95. *)
Definition one_token_network (r : request) : http_result :=
  match r with
  | NewTokens => ok_response (JArr [JObj [("mint", JStr "A")]])
  | Summary _ => ok_response (JObj [("score_normalised", JNum 95)])
  end.

(** The world of a first start: no file yet, nothing typed. *)
Definition first_start : world :=
  {| files := ∅; default_config := DEFAULT_CONFIG; stdin := []; trace := [] |}.

Definition with_file (path : string) (content : file_content) (w : world) : world :=
  set_files (<[path := content]> (files w)) w.

(** The world [w] with [lines] waiting on the standard input. *)
Definition typing (lines : list string) (w : world) : world := set_stdin lines w.

(** A network with two new tokens, A scoring 95 and B scoring 40, where the
    discovery endpoint lists A twice. *)
Definition two_token_network (r : request) : http_result :=
  match r with
  | NewTokens =>
      ok_response (JArr [JObj [("mint", JStr "A")];
                         JObj [("mint", JStr "B")];
                         JObj [("mint", JStr "A")]])
  | Summary (JStr "A") => ok_response (JObj [("score_normalised", JNum 95)])
  | Summary _ => ok_response (JObj [("score_normalised", JNum 40)])
  end.

(** A discovery record with an empty symbol, and a risk report. *)
Definition sample_token : json :=
  JObj [("mint", JStr "A"); ("symbol", JStr EmptyString); ("creator", JStr "wallet-1")].

Definition sample_summary : json :=
  JObj [("score_normalised", JNum 95);
        ("tokenMeta", JObj [("name", JStr "Alpha"); ("symbol", JStr "ALP")]);
        ("creator", JStr "wallet-2")].

Definition sample_entry : json :=
  Eval vm_compute in
    match make_entry sample_token sample_summary (JStr "A") (JNum 95) "LOW" "now" with
    | Ok entry => entry
    | Raise _ => JNull
    end.

Definition sample_lines : list string :=
  Eval vm_compute in
    match report_lines (sample_env one_token_network) sample_token sample_summary
            "now" (JNum 81) with
    | Ok lines => lines
    | Raise _ => []
    end.

(** ** The screens that only show: history and configuration *)

(** [len(v)]: the items of a list, the keys of a dict, the characters of a
    string (the bytes of its UTF-8 text that do not continue a character). *)
Definition len_of (v : json) : result nat :=
  match v with
  | JArr l => Ok (length l)
  | JObj d => Ok (length d)
  | JStr s =>
      Ok (length (List.filter
                    (fun c => negb ((128 <=? Z.of_nat (Ascii.nat_of_ascii c)) &&
                                    (Z.of_nat (Ascii.nat_of_ascii c) <? 192)))
                    (list_ascii_of_string s)))
  | _ => Raise TypeError
  end.

Section Screens.

Variable E : env.
Variable SAFE_TO_BUY_FILE : string.

(** The body of [for risk in risks]. *)
Definition view_risk (risk : json) : M unit :=
  name ← lift (Py.get risk "name" (JStr "Unknown"));
  level ← lift (Py.get risk "level" (JStr "Unknown"));
  print ("     • " +:+ fmt E name +:+ " (" +:+ fmt E level +:+ ")").

Fixpoint view_risks (risks : list json) : M unit :=
  match risks with
  | [] => mret tt
  | risk :: rest => view_risk risk;; view_risks rest
  end.

(** The body of [for i, token in enumerate(tokens, 1)]. *)
Definition view_token (i : nat) (token : json) : M unit :=
  symbol ← lift (Py.get token "symbol" (JStr "Unknown"));
  print (nl +:+ pretty i +:+ ". Token: " +:+ fmt E symbol);;
  name ← lift (Py.get token "name" (JStr "Unknown"));
  print ("   Name: " +:+ fmt E name);;
  mint ← lift (Py.get token "mint" (JStr "Unknown"));
  print ("   Mint: " +:+ fmt E mint);;
  score ← lift (Py.get token "score_normalised" (JStr "N/A"));
  print ("   Score: " +:+ fmt E score +:+ "/100");;
  risk ← lift (Py.get token "risk" (JStr "Unknown"));
  print ("   Risk: " +:+ fmt E risk);;
  detected ← lift (Py.get token "detected_at" (JStr "Unknown"));
  print ("   Detected: " +:+ fmt E detected);;
  creator ← lift (Py.get token "creator" (JStr "Unknown"));
  print ("   Creator: " +:+ fmt E creator);;
  risks ← lift (Py.get token "risks" (JArr []));
  if Py.truthy risks then
    print "   Risk Factors:";;
    items ← lift (Py.iter risks);
    view_risks items
  else mret tt.

Fixpoint view_tokens (i : nat) (tokens : list json) : M unit :=
  match tokens with
  | [] => mret tt
  | token :: rest => view_token i token;; view_tokens (S i) rest
  end.

Definition view_historical_data : M unit :=
  tokens ← load_json SAFE_TO_BUY_FILE;
  if negb (Py.truthy tokens) then
    print (nl +:+ "📭 No tokens found in safe_to_buy.json");;
    input "Press Enter to continue...";;
    mret tt
  else
    count ← lift (len_of tokens);
    print (nl +:+ "📊 Historical Data - " +:+ pretty count +:+ " tokens found");;
    print (Py.times "=" 80%nat);;
    items ← lift (Py.iter tokens);
    view_tokens 1 items;;
    count' ← lift (len_of tokens);
    print (nl +:+ "📈 Total tokens stored: " +:+ pretty count');;
    input "Press Enter to continue...";;
    mret tt.

Definition show_configuration : M unit :=
  config ← load_config E;
  print (nl +:+ "⚙️  Current Configuration");;
  print (Py.times "=" 40%nat);;
  settings ← deref config;
  threshold ← lift (Py.getitem settings "score_threshold");
  print ("Score Threshold: " +:+ fmt E threshold +:+ "+ (tokens must score above this)");;
  interval ← lift (Py.getitem settings "polling_interval");
  print ("Polling Interval: " +:+ fmt E interval +:+ " seconds");;
  timeout ← lift (Py.getitem settings "api_timeout");
  print ("API Timeout: " +:+ fmt E timeout +:+ " seconds");;
  print (nl +:+ "📋 Risk Classification:");;
  threshold' ← lift (Py.getitem settings "score_threshold");
  print ("• LOW (Safe): Score > " +:+ fmt E threshold');;
  threshold'' ← lift (Py.getitem settings "score_threshold");
  print ("• MEDIUM (Warning): 50 ≤ Score ≤ " +:+ fmt E threshold'');;
  print "• HIGH (Danger): Score < 50";;
  input (nl +:+ "Press Enter to continue...");;
  mret tt.

End Screens.

(** ** Vocabulary of the further properties *)

(** From the files before [m] to the files after it, [R] holds. *)
Definition run_rel {A} (R : relation (gmap string file_content)) (m : M A) : Prop :=
  forall w, R (files w) (files (m w).2).

(** What [stored] reads, on the files alone. *)
Definition stored_in (fs : gmap string file_content) (path : string) : list json :=
  match fs !! path with
  | Some (Parses (JArr items)) => items
  | _ => []
  end.

(** No two of [items] are entries with the same mint. *)
Definition mints_unique (items : list json) : Prop :=
  forall k, (length (List.filter (has_mint k) items) <= 1)%nat.

(** The keys of the mints the summary endpoint was asked for in [evs]. *)
Definition fetched_set (evs : list event) : gset hkey :=
  list_to_set (omap (fun ev => match fetch_key ev with
                               | Some (Ok k) => Some k
                               | _ => None
                               end) evs).

(** [ev] is not a write. *)
Definition not_a_write (ev : event) : Prop :=
  match ev with
  | EvWrite _ _ => False
  | _ => True
  end.

(** Outside the record file, and outside the configuration file when that
    did not exist, the files are as before. *)
Definition same_elsewhere (record : string) (fs fs' : gmap string file_content) : Prop :=
  forall path, path <> record -> path <> CONFIG_FILE -> fs' !! path = fs !! path.

(** With a configuration file in place, all files but the record file are
    as before. *)
Definition same_but_record (record : string) (fs fs' : gmap string file_content) : Prop :=
  is_Some (fs !! CONFIG_FILE) ->
  forall path, path <> record -> fs' !! path = fs !! path.

Definition unique_kept (record : string) (fs fs' : gmap string file_content) : Prop :=
  mints_unique (stored_in fs record) -> mints_unique (stored_in fs' record).

Definition prefix_kept (record : string) (fs fs' : gmap string file_content) : Prop :=
  stored_in fs record `prefix_of` stored_in fs' record.

(** Since the trace was [old], [processed] is [start] and the keys of the
    mints the summary endpoint was asked for. *)
Definition accounted (old : list event) (start processed : gset hkey) (w : world) : Prop :=
  exists new, trace w = new ++ old /\ processed = start ∪ fetched_set new.

(** The prompt and the confirmation of each setting of the edit menu. *)
Definition setting_prompt (s : setting) : string :=
  match s with
  | ScoreThreshold => "Enter new threshold (current: "
  | PollingInterval => "Enter new polling interval in seconds (current: "
  | ApiTimeout => "Enter new API timeout in seconds (current: "
  end.

Definition setting_updated (s : setting) (v : Z) : string :=
  match s with
  | ScoreThreshold => "✅ Threshold updated to " +:+ pretty v +:+ "+"
  | PollingInterval => "✅ Polling interval updated to " +:+ pretty v +:+ " seconds"
  | ApiTimeout => "✅ API timeout updated to " +:+ pretty v +:+ " seconds"
  end.

(** The world after the three lines [start_monitoring] prints before its
    loop. *)
Definition after_banner (E : env) (threshold interval : json) (w : world) : world :=
  log (EvPrint ("Press Ctrl+C to stop monitoring" +:+ nl))
    (log (EvPrint ("⏱️  Polling interval: " +:+ fmt E interval +:+ " seconds"))
       (log (EvPrint (nl +:+ "🔍 Starting monitoring with threshold: " +:+
                      fmt E threshold +:+ "+")) w)).

(** A network whose summaries are a list, not a dict. *)
Definition malformed_network (r : request) : http_result :=
  match r with
  | NewTokens => ok_response (JArr [JObj [("mint", JStr "A")]])
  | Summary _ => ok_response (JArr [JNum 1])
  end.

(** The same surroundings with Ctrl+C arriving in every sleep. *)
Definition with_ctrl_c (E : env) : env :=
  {| http := http E; disk := disk E; clock := clock E;
     sigint := fun _ => true; repr := repr E; to_int := to_int E; strip := strip E |}.

(** A summary as the service documents it: a dict whose [tokenMeta], when
    there, is a dict; whose [score_normalised], when there, is an integer or
    null; and whose [risks], when there, is falsy or a list of dicts. *)
Definition well_formed_summary (summary : json) : Prop :=
  exists sd,
    summary = JObj sd /\
    match Py.dict_get sd "tokenMeta" with
    | None | Some (JObj _) => True
    | Some _ => False
    end /\
    match Py.dict_get sd "score_normalised" with
    | None | Some JNull | Some (JNum _) => True
    | Some _ => False
    end /\
    match Py.dict_get sd "risks" with
    | None => True
    | Some (JArr items) => Forall (fun item => Py.is_dict item = true) items
    | Some v => Py.truthy v = false
    end.

(** Any event at all. *)
Definition any_event (ev : event) : Prop := True.

(** * Properties *)

(** ** RiskClassifier *)

Lemma classify_risk_int (s t : Z) :
  classify_risk (JNum s) (JNum t) =
    Ok (if s >? t then "LOW" else if s >=? 50 then "MEDIUM" else "HIGH").
Proof.
  unfold classify_risk; cbn.
  destruct (s >? t); [reflexivity|]. cbn.
  destruct (s >=? 50); reflexivity.
Qed.

(** C1, as stated, fails: with the threshold 40 the score 45 is below 50 and
    yet classified LOW, not HIGH. *)
Lemma classify_risk_below_50_not_high :
  classify_risk (JNum 45) (JNum 40) = Ok "LOW" /\
  ~ (classify_risk (JNum 45) (JNum 40) = Ok "HIGH" <-> 45 < 50).
Proof.
  split; [reflexivity|].
  intros [_ H]. specialize (H ltac:(lia)). vm_compute in H. discriminate H.
Qed.

(** C1, amended: for all integer scores [s] and thresholds [t] the tier is
    LOW iff [s > t], MEDIUM iff [50 <= s <= t], HIGH iff [s < 50] and
    [s <= t]; an absent score gives UNKNOWN whatever the threshold. *)
Theorem classify_risk_tiers (s t : Z) (threshold : json) :
  (classify_risk (JNum s) (JNum t) = Ok "LOW" <-> s > t) /\
  (classify_risk (JNum s) (JNum t) = Ok "MEDIUM" <-> 50 <= s <= t) /\
  (classify_risk (JNum s) (JNum t) = Ok "HIGH" <-> s < 50 /\ s <= t) /\
  classify_risk JNull threshold = Ok "UNKNOWN".
Proof.
  rewrite classify_risk_int.
  destruct (Z.gtb_spec s t), (Z.geb_spec s 50);
    repeat split; intros; try discriminate; try lia.
Qed.

(** ** Reasoning about effectful computations *)

Lemma bind_unfold {A B} (m : M A) (f : A -> M B) (w : world) :
  (m ≫= f) w =
    match m w with
    | (Ok a, w') => f a w'
    | (Raise e, w') => (Raise e, w')
    end.
Proof. reflexivity. Qed.

Lemma bind_Ok {A B} (m : M A) (f : A -> M B) (w w' : world) (a : A) :
  m w = (Ok a, w') -> (m ≫= f) w = f a w'.
Proof. intros H. rewrite bind_unfold, H. reflexivity. Qed.

Lemma bind_Raise {A B} (m : M A) (f : A -> M B) (w w' : world) (e : exn) :
  m w = (Raise e, w') -> (m ≫= f) w = (Raise e, w').
Proof. intros H. rewrite bind_unfold, H. reflexivity. Qed.

Lemma bind_lift {A B} (r : result A) (f : A -> M B) (w : world) :
  (lift r ≫= f) w =
    match r with
    | Ok a => f a w
    | Raise e => (Raise e, w)
    end.
Proof. destruct r; reflexivity. Qed.

Create HintDb emits.

Section EmitsCore.

Variable P : event -> Prop.

Lemma emits_ret {A} (a : A) : emits P (mret a).
Proof. intros w. exists []. split; [reflexivity|constructor]. Qed.

Lemma emits_lift {A} (r : result A) : emits P (lift r).
Proof. intros w. exists []. split; [reflexivity|constructor]. Qed.

Lemma emits_bind {A B} (m : M A) (f : A -> M B) :
  emits P m -> (forall a, emits P (f a)) -> emits P (m ≫= f).
Proof.
  intros Hm Hf w. rewrite bind_unfold.
  destruct (Hm w) as (evs & Htr & Hall).
  destruct (m w) as [[a|e] w1]; cbn in Htr.
  - destruct (Hf a w1) as (evs' & Htr' & Hall').
    exists (evs' ++ evs). rewrite Htr', Htr, app_assoc.
    split; [reflexivity|]. apply Forall_app; auto.
  - exists evs. auto.
Qed.

Lemma emits_try_except {A} (body : M A) (catches : exn -> bool)
    (handler : exn -> M A) :
  emits P body -> (forall e, emits P (handler e)) ->
  emits P (try_except body catches handler).
Proof.
  intros Hm Hh w. unfold try_except.
  destruct (Hm w) as (evs & Htr & Hall).
  destruct (body w) as [[a|e] w1]; cbn in Htr.
  - exists evs. auto.
  - destruct (catches e).
    + destruct (Hh e w1) as (evs' & Htr' & Hall').
      exists (evs' ++ evs). rewrite Htr', Htr, app_assoc.
      split; [reflexivity|]. apply Forall_app; auto.
    + exists evs. auto.
Qed.

Lemma emits_if {A} (b : bool) (m1 m2 : M A) :
  emits P m1 -> emits P m2 -> emits P (if b then m1 else m2).
Proof. destruct b; auto. Qed.

Lemma emits_one {A} (m : M A) (ev : event) :
  P ev ->
  (forall w, trace (m w).2 = trace w \/ trace (m w).2 = ev :: trace w) ->
  emits P m.
Proof.
  intros Hev H w. destruct (H w) as [Htr|Htr].
  - exists []. split; [exact Htr|constructor].
  - exists [ev]. split; [exact Htr|]. constructor; [exact Hev|constructor].
Qed.

End EmitsCore.

Ltac emits_step :=
  first
    [ solve [auto 8 with emits]
    | apply emits_bind; [|intros ?]
    | apply emits_try_except; [|intros ?]
    | apply emits_if ].

Section Emits.

Variable P : event -> Prop.
Variable E : env.
Variable SAFE_TO_BUY_FILE : string.

Hypothesis P_print : forall text, P (EvPrint text).
Hypothesis P_input : forall prompt, P (EvInput prompt).
Hypothesis P_write : forall path data, P (EvWrite path data).
Hypothesis P_sleep : forall seconds, P (EvSleep seconds).

Lemma emits_print text : emits P (print text).
Proof. apply (emits_one _ _ (EvPrint text)); [apply P_print|]. intros w. right. reflexivity. Qed.

Lemma emits_input prompt : emits P (input prompt).
Proof.
  apply (emits_one _ _ (EvInput prompt)); [apply P_input|].
  intros w. right. unfold input. destruct (stdin w); reflexivity.
Qed.

Lemma emits_path_exists path : emits P (path_exists path).
Proof. intros w. exists []. split; [reflexivity|constructor]. Qed.

Lemma emits_read_json path : emits P (read_json path).
Proof.
  intros w. exists []. split; [|constructor].
  unfold read_json. destruct (files w !! path) as [[j|e]|]; reflexivity.
Qed.

Lemma emits_write_json path data : emits P (write_json E path data).
Proof.
  apply (emits_one _ _ (EvWrite path data)); [apply P_write|].
  intros w. right. unfold write_json. destruct (disk E (now w) path); reflexivity.
Qed.

Lemma emits_sleep seconds : emits P (sleep E seconds).
Proof.
  intros w. unfold sleep. destruct (Py.as_int seconds) as [z|].
  - destruct (z <? 0).
    + exists []. split; [reflexivity|constructor].
    + exists [EvSleep z]. split.
      * destruct (sigint E (now w)); reflexivity.
      * constructor; [apply P_sleep|constructor].
  - exists []. split; [reflexivity|constructor].
Qed.

Lemma emits_now_str : emits P (now_str E).
Proof. intros w. exists []. split; [reflexivity|constructor]. Qed.

Lemma emits_the_default : emits P the_default.
Proof. intros w. exists []. split; [reflexivity|constructor]. Qed.

Lemma emits_deref config : emits P (deref config).
Proof. destruct config; [apply emits_the_default|apply emits_ret]. Qed.

Hint Resolve emits_ret emits_lift emits_print emits_input emits_path_exists
  emits_read_json emits_write_json emits_sleep emits_now_str
  emits_the_default emits_deref : emits.

Lemma emits_save_config config : emits P (save_config E config).
Proof. apply emits_write_json. Qed.

Lemma emits_save_json path data : emits P (save_json E path data).
Proof. apply emits_write_json. Qed.

Hint Resolve emits_save_config emits_save_json : emits.

Lemma emits_load_config : emits P (load_config E).
Proof. unfold load_config. repeat emits_step. Qed.

Lemma emits_load_json path : emits P (load_json path).
Proof. unfold load_json. repeat emits_step. Qed.

Hint Resolve emits_load_config emits_load_json : emits.

Lemma emits_append_if_not_exists path entry :
  emits P (append_if_not_exists E path entry).
Proof. unfold append_if_not_exists. repeat emits_step. Qed.

Hint Resolve emits_append_if_not_exists : emits.

Lemma emits_classify_and_report threshold stamp token mint summary :
  emits P (classify_and_report E SAFE_TO_BUY_FILE threshold stamp token mint summary).
Proof. unfold classify_and_report. repeat emits_step. Qed.

Hypothesis P_get_new : P (EvGet NewTokens 30).

Lemma emits_requests_get_new : emits P (requests_get E NewTokens 30).
Proof.
  apply (emits_one _ _ (EvGet NewTokens 30)); [apply P_get_new|].
  intros w. right. unfold requests_get.
  destruct (http E (now w) NewTokens 30); reflexivity.
Qed.

Lemma emits_fetch_new_tokens : emits P (fetch_new_tokens E).
Proof.
  unfold fetch_new_tokens, raise_for_status.
  apply emits_try_except; [|intros ?]; repeat emits_step.
  apply emits_requests_get_new.
Qed.

End Emits.

(** ** TokenSource: the timeout of the requests *)

Lemma timeout_30_fetch_token_summary E mint :
  emits timeout_30 (fetch_token_summary E mint).
Proof.
  unfold fetch_token_summary.
  apply emits_try_except; [|intros ?; apply emits_ret].
  apply emits_bind; [|intros ?; apply emits_if; [apply emits_lift|apply emits_ret]].
  apply (emits_one _ _ (EvGet (Summary mint) 30)); [reflexivity|].
  intros w. right. unfold requests_get.
  destruct (http E (now w) (Summary mint) 30); reflexivity.
Qed.

Section Timeout.

Variable E : env.
Variable SAFE_TO_BUY_FILE : string.

Hint Resolve emits_ret emits_lift emits_print emits_input emits_sleep
  emits_now_str emits_deref emits_load_config emits_classify_and_report
  emits_fetch_new_tokens timeout_30_fetch_token_summary : emits.
Hint Extern 1 (timeout_30 _) => exact I : emits.
Hint Extern 1 (timeout_30 (EvGet _ 30)) => reflexivity : emits.

Lemma timeout_30_process_token threshold stamp processed token :
  emits timeout_30
    (process_token E SAFE_TO_BUY_FILE threshold stamp processed token).
Proof. unfold process_token. repeat emits_step. Qed.

Lemma timeout_30_for_tokens threshold stamp tokens processed :
  emits timeout_30 (for_tokens E SAFE_TO_BUY_FILE threshold stamp tokens processed).
Proof.
  revert processed. induction tokens as [|token rest IH]; intros processed; cbn.
  - apply emits_ret.
  - apply emits_bind; [apply timeout_30_process_token|intros p; apply IH].
Qed.

Hint Resolve timeout_30_for_tokens : emits.

Lemma timeout_30_poll_cycle threshold interval processed :
  emits timeout_30 (poll_cycle E SAFE_TO_BUY_FILE threshold interval processed).
Proof. unfold poll_cycle. repeat emits_step. Qed.

Lemma timeout_30_monitor_loop cycles threshold interval processed :
  emits timeout_30 (monitor_loop E SAFE_TO_BUY_FILE cycles threshold interval processed).
Proof.
  revert processed. induction cycles as [|n IH]; intros processed; cbn.
  - apply emits_ret.
  - apply emits_bind; [apply timeout_30_poll_cycle|intros p; apply IH].
Qed.

Hint Resolve timeout_30_monitor_loop : emits.

(** Whatever the configuration holds, every request of a monitoring run is
    made with the timeout 30. *)
Lemma timeout_30_start_monitoring cycles :
  emits timeout_30 (start_monitoring E SAFE_TO_BUY_FILE cycles).
Proof. unfold start_monitoring. repeat emits_step. Qed.

End Timeout.

(** ** DedupRegistry: one summary request per mint *)

Lemma equal_hash_key (a b : json) (k : hkey) :
  Py.equal a b = true -> hash_key a = Ok k -> hash_key b = Ok k.
Proof.
  destruct a as [|x|x|x|x|x], b as [|y|y|y|y|y]; cbn;
    try discriminate; try (intros _ H; exact H).
  - destruct x, y; cbn; intros H1 H2; try discriminate; exact H2.
  - destruct x; intros H1 H2; apply Z.eqb_eq in H1; subst y; exact H2.
  - destruct y; intros H1 H2; apply Z.eqb_eq in H1; subst x; exact H2.
  - intros H1 H2; apply Z.eqb_eq in H1; subst y; exact H2.
  - intros H1 H2; apply String.eqb_eq in H1; subst y; exact H2.
Qed.

Lemma fetch_keys_app (l1 l2 : list event) :
  fetch_keys (l1 ++ l2) = fetch_keys l1 ++ fetch_keys l2.
Proof. unfold fetch_keys. apply omap_app. Qed.

Lemma fetch_keys_quiet (evs : list event) :
  Forall quiet evs -> fetch_keys evs = [].
Proof.
  induction 1 as [|ev evs Hev _ IH]; [reflexivity|].
  unfold fetch_keys in *. cbn. rewrite Hev. exact IH.
Qed.

Lemma tracked_quiet {A} (m : M A) old processed w :
  emits quiet m ->
  tracked old processed w -> tracked old processed (m w).2.
Proof.
  intros Hm (new & Htr & Hnd & Hin).
  destruct (Hm w) as (evs & Htr' & Hq).
  exists (evs ++ new). rewrite Htr', Htr, app_assoc.
  rewrite fetch_keys_app, (fetch_keys_quiet _ Hq). auto.
Qed.

Lemma tracked_fetch old processed w mint k timeout :
  hash_key mint = Ok k -> k ∉ processed ->
  tracked old processed w ->
  tracked old ({[ k ]} ∪ processed) (log (EvGet (Summary mint) timeout) w).
Proof.
  intros Hk Hfresh (new & Htr & Hnd & Hin).
  exists (EvGet (Summary mint) timeout :: new). cbn. rewrite Htr.
  split; [reflexivity|]. unfold fetch_keys in *. cbn. rewrite Hk. split.
  - constructor; [|exact Hnd].
    intros Hmem. destruct (Hin _ Hmem) as (k' & Heq & Hk').
    injection Heq as <-. contradiction.
  - intros r Hr. apply elem_of_cons in Hr as [->|Hr].
    + exists k. split; [reflexivity|set_solver].
    + destruct (Hin _ Hr) as (k' & Heq & Hk'). exists k'. split; [exact Heq|set_solver].
Qed.

Lemma fetch_token_summary_log E mint w :
  exists answer,
    fetch_token_summary E mint w = (answer, log (EvGet (Summary mint) 30) w).
Proof.
  unfold fetch_token_summary, try_except, requests_get, lift. rewrite bind_unfold.
  destruct (http E (now w) (Summary mint) 30) as [text|resp]; cbn.
  - eexists; reflexivity.
  - destruct (status_code resp =? 200); [|eexists; reflexivity].
    destruct (body resp) as [j|e]; [eexists; reflexivity|].
    destruct (is_RequestException e); eexists; reflexivity.
Qed.

Section Dedup.

Variable E : env.
Variable SAFE_TO_BUY_FILE : string.

Lemma quiet_classify_and_report threshold stamp token mint summary :
  emits quiet
    (classify_and_report E SAFE_TO_BUY_FILE threshold stamp token mint summary).
Proof. apply emits_classify_and_report; intros; reflexivity. Qed.

Lemma process_token_keeps_track old threshold stamp processed token w :
  tracked old processed w ->
  keeps_track old
    (process_token E SAFE_TO_BUY_FILE threshold stamp processed token w).
Proof.
  intros Hinv. unfold process_token. rewrite bind_lift.
  destruct (Py.get token "mint" JNull) as [mint|e];
    [|exists processed; split; [exact Hinv|exact I]].
  destruct (Py.truthy mint); cbn [negb];
    [|exists processed; split; [exact Hinv|reflexivity]].
  rewrite bind_lift.
  destruct (hash_key mint) as [k|e] eqn:Hk;
    [|exists processed; split; [exact Hinv|exact I]].
  destruct (bool_decide (k ∈ processed)) eqn:Hmem;
    [exists processed; split; [exact Hinv|reflexivity]|].
  apply bool_decide_eq_false in Hmem.
  pose proof (tracked_fetch _ _ _ _ _ 30 Hk Hmem Hinv) as Hinv'.
  destruct (fetch_token_summary_log E mint w) as ([summary|e] & Hfetch);
    [rewrite (bind_Ok _ _ _ _ _ Hfetch)
    |rewrite (bind_Raise _ _ _ _ _ Hfetch);
     exists ({[ k ]} ∪ processed); split; [exact Hinv'|exact I]].
  destruct (Py.truthy summary); cbn [negb];
    [|exists ({[ k ]} ∪ processed); split; [exact Hinv'|reflexivity]].
  exists ({[ k ]} ∪ processed). rewrite bind_unfold.
  pose proof (tracked_quiet _ _ _ _
    (quiet_classify_and_report threshold stamp token mint summary) Hinv') as Hq.
  destruct (classify_and_report _ _ _ _ _ _ _ _) as [[[]|e] w2]; cbn in *;
    split; auto.
Qed.

Lemma for_tokens_keeps_track old threshold stamp tokens processed w :
  tracked old processed w ->
  keeps_track old
    (for_tokens E SAFE_TO_BUY_FILE threshold stamp tokens processed w).
Proof.
  revert processed w.
  induction tokens as [|token rest IH]; intros processed w Hinv; cbn.
  - exists processed. split; [exact Hinv|reflexivity].
  - rewrite bind_unfold.
    destruct (process_token_keeps_track old threshold stamp processed token w Hinv)
      as (p1 & Hinv1 & Hres).
    destruct (process_token _ _ _ _ _ _ _) as [[q|e] w1]; cbn in *.
    + subst q. apply IH. exact Hinv1.
    + exists p1. split; [exact Hinv1|exact I].
Qed.

Lemma quiet_fetch_new_tokens : emits quiet (fetch_new_tokens E).
Proof. apply emits_fetch_new_tokens; intros; reflexivity. Qed.

Lemma poll_cycle_keeps_track old threshold interval processed w :
  tracked old processed w ->
  keeps_track old (poll_cycle E SAFE_TO_BUY_FILE threshold interval processed w).
Proof.
  intros Hinv. unfold poll_cycle. rewrite bind_unfold.
  pose proof (tracked_quiet _ _ _ _ quiet_fetch_new_tokens Hinv) as H1.
  destruct (fetch_new_tokens E w) as [[tokens|e] w1]; cbn in H1;
    [|exists processed; split; [exact H1|exact I]].
  rewrite bind_unfold. cbn [now_str]. rewrite bind_lift.
  destruct (Py.iter tokens) as [items|e];
    [|exists processed; split; [exact H1|exact I]].
  rewrite bind_unfold.
  destruct (for_tokens_keeps_track old threshold (clock E (now w1)) items processed w1 H1)
    as (p2 & H2 & Hres).
  destruct (for_tokens _ _ _ _ _ _ _) as [[q|e] w2]; cbn in *;
    [subst q|exists p2; split; [exact H2|exact I]].
  rewrite bind_unfold.
  pose proof (tracked_quiet (sleep E interval) _ _ _
    ltac:(apply emits_sleep; intros; reflexivity) H2) as H3.
  destruct (sleep E interval w2) as [[[]|e] w3]; cbn in *;
    exists p2; split; auto; reflexivity.
Qed.

Lemma monitor_loop_keeps_track old cycles threshold interval processed w :
  tracked old processed w ->
  keeps_track old
    (monitor_loop E SAFE_TO_BUY_FILE cycles threshold interval processed w).
Proof.
  revert processed w.
  induction cycles as [|n IH]; intros processed w Hinv; cbn.
  - exists processed. split; [exact Hinv|reflexivity].
  - rewrite bind_unfold.
    destruct (poll_cycle_keeps_track old threshold interval processed w Hinv)
      as (p1 & Hinv1 & Hres).
    destruct (poll_cycle _ _ _ _ _ _) as [[q|e] w1]; cbn in *.
    + subst q. apply IH. exact Hinv1.
    + exists p1. split; [exact Hinv1|exact I].
Qed.

Lemma tracked_start old w : trace w = old -> tracked old ∅ w.
Proof.
  intros <-. exists []. split; [reflexivity|]. split; [constructor|].
  intros r Hr. cbn in Hr. inversion Hr.
Qed.

Lemma tracked_bind_quiet {A B} (m : M A) (f : A -> M B) old processed w :
  emits quiet m ->
  (forall a w1, tracked old processed w1 ->
     exists p, tracked old p (f a w1).2) ->
  tracked old processed w ->
  exists p, tracked old p ((m ≫= f) w).2.
Proof.
  intros Hm Hf Hinv. rewrite bind_unfold.
  pose proof (tracked_quiet m _ _ _ Hm Hinv) as H1.
  destruct (m w) as [[a|e] w1]; cbn in H1; [apply Hf; exact H1|eauto].
Qed.

Lemma quiet_print text : emits quiet (print text).
Proof. apply emits_print. intros; reflexivity. Qed.

Lemma start_monitoring_tracked cycles w :
  exists processed,
    tracked (trace w) processed (start_monitoring E SAFE_TO_BUY_FILE cycles w).2.
Proof.
  unfold start_monitoring.
  pose proof (tracked_start (trace w) w eq_refl) as H0. revert H0.
  apply tracked_bind_quiet; [apply emits_load_config; intros; reflexivity|].
  intros config w1.
  apply tracked_bind_quiet; [apply emits_deref|]. intros settings w2.
  apply tracked_bind_quiet; [apply emits_lift|]. intros threshold w3.
  apply tracked_bind_quiet; [apply emits_lift|]. intros interval w4.
  apply tracked_bind_quiet; [apply quiet_print|]. intros _ w5.
  apply tracked_bind_quiet; [apply quiet_print|]. intros _ w6.
  apply tracked_bind_quiet; [apply quiet_print|]. intros _ w7 H7.
  unfold try_except. rewrite bind_unfold.
  destruct (monitor_loop_keeps_track _ cycles threshold interval ∅ w7 H7)
    as (p8 & H8 & _).
  destruct (monitor_loop _ _ _ _ _ _ _) as [[q|e] w8]; cbn in H8 |- *; [eauto|].
  destruct (is_KeyboardInterrupt e); [|eauto].
  exists p8. revert H8. apply tracked_quiet.
  repeat (apply emits_bind; [|intros ?]);
    try apply emits_ret;
    try apply quiet_print;
    apply emits_input; intros; reflexivity.
Qed.

End Dedup.

Lemma filter_none {X Y} (f : X -> option Y) (g : X -> bool) (c : Y)
    (l : list X) :
  c ∉ omap f l ->
  (forall x, x ∈ l -> g x = true -> f x = Some c) ->
  List.filter g l = [].
Proof.
  induction l as [|y l IH]; intros Hnotin Hg; [reflexivity|]. cbn.
  destruct (g y) eqn:Hgy.
  - exfalso. apply Hnotin. cbn.
    rewrite (Hg y ltac:(left) Hgy). left.
  - apply IH.
    + intros Hmem. apply Hnotin. cbn. destruct (f y); [right|]; exact Hmem.
    + intros z Hz. apply Hg. right. exact Hz.
Qed.

Lemma filter_at_most_one {X Y} (f : X -> option Y) (g : X -> bool) (c : Y)
    (l : list X) :
  NoDup (omap f l) ->
  (forall x, x ∈ l -> g x = true -> f x = Some c) ->
  (length (List.filter g l) <= 1)%nat.
Proof.
  induction l as [|x l IH]; intros Hnd Hg; cbn; [lia|].
  destruct (g x) eqn:Hgx.
  - assert (Hfx : f x = Some c) by (apply Hg; [left|exact Hgx]).
    cbn in Hnd. rewrite Hfx in Hnd. apply NoDup_cons in Hnd as [Hnotin _].
    rewrite (filter_none f g c l Hnotin); [cbn; lia|].
    intros y Hy. apply Hg. right. exact Hy.
  - apply IH.
    + cbn in Hnd. destruct (f x); [apply NoDup_cons in Hnd as [_ Hnd]|]; exact Hnd.
    + intros y Hy. apply Hg. right. exact Hy.
Qed.

Lemma events_since_app (w w' : world) (new : list event) :
  trace w' = new ++ trace w -> events_since w w' = new.
Proof.
  intros H. unfold events_since. rewrite H, length_app.
  replace (length new + length (trace w) - length (trace w))%nat
    with (length new) by lia.
  apply take_app_length.
Qed.

(** Three polling cycles over a network that lists A twice in every cycle:
    A and B are each asked for once, A is stored, B is not. *)
Example three_cycles_two_tokens :
  let E := sample_env two_token_network in
  let out := start_monitoring E "safe_to_buy.json" 3 first_start in
  out.1 = Ok (Polling ({[ HStr "A" ]} ∪ {[ HStr "B" ]})) /\
  requests_of (rev (events_since first_start out.2)) =
    [EvGet NewTokens 30; EvGet (Summary (JStr "A")) 30;
     EvGet (Summary (JStr "B")) 30; EvGet NewTokens 30; EvGet NewTokens 30] /\
  length (stored out.2 "safe_to_buy.json") = 1%nat /\
  length (entries_with_mint (HStr "A") out.2 "safe_to_buy.json") = 1%nat.
Proof. vm_compute. repeat split. Qed.

(** C5: in a monitoring run of any number of polling cycles, whatever the
    network, the disk and the console do, the summary endpoint is asked at
    most once for each mint. *)
Theorem summary_fetched_at_most_once (E : env) (SAFE_TO_BUY_FILE : string)
    (cycles : nat) (w : world) (mint : json) :
  (summary_fetches mint
     (events_since w (start_monitoring E SAFE_TO_BUY_FILE cycles w).2) <= 1)%nat.
Proof.
  destruct (start_monitoring_tracked E SAFE_TO_BUY_FILE cycles w)
    as (processed & new & Htr & Hnd & Hin).
  rewrite (events_since_app _ _ _ Htr). unfold summary_fetches.
  destruct (List.existsb (is_summary_get_for mint) new) eqn:Hex.
  - apply existsb_exists in Hex as (ev0 & Hev0 & Hget0).
    destruct ev0 as [[|m0] t0| | | |]; try discriminate Hget0. cbn in Hget0.
    assert (Hk0 : exists k, hash_key m0 = Ok k).
    { destruct (Hin (hash_key m0)) as (k & Hk & _); [|eauto].
      apply list_elem_of_omap. exists (EvGet (Summary m0) t0).
      split; [apply list_elem_of_In; exact Hev0|reflexivity]. }
    destruct Hk0 as (k & Hk).
    pose proof (equal_hash_key _ _ _ Hget0 Hk) as Hmint.
    apply (filter_at_most_one fetch_key _ (Ok k)); [exact Hnd|].
    intros ev Hev Hget.
    destruct ev as [[|m] t| | | |]; try discriminate Hget. cbn in Hget |- *.
    destruct (Hin (hash_key m)) as (k' & Hk' & _).
    { apply list_elem_of_omap. exists (EvGet (Summary m) t). auto. }
    rewrite (equal_hash_key _ _ _ Hget Hk') in Hmint.
    rewrite Hk'. congruence.
  - assert (Hnil : List.filter (is_summary_get_for mint) new = []).
    { clear -Hex. induction new as [|ev new IH]; [reflexivity|].
      cbn in Hex |- *. apply orb_false_iff in Hex as [-> Hex]. auto. }
    rewrite Hnil. cbn. lia.
Qed.

(** ** MonitorLoop: a summary that is not there *)

Lemma process_token_falsy E F threshold stamp processed token mint k summary w w1 :
  Py.get token "mint" JNull = Ok mint ->
  Py.truthy mint = true ->
  hash_key mint = Ok k ->
  k ∉ processed ->
  fetch_token_summary E mint w = (Ok summary, w1) ->
  Py.truthy summary = false ->
  process_token E F threshold stamp processed token w =
    (Ok ({[ k ]} ∪ processed), w1).
Proof.
  intros Hmint Htruthy Hk Hfresh Hfetch Hfalsy.
  unfold process_token. rewrite bind_lift, Hmint, Htruthy. cbn [negb].
  rewrite bind_lift, Hk.
  rewrite (bool_decide_eq_false_2 _ Hfresh).
  rewrite (bind_Ok _ _ _ _ _ Hfetch), Hfalsy. reflexivity.
Qed.

Lemma fetch_token_summary_unavailable E mint w :
  unavailable (http E (now w) (Summary mint) 30) ->
  fetch_token_summary E mint w = (Ok (JObj []), log (EvGet (Summary mint) 30) w).
Proof.
  intros Hun. unfold fetch_token_summary, try_except, requests_get.
  rewrite bind_unfold.
  destruct (http E (now w) (Summary mint) 30) as [text|resp]; cbn in *.
  - reflexivity.
  - apply Z.eqb_neq in Hun. rewrite Hun. reflexivity.
Qed.

Lemma events_since_log (w : world) (ev : event) :
  events_since w (log ev w) = [ev].
Proof. apply (events_since_app w (log ev w) [ev]). reflexivity. Qed.

(** C4: when the summary of a discovered mint is unavailable, the loop body
    adds the mint to [processed], prints nothing (so no report), and leaves
    the files, the record store among them, as they were: its only event is
    the request. *)
Theorem unavailable_summary_is_skipped (E : env) (SAFE_TO_BUY_FILE : string)
    (threshold : json) (stamp : string) (processed : gset hkey)
    (token mint : json) (k : hkey) (w : world) :
  Py.get token "mint" JNull = Ok mint ->
  Py.truthy mint = true ->
  hash_key mint = Ok k ->
  k ∉ processed ->
  unavailable (http E (now w) (Summary mint) 30) ->
  let out := process_token E SAFE_TO_BUY_FILE threshold stamp processed token w in
  out.1 = Ok ({[ k ]} ∪ processed) /\
  k ∈ {[ k ]} ∪ processed /\
  files out.2 = files w /\
  events_since w out.2 = [EvGet (Summary mint) 30].
Proof.
  intros Hmint Htruthy Hk Hfresh Hun out. subst out.
  rewrite (process_token_falsy _ _ _ _ _ _ _ _ _ _ _ Hmint Htruthy Hk Hfresh
             (fetch_token_summary_unavailable E mint w Hun) eq_refl).
  cbn [fst snd]. split; [reflexivity|]. split; [set_solver|].
  split; [reflexivity|]. apply events_since_log.
Qed.

Lemma unavailable_summary_is_skipped_witness :
  let E := sample_env (fun _ => Fails "timed out") in
  let out := process_token E "safe_to_buy.json" (JNum 81) "now" ∅
               (JObj [("mint", JStr "A")]) first_start in
  out.1 = Ok ({[ HStr "A" ]} ∪ ∅) /\
  HStr "A" ∈ ({[ HStr "A" ]} ∪ ∅ : gset hkey) /\
  files out.2 = files first_start /\
  events_since first_start out.2 = [EvGet (Summary (JStr "A")) 30].
Proof.
  apply (unavailable_summary_is_skipped
           (sample_env (fun _ => Fails "timed out")) "safe_to_buy.json"
           (JNum 81) "now" ∅ (JObj [("mint", JStr "A")]) (JStr "A") (HStr "A")
           first_start).
  - reflexivity.
  - reflexivity.
  - reflexivity.
  - apply not_elem_of_empty.
  - exact I.
Defined.

(** C9: a summary response with status 200 and the body [{}] makes
    [fetch_token_summary] return that empty dict, and the loop body then does
    exactly what it does for an unavailable summary: the mint is added to
    [processed] and the request is the only event (nothing is classified,
    printed or stored). *)
Theorem empty_summary_is_skipped (E : env) (SAFE_TO_BUY_FILE : string)
    (threshold : json) (stamp : string) (processed : gset hkey)
    (token mint : json) (k : hkey) (w : world) (resp : response) :
  Py.get token "mint" JNull = Ok mint ->
  Py.truthy mint = true ->
  hash_key mint = Ok k ->
  k ∉ processed ->
  http E (now w) (Summary mint) 30 = Responds resp ->
  status_code resp = 200 ->
  body resp = Ok (JObj []) ->
  (fetch_token_summary E mint w).1 = Ok (JObj []) /\
  process_token E SAFE_TO_BUY_FILE threshold stamp processed token w =
    (Ok ({[ k ]} ∪ processed), log (EvGet (Summary mint) 30) w) /\
  forall E' : env,
    unavailable (http E' (now w) (Summary mint) 30) ->
    process_token E' SAFE_TO_BUY_FILE threshold stamp processed token w =
    process_token E SAFE_TO_BUY_FILE threshold stamp processed token w.
Proof.
  intros Hmint Htruthy Hk Hfresh Hhttp Hstatus Hbody.
  assert (Hfetch : fetch_token_summary E mint w =
                     (Ok (JObj []), log (EvGet (Summary mint) 30) w)).
  { unfold fetch_token_summary, try_except, requests_get.
    rewrite bind_unfold, Hhttp. cbn. rewrite Hstatus, Hbody. reflexivity. }
  pose proof (process_token_falsy E SAFE_TO_BUY_FILE threshold stamp _ _ _ _ _ _ _
                Hmint Htruthy Hk Hfresh Hfetch eq_refl) as Hstep.
  split; [rewrite Hfetch; reflexivity|]. split; [exact Hstep|].
  intros E' Hun. rewrite Hstep.
  apply (process_token_falsy E' _ _ _ _ _ _ _ _ _ _ Hmint Htruthy Hk Hfresh
           (fetch_token_summary_unavailable E' mint w Hun) eq_refl).
Qed.

Lemma empty_summary_is_skipped_witness :
  let E := sample_env (fun _ => ok_response (JObj [])) in
  let token := JObj [("mint", JStr "A")] in
  (fetch_token_summary E (JStr "A") first_start).1 = Ok (JObj []) /\
  process_token E "safe_to_buy.json" (JNum 81) "now" ∅ token first_start =
    (Ok ({[ HStr "A" ]} ∪ ∅), log (EvGet (Summary (JStr "A")) 30) first_start) /\
  forall E' : env,
    unavailable (http E' (now first_start) (Summary (JStr "A")) 30) ->
    process_token E' "safe_to_buy.json" (JNum 81) "now" ∅ token first_start =
    process_token E "safe_to_buy.json" (JNum 81) "now" ∅ token first_start.
Proof.
  apply (empty_summary_is_skipped
           (sample_env (fun _ => ok_response (JObj []))) "safe_to_buy.json"
           (JNum 81) "now" ∅ (JObj [("mint", JStr "A")]) (JStr "A") (HStr "A")
           first_start
           {| status_code := 200; body := Ok (JObj []); error_text := EmptyString |}).
  - reflexivity.
  - reflexivity.
  - reflexivity.
  - apply not_elem_of_empty.
  - reflexivity.
  - reflexivity.
  - reflexivity.
Defined.

(** ** RecordStore *)

Lemma path_exists_unfold path w :
  path_exists path w = (Ok (bool_decide (is_Some (files w !! path))), w).
Proof. reflexivity. Qed.

Lemma load_json_existing path w items :
  existing_items w path = Some items ->
  load_json path w = (Ok (JArr items), w).
Proof.
  unfold existing_items, load_json, try_except, read_json.
  rewrite bind_unfold, path_exists_unfold.
  destruct (files w !! path) as [[j|e]|] eqn:Hfile.
  - rewrite bool_decide_eq_true_2 by eauto. cbn. rewrite Hfile.
    destruct j; intros H; try discriminate H. injection H as <-. reflexivity.
  - rewrite bool_decide_eq_true_2 by eauto. cbn. rewrite Hfile.
    destruct (is_load_error e); intros H; [|discriminate H].
    injection H as <-. reflexivity.
  - rewrite bool_decide_eq_false_2 by (intros [? ?]; discriminate).
    cbn. intros H. injection H as <-. reflexivity.
Qed.

(** [load_json] reads only: the world is as before. *)
Lemma load_json_reads path w : (load_json path w).2 = w.
Proof.
  unfold load_json, try_except, read_json.
  rewrite bind_unfold, path_exists_unfold. cbn.
  destruct (bool_decide _); cbn; [|reflexivity].
  destruct (files w !! path) as [[j|e]|]; cbn; try reflexivity.
  destruct (is_load_error e); reflexivity.
Qed.

Lemma append_if_not_exists_unfold E path entry items mints k w :
  existing_items w path = Some items ->
  mint_set items = Ok mints ->
  entry_key entry k ->
  append_if_not_exists E path entry w =
    if bool_decide (k ∈ mints) then (Ok tt, w)
    else write_json E path (JArr (items ++ [entry])) w.
Proof.
  intros Hload Hmints (mint & Hmint & Hk). unfold append_if_not_exists.
  rewrite (bind_Ok _ _ _ _ _ (load_json_existing _ _ _ Hload)).
  rewrite bind_lift. cbn [Py.iter].
  rewrite bind_lift, Hmints, bind_lift, Hmint, bind_lift, Hk.
  destruct (bool_decide (k ∈ mints)); reflexivity.
Qed.


Lemma mint_set_has_mint items mints k item :
  mint_set items = Ok mints -> item ∈ items -> has_mint k item = true -> k ∈ mints.
Proof.
  revert mints. induction items as [|x items IH]; intros mints Hset Hin Hhas.
  - inversion Hin.
  - cbn in Hset. destruct (Py.is_dict x) eqn:Hdict.
    + destruct x; try discriminate Hdict. cbn in Hset.
      destruct (hash_key _) as [k0|] eqn:Hk0; [|discriminate Hset].
      cbn in Hset. destruct (mint_set items) as [rest|]; [|discriminate Hset].
      cbn in Hset. injection Hset as <-.
      apply elem_of_cons in Hin as [->|Hin].
      * cbn in Hhas. rewrite Hk0 in Hhas.
        apply bool_decide_eq_true_1 in Hhas. subst k0. set_solver.
      * specialize (IH rest eq_refl Hin Hhas). set_solver.
    + apply elem_of_cons in Hin as [->|Hin].
      * destruct x; try discriminate Hhas. discriminate Hdict.
      * exact (IH mints Hset Hin Hhas).
Qed.

Lemma filter_has_mint_fresh items mints k :
  mint_set items = Ok mints -> k ∉ mints -> List.filter (has_mint k) items = [].
Proof.
  intros Hset Hfresh.
  assert (Hall : forall item, item ∈ items -> has_mint k item = false).
  { intros item Hin. destruct (has_mint k item) eqn:Hhas; [|reflexivity].
    exfalso. apply Hfresh. exact (mint_set_has_mint _ _ _ _ Hset Hin Hhas). }
  clear Hset. induction items as [|x items IH]; [reflexivity|]. cbn.
  rewrite (Hall x ltac:(left)). apply IH. intros item Hin. apply Hall. right. exact Hin.
Qed.








Lemma append_if_not_exists_cases E path entry w :
  let out := append_if_not_exists E path entry w in
  out.2 = w \/ exists data, out = write_json E path data w.
Proof.
  cbn zeta. unfold append_if_not_exists. rewrite bind_unfold.
  pose proof (load_json_reads path w) as Hread.
  destruct (load_json path w) as [[existing|e] w0]; cbn in Hread; subst w0;
    [|left; reflexivity].
  rewrite bind_lift. destruct (Py.iter existing) as [items|e]; [|left; reflexivity].
  rewrite bind_lift. destruct (mint_set items) as [mints|e]; [|left; reflexivity].
  rewrite bind_lift. destruct (Py.get entry "mint" JNull) as [mint|e]; [|left; reflexivity].
  rewrite bind_lift. destruct (hash_key mint) as [k|e]; [|left; reflexivity].
  destruct (bool_decide (k ∈ mints)); [left; reflexivity|].
  rewrite bind_lift. destruct (Py.append existing entry) as [data|e]; [|left; reflexivity].
  right. exists data. reflexivity.
Qed.

Lemma events_since_same (w : world) : events_since w w = [].
Proof. apply (events_since_app w w []). reflexivity. Qed.

Lemma load_json_uncaught path e w :
  files w !! path = Some (ReadRaises e) ->
  is_load_error e = false ->
  load_json path w = (Raise e, w).
Proof.
  intros Hfile Hcaught. unfold load_json, try_except, read_json.
  rewrite bind_unfold, path_exists_unfold, Hfile.
  rewrite bool_decide_eq_true_2 by eauto. cbn. rewrite Hfile, Hcaught. reflexivity.
Qed.

Lemma load_json_parsed path j w :
  files w !! path = Some (Parses j) -> load_json path w = (Ok j, w).
Proof.
  intros Hfile. unfold load_json, try_except, read_json.
  rewrite bind_unfold, path_exists_unfold, Hfile.
  rewrite bool_decide_eq_true_2 by eauto. cbn. rewrite Hfile. reflexivity.
Qed.

Lemma mint_set_no_dicts items :
  Forall (fun item => Py.is_dict item = false) items -> mint_set items = Ok ∅.
Proof.
  induction 1 as [|item rest Hitem _ IH]; [reflexivity|].
  cbn [mint_set]. rewrite Hitem. exact IH.
Qed.

(** What the [except] clause of [load_json] does not cover.  A reading that
    raises anything but [OSError] and [JSONDecodeError] leaves the append as
    it is raised, and a file that holds a JSON value which is not a list
    makes the append raise [TypeError] or [AttributeError]; in both cases
    the world is left as it was. *)
Lemma append_to_uncaught E path entry k w :
  entry_key entry k ->
  let out := append_if_not_exists E path entry w in
  (forall e, files w !! path = Some (ReadRaises e) -> is_load_error e = false ->
     out = (Raise e, w)) /\
  (forall j, files w !! path = Some (Parses j) -> (forall items, j <> JArr items) ->
     out.2 = w /\ (out.1 = Raise TypeError \/ out.1 = Raise AttributeError)).
Proof.
  intros (mint & Hmint & Hk). cbn zeta. split.
  - intros e Hfile Hcaught. unfold append_if_not_exists.
    apply bind_Raise, load_json_uncaught; assumption.
  - intros j Hfile Hlist. unfold append_if_not_exists.
    rewrite (bind_Ok _ _ _ _ _ (load_json_parsed _ _ _ Hfile)), bind_lift.
    destruct j as [|b|z|s|items|d]; cbn [Py.iter];
      try (split; [reflexivity|left; reflexivity]).
    + rewrite bind_lift, mint_set_no_dicts
        by (apply Forall_forall; intros item Hin;
            apply list_elem_of_fmap in Hin as (c & -> & _); reflexivity).
      rewrite bind_lift, Hmint, bind_lift, Hk.
      rewrite bool_decide_eq_false_2 by apply not_elem_of_empty.
      rewrite bind_lift. cbn [Py.append]. split; [reflexivity|right; reflexivity].
    + destruct (Hlist items eq_refl).
    + rewrite bind_lift, mint_set_no_dicts
        by (apply Forall_forall; intros item Hin;
            apply list_elem_of_fmap in Hin as (c & -> & _); reflexivity).
      rewrite bind_lift, Hmint, bind_lift, Hk.
      rewrite bool_decide_eq_false_2 by apply not_elem_of_empty.
      rewrite bind_lift. cbn [Py.append]. split; [reflexivity|right; reflexivity].
Qed.




(** ** Configuration *)

(** C3 does not hold of the code: with [api_timeout] set to 60 in the
    configuration file, the discovery request and the summary request of a
    polling cycle are both made with the timeout 30. *)
Theorem configured_timeout_is_not_used :
  let E := sample_env one_token_network in
  let config := JObj [("score_threshold", JNum 81);
                      ("polling_interval", JNum 30);
                      ("api_timeout", JNum 60)] in
  let w := with_file CONFIG_FILE (Parses config) first_start in
  let out := start_monitoring E "safe_to_buy.json" 1 w in
  (load_config E w).1 = Ok (Loaded config) /\
  Py.getitem config "api_timeout" = Ok (JNum 60) /\
  requests_of (rev (events_since w out.2)) =
    [EvGet NewTokens 30; EvGet (Summary (JStr "A")) 30].
Proof. vm_compute. repeat split. Qed.

Lemma load_config_parsed E w config :
  files w !! CONFIG_FILE = Some (Parses config) ->
  load_config E w = (Ok (Loaded config), w).
Proof.
  intros Hfile. unfold load_config, try_except, read_json.
  rewrite bind_unfold, path_exists_unfold.
  rewrite bool_decide_eq_true_2 by (rewrite Hfile; eauto).
  cbn [negb]. rewrite bind_unfold, Hfile. reflexivity.
Qed.

(** C10: a configuration file that parses is returned by [load_config] as
    it is, and when the parsed dict lacks [score_threshold] or
    [polling_interval], [start_monitoring] raises [KeyError] before it does
    anything else: no default is used, nothing is printed, requested or
    written. *)
Theorem parsed_config_is_not_validated (E : env) (SAFE_TO_BUY_FILE : string)
    (cycles : nat) (w : world) (config : json) :
  files w !! CONFIG_FILE = Some (Parses config) ->
  load_config E w = (Ok (Loaded config), w) /\
  forall d,
    config = JObj d ->
    Py.dict_get d "score_threshold" = None \/
    Py.dict_get d "polling_interval" = None ->
    start_monitoring E SAFE_TO_BUY_FILE cycles w = (Raise KeyError, w).
Proof.
  intros Hfile. pose proof (load_config_parsed E w config Hfile) as Hload.
  split; [exact Hload|]. intros d -> Hmissing.
  unfold start_monitoring. rewrite (bind_Ok _ _ _ _ _ Hload).
  cbn [deref]. rewrite bind_unfold. cbn [mret M_ret]. rewrite bind_lift.
  cbn [Py.getitem].
  destruct (Py.dict_get d "score_threshold") as [threshold|]; [|reflexivity].
  rewrite bind_lift.
  destruct Hmissing as [Hmissing| ->]; [discriminate Hmissing|reflexivity].
Qed.

Lemma parsed_config_is_not_validated_witness :
  let E := sample_env one_token_network in
  let config := JObj [("score_threshold", JNum 81)] in
  let w := with_file CONFIG_FILE (Parses config) first_start in
  load_config E w = (Ok (Loaded config), w) /\
  start_monitoring E "safe_to_buy.json" 3 w = (Raise KeyError, w).
Proof.
  cbn zeta.
  destruct (parsed_config_is_not_validated
              (sample_env one_token_network) "safe_to_buy.json" 3
              (with_file CONFIG_FILE (Parses (JObj [("score_threshold", JNum 81)]))
                 first_start)
              (JObj [("score_threshold", JNum 81)]))
    as [Hload Hstart].
  - reflexivity.
  - split; [exact Hload|].
    apply (Hstart [("score_threshold", JNum 81)]); [reflexivity|].
    right. reflexivity.
Defined.

(** ** Symbol and creator of an entry and of a report *)

Lemma or_lazy_else (a : json) (r : result json) (v : json) :
  Py.or_lazy a r = Ok v ->
  v = Py.or_else a (match r with Ok x => x | Raise _ => JNull end).
Proof.
  unfold Py.or_lazy, Py.or_else. destruct (Py.truthy a); [congruence|].
  destruct r; [congruence|discriminate].
Qed.

Lemma get_discovered token key v :
  Py.get token key JNull = Ok v -> v = discovered token key.
Proof. unfold discovered. intros ->. reflexivity. Qed.

Lemma make_entry_precedence token summary mint score risk stamp entry :
  make_entry token summary mint score risk stamp = Ok entry ->
  Py.getitem entry "symbol" =
    Ok (Py.or_else (discovered token "symbol") (reported_symbol summary)) /\
  Py.getitem entry "creator" =
    Ok (Py.or_else (discovered token "creator")
          (reported_creator summary (JStr EmptyString))).
Proof.
  unfold make_entry, reported_symbol, reported_creator.
  destruct (Py.get summary "tokenMeta" (JObj [])) as [meta|]; cbn; [|discriminate].
  destruct (Py.get meta "name" (JStr EmptyString)) as [name|]; cbn; [|discriminate].
  destruct (Py.get token "symbol" JNull) as [ts|] eqn:Hts; cbn; [|discriminate].
  apply get_discovered in Hts. subst ts.
  destruct (Py.or_lazy _ _) as [symbol|] eqn:Hsymbol; cbn; [|discriminate].
  apply or_lazy_else in Hsymbol. subst symbol.
  destruct (Py.get token "creator" JNull) as [tc|] eqn:Htc; cbn; [|discriminate].
  apply get_discovered in Htc. subst tc.
  destruct (Py.or_lazy _ _) as [creator|] eqn:Hcreator; cbn; [|discriminate].
  apply or_lazy_else in Hcreator. subst creator.
  destruct (Py.get summary "risks" (JArr [])) as [risks|]; cbn; [|discriminate].
  intros H. injection H as <-. split; reflexivity.
Qed.

Lemma report_lines_precedence E token summary stamp threshold lines :
  report_lines E token summary stamp threshold = Ok lines ->
  lines !! 6%nat =
    Some ("✅ Token Symbol: " +:+
          fmt E (Py.or_else (discovered token "symbol") (reported_symbol summary))) /\
  lines !! 8%nat =
    Some ("👤 Creator Wallet: " +:+
          fmt E (Py.or_else (discovered token "creator")
                   (reported_creator summary (JStr "Unknown")))).
Proof.
  unfold report_lines, reported_symbol, reported_creator.
  destruct (Py.get token "mint" (JStr "Unknown")) as [mint|]; cbn; [|discriminate].
  destruct (Py.get token "symbol" JNull) as [ts|] eqn:Hts; cbn; [|discriminate].
  apply get_discovered in Hts. subst ts.
  destruct (Py.or_lazy _ _) as [symbol|] eqn:Hsymbol; cbn; [|discriminate].
  apply or_lazy_else in Hsymbol.
  destruct (Py.get summary "tokenMeta" (JObj [])) as [meta|]; cbn in *; [|discriminate].
  subst symbol.
  destruct (Py.get meta "name" _) as [name|]; cbn; [|discriminate].
  destruct (Py.get token "creator" JNull) as [tc|] eqn:Htc; cbn; [|discriminate].
  apply get_discovered in Htc. subst tc.
  destruct (Py.or_lazy _ _) as [creator|] eqn:Hcreator; cbn; [|discriminate].
  apply or_lazy_else in Hcreator. subst creator.
  destruct (Py.get summary "score_normalised" JNull) as [score|]; cbn; [|discriminate].
  destruct (classify_risk score threshold) as [risk|]; cbn; [|discriminate].
  destruct (recommendation_of risk) as [advice|]; cbn; [|discriminate].
  destruct (Py.get summary "risks" JNull) as [risks|]; cbn; [|discriminate].
  match goal with
  | |- (?r ≫= _) = _ -> _ => destruct r as [reasons|]; cbn; [|discriminate]
  end.
  intros H. injection H as <-. split; reflexivity.
Qed.

(** C8, as stated, fails: a discovery record whose symbol is there but is
    the empty string does not give the entry its symbol; the entry takes the
    report's. *)
Lemma empty_symbol_falls_back :
  let token := JObj [("mint", JStr "A"); ("symbol", JStr EmptyString)] in
  let summary := JObj [("tokenMeta", JObj [("symbol", JStr "XYZ")])] in
  let symbol :=
    entry ← make_entry token summary (JStr "A") JNull "UNKNOWN" "now";
    Py.getitem entry "symbol" in
  symbol = Ok (JStr "XYZ") /\
  symbol <> Ok (present_else token "symbol" (reported_symbol summary)).
Proof. vm_compute. split; [reflexivity|discriminate]. Qed.

(** C8, amended: in the entry and in the report, symbol and creator are the
    discovery record's values when those are truthy, and the risk report's
    values (or the default: the empty string, and Unknown for the creator of
    the report) when the discovery record's value is absent, null, or
    otherwise falsy such as the empty string. *)
Theorem symbol_and_creator_precedence (E : env) (token summary mint score : json)
    (risk stamp : string) (threshold entry : json) (lines : list string) :
  make_entry token summary mint score risk stamp = Ok entry ->
  report_lines E token summary stamp threshold = Ok lines ->
  Py.getitem entry "symbol" =
    Ok (Py.or_else (discovered token "symbol") (reported_symbol summary)) /\
  Py.getitem entry "creator" =
    Ok (Py.or_else (discovered token "creator")
          (reported_creator summary (JStr EmptyString))) /\
  lines !! 6%nat =
    Some ("✅ Token Symbol: " +:+
          fmt E (Py.or_else (discovered token "symbol") (reported_symbol summary))) /\
  lines !! 8%nat =
    Some ("👤 Creator Wallet: " +:+
          fmt E (Py.or_else (discovered token "creator")
                   (reported_creator summary (JStr "Unknown")))).
Proof.
  intros Hentry Hlines.
  destruct (make_entry_precedence _ _ _ _ _ _ _ Hentry) as [Hsymbol Hcreator].
  destruct (report_lines_precedence _ _ _ _ _ _ Hlines) as [Hline6 Hline8].
  auto.
Qed.

Lemma symbol_and_creator_precedence_witness :
  make_entry sample_token sample_summary (JStr "A") (JNum 95) "LOW" "now" =
    Ok sample_entry /\
  report_lines (sample_env one_token_network) sample_token sample_summary "now"
    (JNum 81) = Ok sample_lines /\
  Py.getitem sample_entry "symbol" = Ok (JStr "ALP") /\
  Py.getitem sample_entry "creator" = Ok (JStr "wallet-1") /\
  sample_lines !! 6%nat = Some "✅ Token Symbol: ALP" /\
  sample_lines !! 8%nat = Some "👤 Creator Wallet: wallet-1".
Proof.
  assert (H1 : make_entry sample_token sample_summary (JStr "A") (JNum 95) "LOW" "now"
               = Ok sample_entry) by reflexivity.
  assert (H2 : report_lines (sample_env one_token_network) sample_token
                 sample_summary "now" (JNum 81) = Ok sample_lines) by reflexivity.
  split; [exact H1|]. split; [exact H2|].
  exact (symbol_and_creator_precedence _ _ _ _ _ _ _ _ _ _ H1 H2).
Defined.

(** ** Configuration editing *)

Lemma deref_settings config w : deref config w = (Ok (settings_of config w), w).
Proof. destruct config; reflexivity. Qed.

Lemma edit_bounded_rejects E config key prompt lo hi updated rejected
    current text rest v w :
  Py.getitem (settings_of config w) key = Ok current ->
  stdin w = text :: rest ->
  to_int E text = Some v ->
  ~ (lo <= v <= hi) ->
  edit_bounded E config key prompt lo hi updated rejected w =
    (Ok config,
     log (EvPrint rejected)
       (set_stdin rest (log (EvInput (prompt +:+ fmt E current +:+ "): ")) w))).
Proof.
  intros Hcurrent Hstdin Hint Hout. unfold edit_bounded, try_except.
  rewrite (bind_Ok _ _ _ _ _ (deref_settings config w)).
  rewrite bind_lift, Hcurrent, bind_unfold.
  unfold input at 1. rewrite Hstdin.
  rewrite bind_lift. unfold int_of. rewrite Hint.
  replace ((lo <=? v) && (v <=? hi)) with false
    by (symmetry; apply andb_false_iff; lia).
  reflexivity.
Qed.

Lemma edit_bounded_accepts E config key prompt lo hi updated rejected
    current text rest v w :
  Py.getitem (settings_of config w) key = Ok current ->
  stdin w = text :: rest ->
  to_int E text = Some v ->
  lo <= v <= hi ->
  disk E (S (now w)) CONFIG_FILE = Written ->
  exists config' settings' w',
    edit_bounded E config key prompt lo hi updated rejected w = (Ok config', w') /\
    Py.setitem (settings_of config w) key (JNum v) = Ok settings' /\
    settings_of config' w' = settings' /\
    files w' !! CONFIG_FILE = Some (Parses settings').
Proof.
  intros Hcurrent Hstdin Hint Hin Hdisk. unfold edit_bounded, try_except.
  rewrite (bind_Ok _ _ _ _ _ (deref_settings config w)).
  rewrite bind_lift, Hcurrent, bind_unfold.
  unfold input at 1. rewrite Hstdin.
  rewrite bind_lift. unfold int_of. rewrite Hint.
  replace ((lo <=? v) && (v <=? hi)) with true
    by (symmetry; apply andb_true_iff; lia).
  destruct (settings_of config w) as [| | | | |d] eqn:Hsettings;
    try discriminate Hcurrent.
  set (w1 := set_stdin rest (log _ w)).
  assert (Hnow : now w1 = S (now w)) by reflexivity.
  destruct config as [|j]; cbn in Hsettings.
  - exists TheDefault, (JObj (Py.dict_set d key (JNum v))).
    eexists. rewrite bind_unfold. cbn [assign].
    replace (default_config w1) with (JObj d) by (symmetry; exact Hsettings).
    cbn [Py.setitem]. rewrite bind_unfold. cbn [deref the_default].
    rewrite bind_unfold. unfold save_config, write_json.
    assert (Hnow' : forall j, now (set_default_config j w1) = S (now w))
      by reflexivity.
    rewrite Hnow', Hdisk. cbn.
    split; [reflexivity|]. split; [reflexivity|]. split; [reflexivity|].
    apply lookup_insert_eq.
  - subst j. exists (Loaded (JObj (Py.dict_set d key (JNum v)))),
      (JObj (Py.dict_set d key (JNum v))).
    eexists. rewrite bind_unfold. cbn [assign Py.setitem]. rewrite bind_lift.
    cbn [mret M_ret]. rewrite bind_unfold. cbn [deref mret M_ret].
    rewrite bind_unfold. unfold save_config, write_json.
    rewrite Hnow, Hdisk. cbn.
    split; [reflexivity|]. split; [reflexivity|]. split; [reflexivity|].
    apply lookup_insert_eq.
Qed.

Lemma edit_choice_setting E config s w :
  edit_choice E config (setting_choice s) w =
    (config' ← edit_bounded E config (setting_key s)
       match s with
       | ScoreThreshold => "Enter new threshold (current: "
       | PollingInterval => "Enter new polling interval in seconds (current: "
       | ApiTimeout => "Enter new API timeout in seconds (current: "
       end
       (setting_bounds s).1 (setting_bounds s).2
       match s with
       | ScoreThreshold => fun v => "✅ Threshold updated to " +:+ pretty v +:+ "+"
       | PollingInterval =>
           fun v => "✅ Polling interval updated to " +:+ pretty v +:+ " seconds"
       | ApiTimeout => fun v => "✅ API timeout updated to " +:+ pretty v +:+ " seconds"
       end
       (setting_rejection s);
     mret (config', false)) w.
Proof. destruct s; reflexivity. Qed.

(** C7: an edit of the threshold, the polling interval or the API timeout
    with a value outside 1-100, 5-300 or 10-120 leaves the configuration
    (the dict in memory, the module default and the files) as it was and
    prints the rejection; a value inside the bounds is put into the dict and,
    the disk taking the write, the dict is written to the configuration
    file. *)
Theorem edit_respects_bounds (E : env) (config : config_ref) (s : setting)
    (current : json) (text : string) (rest : list string) (v : Z) (w : world) :
  Py.getitem (settings_of config w) (setting_key s) = Ok current ->
  stdin w = text :: rest ->
  to_int E text = Some v ->
  let out := edit_choice E config (setting_choice s) w in
  let lo := (setting_bounds s).1 in
  let hi := (setting_bounds s).2 in
  (~ (lo <= v <= hi) ->
     out.1 = Ok (config, false) /\
     settings_of config out.2 = settings_of config w /\
     default_config out.2 = default_config w /\
     files out.2 = files w /\
     exists prompt,
       events_since w out.2 = [EvPrint (setting_rejection s); EvInput prompt]) /\
  (lo <= v <= hi ->
     disk E (S (now w)) CONFIG_FILE = Written ->
     exists config' settings',
       out.1 = Ok (config', false) /\
       Py.setitem (settings_of config w) (setting_key s) (JNum v) = Ok settings' /\
       settings_of config' out.2 = settings' /\
       files out.2 !! CONFIG_FILE = Some (Parses settings')).
Proof.
  intros Hcurrent Hstdin Hint out lo hi. subst out lo hi.
  rewrite edit_choice_setting. split.
  - intros Hout.
    rewrite (bind_Ok _ _ _ _ _
      (edit_bounded_rejects E config _ _ _ _ _ _ _ _ _ _ _ Hcurrent Hstdin Hint Hout)).
    cbn [mret M_ret fst snd].
    split; [reflexivity|]. split; [destruct config; reflexivity|].
    split; [reflexivity|]. split; [reflexivity|].
    eexists. eapply (events_since_app w _ [_; _]). reflexivity.
  - intros Hin Hdisk.
    destruct (edit_bounded_accepts E config (setting_key s)
                match s with
                | ScoreThreshold => "Enter new threshold (current: "
                | PollingInterval => "Enter new polling interval in seconds (current: "
                | ApiTimeout => "Enter new API timeout in seconds (current: "
                end
                (setting_bounds s).1 (setting_bounds s).2
                match s with
                | ScoreThreshold => fun v => "✅ Threshold updated to " +:+ pretty v +:+ "+"
                | PollingInterval =>
                    fun v => "✅ Polling interval updated to " +:+ pretty v +:+ " seconds"
                | ApiTimeout =>
                    fun v => "✅ API timeout updated to " +:+ pretty v +:+ " seconds"
                end
                (setting_rejection s) current text rest v w
                Hcurrent Hstdin Hint Hin Hdisk)
      as (config' & settings' & w' & Hrun & Hset & Hmem & Hfile).
    exists config', settings'. rewrite (bind_Ok _ _ _ _ _ Hrun).
    cbn [mret M_ret fst snd]. auto.
Qed.

Lemma edit_respects_bounds_witness :
  let E := sample_env (fun _ => Fails "offline") in
  let rejected := edit_choice E TheDefault "1" (typing ["150"] first_start) in
  let accepted := edit_choice E TheDefault "3" (typing ["60"] first_start) in
  (rejected.1 = Ok (TheDefault, false) /\
   default_config rejected.2 = DEFAULT_CONFIG /\
   files rejected.2 = ∅ /\
   exists prompt,
     events_since (typing ["150"] first_start) rejected.2 =
       [EvPrint "❌ Threshold must be between 1 and 100"; EvInput prompt]) /\
  (exists config' settings',
     accepted.1 = Ok (config', false) /\
     Py.setitem DEFAULT_CONFIG "api_timeout" (JNum 60) = Ok settings' /\
     settings_of config' accepted.2 = settings' /\
     files accepted.2 !! CONFIG_FILE = Some (Parses settings')).
Proof.
  cbn zeta. split.
  - destruct (edit_respects_bounds (sample_env (fun _ => Fails "offline"))
                TheDefault ScoreThreshold (JNum 81) "150" [] 150
                (typing ["150"] first_start))
      as [Hrejected _]; [reflexivity|reflexivity|reflexivity|].
    destruct Hrejected as (Hres & _ & Hdefault & Hfiles & Hprint).
    + cbn. lia.
    + auto.
  - destruct (edit_respects_bounds (sample_env (fun _ => Fails "offline"))
                TheDefault ApiTimeout (JNum 30) "60" [] 60
                (typing ["60"] first_start))
      as [_ Haccepted]; [reflexivity|reflexivity|reflexivity|].
    apply Haccepted; [cbn; lia|reflexivity].
Defined.

(** * Further properties *)

(** ** How the files change *)

Create HintDb files.

Section RunRel.

Variable R : relation (gmap string file_content).
Context {R_refl : Reflexive R} {R_trans : Transitive R}.

Lemma run_rel_same {A} (m : M A) :
  (forall w, files (m w).2 = files w) -> run_rel R m.
Proof. intros H w. rewrite H. reflexivity. Qed.

Lemma run_rel_ret {A} (a : A) : run_rel R (mret a).
Proof. apply run_rel_same. reflexivity. Qed.

Lemma run_rel_lift {A} (r : result A) : run_rel R (lift r).
Proof. apply run_rel_same. reflexivity. Qed.

Lemma run_rel_bind {A B} (m : M A) (f : A -> M B) :
  run_rel R m -> (forall a, run_rel R (f a)) -> run_rel R (m ≫= f).
Proof.
  intros Hm Hf w. rewrite bind_unfold. specialize (Hm w).
  destruct (m w) as [[a|e] w1]; cbn in Hm |- *; [|exact Hm].
  etransitivity; [exact Hm|apply Hf].
Qed.

Lemma run_rel_try_except {A} (body : M A) (catches : exn -> bool)
    (handler : exn -> M A) :
  run_rel R body -> (forall e, run_rel R (handler e)) ->
  run_rel R (try_except body catches handler).
Proof.
  intros Hm Hh w. unfold try_except. specialize (Hm w).
  destruct (body w) as [[a|e] w1]; cbn in Hm |- *; [exact Hm|].
  destruct (catches e); [|exact Hm].
  etransitivity; [exact Hm|apply Hh].
Qed.

Lemma run_rel_if {A} (b : bool) (m1 m2 : M A) :
  run_rel R m1 -> run_rel R m2 -> run_rel R (if b then m1 else m2).
Proof. destruct b; auto. Qed.

Lemma run_rel_print text : run_rel R (print text).
Proof. apply run_rel_same. reflexivity. Qed.

Lemma run_rel_input prompt : run_rel R (input prompt).
Proof. apply run_rel_same. intros w. unfold input. destruct (stdin w); reflexivity. Qed.

Lemma run_rel_path_exists path : run_rel R (path_exists path).
Proof. apply run_rel_same. reflexivity. Qed.

Lemma run_rel_read_json path : run_rel R (read_json path).
Proof.
  apply run_rel_same. intros w. unfold read_json.
  destruct (files w !! path) as [[j|e]|]; reflexivity.
Qed.

Lemma run_rel_sleep (E : env) seconds : run_rel R (sleep E seconds).
Proof.
  apply run_rel_same. intros w. unfold sleep.
  destruct (Py.as_int seconds) as [z|]; [|reflexivity].
  destruct (z <? 0); [reflexivity|]. destruct (sigint E (now w)); reflexivity.
Qed.

Lemma run_rel_now_str E : run_rel R (now_str E).
Proof. apply run_rel_same. reflexivity. Qed.

Lemma run_rel_deref config : run_rel R (deref config).
Proof. apply run_rel_same. destruct config; reflexivity. Qed.

Lemma run_rel_requests_get E r timeout : run_rel R (requests_get E r timeout).
Proof.
  apply run_rel_same. intros w. unfold requests_get.
  destruct (http E (now w) r timeout); reflexivity.
Qed.

Ltac files_step :=
  first
    [ solve [auto 8 with files]
    | apply run_rel_bind; [|intros ?]
    | apply run_rel_try_except; [|intros ?]
    | apply run_rel_if ].

Variable E : env.
Variable SAFE_TO_BUY_FILE : string.

Hint Resolve run_rel_ret run_rel_lift run_rel_print run_rel_input
  run_rel_path_exists run_rel_read_json run_rel_sleep run_rel_now_str
  run_rel_deref run_rel_requests_get : files.

Lemma run_rel_load_json path : run_rel R (load_json path).
Proof. unfold load_json. repeat files_step. Qed.

Lemma run_rel_fetch_new_tokens : run_rel R (fetch_new_tokens E).
Proof. unfold fetch_new_tokens, raise_for_status. repeat files_step. Qed.

Lemma run_rel_fetch_token_summary mint : run_rel R (fetch_token_summary E mint).
Proof. unfold fetch_token_summary. repeat files_step. Qed.

Hint Resolve run_rel_load_json run_rel_fetch_new_tokens
  run_rel_fetch_token_summary : files.

Lemma run_rel_view_historical_data :
  run_rel R (view_historical_data E SAFE_TO_BUY_FILE).
Proof.
  assert (Hrisks : forall risks, run_rel R (view_risks E risks)).
  { induction risks as [|risk rest IH]; cbn [view_risks]; [apply run_rel_ret|].
    unfold view_risk. repeat files_step. }
  assert (Htokens : forall tokens i, run_rel R (view_tokens E i tokens)).
  { induction tokens as [|token rest IH]; intros i; cbn [view_tokens]; [apply run_rel_ret|].
    apply run_rel_bind; [|intros ?; apply IH].
    unfold view_token. repeat files_step. }
  unfold view_historical_data. repeat files_step.
Qed.

(** What the record store contributes: each append keeps [R]. *)
Hypothesis R_append :
  forall entry, run_rel R (append_if_not_exists E SAFE_TO_BUY_FILE entry).

Hint Resolve R_append : files.

Lemma run_rel_classify_and_report threshold stamp token mint summary :
  run_rel R (classify_and_report E SAFE_TO_BUY_FILE threshold stamp token mint summary).
Proof. unfold classify_and_report. repeat files_step. Qed.

Hint Resolve run_rel_classify_and_report : files.

Lemma run_rel_process_token threshold stamp processed token :
  run_rel R (process_token E SAFE_TO_BUY_FILE threshold stamp processed token).
Proof. unfold process_token. repeat files_step. Qed.

Lemma run_rel_for_tokens threshold stamp tokens processed :
  run_rel R (for_tokens E SAFE_TO_BUY_FILE threshold stamp tokens processed).
Proof.
  revert processed. induction tokens as [|token rest IH]; intros processed; cbn [for_tokens].
  - apply run_rel_ret.
  - apply run_rel_bind; [apply run_rel_process_token|intros p; apply IH].
Qed.

Hint Resolve run_rel_for_tokens : files.

Lemma run_rel_poll_cycle threshold interval processed :
  run_rel R (poll_cycle E SAFE_TO_BUY_FILE threshold interval processed).
Proof. unfold poll_cycle. repeat files_step. Qed.

Lemma run_rel_monitor_loop cycles threshold interval processed :
  run_rel R (monitor_loop E SAFE_TO_BUY_FILE cycles threshold interval processed).
Proof.
  revert processed. induction cycles as [|n IH]; intros processed; cbn [monitor_loop].
  - apply run_rel_ret.
  - apply run_rel_bind; [apply run_rel_poll_cycle|intros p; apply IH].
Qed.

Hint Resolve run_rel_monitor_loop : files.

(** What [load_config] contributes: creating the default file keeps [R]. *)
Hypothesis R_load : run_rel R (load_config E).

Hint Resolve R_load : files.

Lemma run_rel_start_monitoring cycles :
  run_rel R (start_monitoring E SAFE_TO_BUY_FILE cycles).
Proof. unfold start_monitoring. repeat files_step. Qed.

End RunRel.

(** ** RecordStore: what an append does to the stored entries *)

Lemma existing_items_stored w path items :
  existing_items w path = Some items -> stored w path = items.
Proof.
  unfold existing_items, stored.
  destruct (files w !! path) as [[j|e]|].
  - destruct j; intros H; try discriminate H. injection H as <-. reflexivity.
  - destruct (is_load_error e); intros H; [|discriminate H].
    injection H as <-. reflexivity.
  - intros H. injection H as <-. reflexivity.
Qed.

Lemma load_json_array path w w' items :
  load_json path w = (Ok (JArr items), w') -> existing_items w path = Some items.
Proof.
  unfold existing_items, load_json, try_except, read_json.
  rewrite bind_unfold, path_exists_unfold.
  destruct (files w !! path) as [[j|e]|] eqn:Hfile.
  - rewrite bool_decide_eq_true_2 by eauto. cbn. rewrite Hfile.
    intros H. injection H as -> _. reflexivity.
  - rewrite bool_decide_eq_true_2 by eauto. cbn. rewrite Hfile.
    destruct (is_load_error e); cbn; intros H; [|discriminate H].
    injection H as <- _. reflexivity.
  - rewrite bool_decide_eq_false_2 by (intros [? ?]; discriminate).
    cbn. intros H. injection H as <- _. reflexivity.
Qed.

(** An append leaves the world as it is, or it is the write of the existing
    array with the entry at its end, for an entry whose mint is new. *)
Lemma append_if_not_exists_effect E path entry w :
  (append_if_not_exists E path entry w).2 = w \/
  exists items mints k,
    existing_items w path = Some items /\
    mint_set items = Ok mints /\
    entry_key entry k /\
    (k ∉ mints) /\
    append_if_not_exists E path entry w =
      write_json E path (JArr (items ++ [entry])) w.
Proof.
  unfold append_if_not_exists. rewrite bind_unfold.
  pose proof (load_json_reads path w) as Hread.
  destruct (load_json path w) as [[existing|e] w0] eqn:Hload; cbn in Hread;
    subst w0; [|left; reflexivity].
  rewrite bind_lift. destruct (Py.iter existing) as [items|e] eqn:Hiter;
    [|left; reflexivity].
  rewrite bind_lift. destruct (mint_set items) as [mints|e] eqn:Hmints;
    [|left; reflexivity].
  rewrite bind_lift. destruct (Py.get entry "mint" JNull) as [mint|e] eqn:Hmint;
    [|left; reflexivity].
  rewrite bind_lift. destruct (hash_key mint) as [k|e] eqn:Hk; [|left; reflexivity].
  destruct (bool_decide (k ∈ mints)) eqn:Hin; [left; reflexivity|].
  apply bool_decide_eq_false in Hin.
  rewrite bind_lift. destruct existing as [| | | |l|]; try (left; reflexivity).
  cbn in Hiter. injection Hiter as ->. cbn [Py.append].
  right. exists items, mints, k.
  split; [exact (load_json_array _ _ _ _ Hload)|].
  split; [exact Hmints|]. split; [exists mint; auto|]. split; [exact Hin|reflexivity].
Qed.

Lemma has_mint_entry_key entry k k' :
  entry_key entry k -> has_mint k' entry = bool_decide (k = k').
Proof.
  intros (mint & Hmint & Hk). destruct entry; try discriminate Hmint.
  cbn in Hmint |- *. injection Hmint as <-. rewrite Hk. reflexivity.
Qed.

Lemma mints_unique_snoc items mints entry k :
  mint_set items = Ok mints -> k ∉ mints -> entry_key entry k ->
  mints_unique items -> mints_unique (items ++ [entry]).
Proof.
  intros Hmints Hfresh Hkey Huniq k'.
  rewrite List.filter_app, length_app. cbn.
  rewrite (has_mint_entry_key _ _ k' Hkey).
  destruct (decide (k = k')) as [<-|Hne].
  - rewrite (filter_has_mint_fresh _ _ _ Hmints Hfresh).
    rewrite bool_decide_eq_true_2 by reflexivity. cbn. lia.
  - rewrite (bool_decide_eq_false_2 _ Hne). cbn. specialize (Huniq k'). lia.
Qed.

Lemma mints_unique_nil : mints_unique [].
Proof. intros k. cbn. lia. Qed.

Lemma stored_written path items fs w :
  stored (set_files (<[path := Parses (JArr items)]> fs) w) path = items.
Proof. unfold stored. cbn. rewrite lookup_insert_eq. reflexivity. Qed.

Lemma stored_truncated path fs w :
  stored (set_files (<[path := ReadRaises JSONDecodeError]> fs) w) path = [].
Proof. unfold stored. cbn. rewrite lookup_insert_eq. reflexivity. Qed.

Lemma append_unique_step E path entry w :
  mints_unique (stored w path) ->
  mints_unique (stored (append_if_not_exists E path entry w).2 path).
Proof.
  intros Huniq.
  destruct (append_if_not_exists_effect E path entry w)
    as [->|(items & mints & k & Hload & Hmints & Hkey & Hfresh & ->)];
    [exact Huniq|].
  rewrite (existing_items_stored _ _ _ Hload) in Huniq.
  unfold write_json. destruct (disk E (now w) path); cbn [snd].
  - rewrite stored_written.
    exact (mints_unique_snoc _ _ _ _ Hmints Hfresh Hkey Huniq).
  - change (stored (log (EvWrite path (JArr (items ++ [entry]))) w) path)
      with (stored w path).
    rewrite (existing_items_stored _ _ _ Hload). exact Huniq.
  - rewrite stored_truncated. apply mints_unique_nil.
Qed.

(** The store keeps its invariant: if no two stored entries share a mint
    before an append, none do after it, whatever the entry, the file and
    the disk. *)
Theorem append_keeps_mints_unique (E : env) (path : string) (entry : json)
    (w : world) :
  mints_unique (stored w path) ->
  mints_unique (stored (append_if_not_exists E path entry w).2 path).
Proof. apply append_unique_step. Qed.

Lemma append_keeps_mints_unique_witness :
  let E := sample_env (fun _ => Fails "offline") in
  let path := "safe_to_buy.json" in
  let one := JObj [("mint", JStr "A")] in
  let two := JObj [("mint", JStr "B")] in
  let w := with_file path (Parses (JArr [one])) first_start in
  stored (append_if_not_exists E path two w).2 path = [one; two] /\
  mints_unique (stored (append_if_not_exists E path two w).2 path).
Proof.
  cbn zeta. split; [reflexivity|].
  apply (append_keeps_mints_unique (sample_env (fun _ => Fails "offline"))
           "safe_to_buy.json" (JObj [("mint", JStr "B")])
           (with_file "safe_to_buy.json" (Parses (JArr [JObj [("mint", JStr "A")]]))
              first_start)).
  intros k. change (stored _ _) with [JObj [("mint", JStr "A")]].
  cbn. destruct (bool_decide _); cbn; lia.
Defined.




(** ** MonitorLoop: what a run does to the files *)

Lemma load_config_files E w :
  files (load_config E w).2 = files w \/
  (files w !! CONFIG_FILE = None /\
   exists c, files (load_config E w).2 = <[CONFIG_FILE := c]> (files w)).
Proof.
  unfold load_config, try_except, read_json.
  rewrite bind_unfold, path_exists_unfold.
  destruct (files w !! CONFIG_FILE) as [[j|e]|] eqn:Hfile.
  - rewrite bool_decide_eq_true_2 by eauto. cbn [negb].
    rewrite bind_unfold, Hfile. left. reflexivity.
  - rewrite bool_decide_eq_true_2 by eauto. cbn [negb].
    rewrite bind_unfold, Hfile. left. destruct (is_load_error e); reflexivity.
  - rewrite bool_decide_eq_false_2 by (intros [? ?]; discriminate). cbn [negb].
    rewrite bind_unfold. cbn [the_default]. rewrite bind_unfold.
    unfold save_config, write_json.
    destruct (disk E (now w) CONFIG_FILE); cbn.
    + right. split; [reflexivity|]. eexists. reflexivity.
    + left. reflexivity.
    + right. split; [reflexivity|]. eexists. reflexivity.
Qed.

Lemma append_files E path entry w :
  files (append_if_not_exists E path entry w).2 = files w \/
  exists c, files (append_if_not_exists E path entry w).2 = <[path := c]> (files w).
Proof.
  destruct (append_if_not_exists_cases E path entry w) as [->|(data & ->)];
    [left; reflexivity|].
  unfold write_json. destruct (disk E (now w) path); cbn.
  - right. eexists. reflexivity.
  - left. reflexivity.
  - right. eexists. reflexivity.
Qed.


Lemma stored_in_insert_ne fs path path' c :
  path' <> path -> stored_in (<[path' := c]> fs) path = stored_in fs path.
Proof. intros Hne. unfold stored_in. rewrite lookup_insert_ne by exact Hne. reflexivity. Qed.

#[local] Instance same_elsewhere_refl record : Reflexive (same_elsewhere record).
Proof. intros fs path _ _. reflexivity. Qed.

#[local] Instance same_elsewhere_trans record : Transitive (same_elsewhere record).
Proof. intros a b c Hab Hbc path H1 H2. rewrite (Hbc path H1 H2). exact (Hab path H1 H2). Qed.

#[local] Instance same_but_record_refl record : Reflexive (same_but_record record).
Proof. intros fs _ path _. reflexivity. Qed.

Lemma same_but_record_trans record :
  record <> CONFIG_FILE -> Transitive (same_but_record record).
Proof.
  intros Hne a b c Hab Hbc Hsome path Hpath.
  rewrite (Hbc ltac:(rewrite (Hab Hsome CONFIG_FILE ltac:(congruence)); exact Hsome)
             path Hpath).
  exact (Hab Hsome path Hpath).
Qed.

#[local] Instance unique_kept_refl record : Reflexive (unique_kept record).
Proof. intros fs H. exact H. Qed.

#[local] Instance unique_kept_trans record : Transitive (unique_kept record).
Proof. intros a b c Hab Hbc H. exact (Hbc (Hab H)). Qed.

#[local] Instance prefix_kept_refl record : Reflexive (prefix_kept record).
Proof. intros fs. unfold prefix_kept. reflexivity. Qed.

#[local] Instance prefix_kept_trans record : Transitive (prefix_kept record).
Proof. intros a b c Hab Hbc. unfold prefix_kept in *. etransitivity; eassumption. Qed.

(** A monitoring run changes no file but the record file and, when there
    was none, the configuration file it creates: every other file, and an
    existing configuration file, is afterwards what it was. *)
Theorem monitoring_touches_only_its_files (E : env) (SAFE_TO_BUY_FILE : string)
    (cycles : nat) (w : world) (path : string) :
  SAFE_TO_BUY_FILE <> CONFIG_FILE ->
  path <> SAFE_TO_BUY_FILE ->
  path <> CONFIG_FILE \/ is_Some (files w !! CONFIG_FILE) ->
  files (start_monitoring E SAFE_TO_BUY_FILE cycles w).2 !! path = files w !! path.
Proof.
  intros Hrecord Hpath [Hconfig|Hsome].
  - apply (run_rel_start_monitoring (same_elsewhere SAFE_TO_BUY_FILE) E
             SAFE_TO_BUY_FILE); [| |exact Hpath|exact Hconfig].
    + intros entry w0 p Hp _.
      destruct (append_files E SAFE_TO_BUY_FILE entry w0) as [->|(c & ->)];
        [reflexivity|]. apply lookup_insert_ne. congruence.
    + intros w0 p _ Hp.
      destruct (load_config_files E w0) as [->|(_ & c & ->)];
        [reflexivity|]. apply lookup_insert_ne. congruence.
  - apply (run_rel_start_monitoring (same_but_record SAFE_TO_BUY_FILE)
             (R_trans := same_but_record_trans SAFE_TO_BUY_FILE Hrecord) E
             SAFE_TO_BUY_FILE); [| |exact Hsome|exact Hpath].
    + intros entry w0 _ p Hp.
      destruct (append_files E SAFE_TO_BUY_FILE entry w0) as [->|(c & ->)];
        [reflexivity|]. apply lookup_insert_ne. congruence.
    + intros w0 Hsome0 p Hp.
      destruct (load_config_files E w0) as [->|(Hnone & _)]; [reflexivity|].
      rewrite Hnone in Hsome0. destruct Hsome0 as [? ?]. discriminate.
Qed.

Lemma monitoring_touches_only_its_files_witness :
  let E := sample_env two_token_network in
  let w := with_file "notes.txt" (Parses (JStr "keep")) first_start in
  files (start_monitoring E "safe_to_buy.json" 2 w).2 !! "notes.txt" =
    Some (Parses (JStr "keep")).
Proof.
  cbn zeta.
  apply (monitoring_touches_only_its_files (sample_env two_token_network)
           "safe_to_buy.json" 2
           (with_file "notes.txt" (Parses (JStr "keep")) first_start) "notes.txt").
  - discriminate.
  - discriminate.
  - left. discriminate.
Defined.

(** Over a whole monitoring run the record store keeps its invariant: if no
    two stored entries share a mint when the run starts, none do at any
    later point of it. *)
Theorem monitoring_keeps_mints_unique (E : env) (SAFE_TO_BUY_FILE : string)
    (cycles : nat) (w : world) :
  SAFE_TO_BUY_FILE <> CONFIG_FILE ->
  mints_unique (stored w SAFE_TO_BUY_FILE) ->
  mints_unique
    (stored (start_monitoring E SAFE_TO_BUY_FILE cycles w).2 SAFE_TO_BUY_FILE).
Proof.
  intros Hrecord.
  apply (run_rel_start_monitoring (unique_kept SAFE_TO_BUY_FILE) E SAFE_TO_BUY_FILE).
  - intros entry w0. exact (append_unique_step E SAFE_TO_BUY_FILE entry w0).
  - intros w0. unfold unique_kept.
    destruct (load_config_files E w0) as [->|(_ & c & ->)]; [auto|].
    rewrite stored_in_insert_ne by congruence. auto.
Qed.

Lemma monitoring_keeps_mints_unique_witness :
  let E := sample_env two_token_network in
  mints_unique
    (stored (start_monitoring E "safe_to_buy.json" 3 first_start).2 "safe_to_buy.json").
Proof.
  cbn zeta.
  apply (monitoring_keeps_mints_unique (sample_env two_token_network)
           "safe_to_buy.json" 3 first_start).
  - discriminate.
  - apply mints_unique_nil.
Defined.



(** ** DedupRegistry: what the set holds *)

Lemma bind_Ok_inv {A B} (m : M A) (f : A -> M B) w b w' :
  (m ≫= f) w = (Ok b, w') ->
  exists a w1, m w = (Ok a, w1) /\ f a w1 = (Ok b, w').
Proof.
  rewrite bind_unfold. destruct (m w) as [[a|e] w1]; [eauto|discriminate].
Qed.

Lemma fetched_set_app (l1 l2 : list event) :
  fetched_set (l1 ++ l2) = fetched_set l1 ∪ fetched_set l2.
Proof. unfold fetched_set. rewrite omap_app. apply list_to_set_app_L. Qed.

Lemma fetched_set_quiet (evs : list event) :
  Forall quiet evs -> fetched_set evs = ∅.
Proof.
  induction 1 as [|ev evs Hev _ IH]; [reflexivity|].
  unfold fetched_set in *. cbn. unfold quiet in Hev. rewrite Hev. exact IH.
Qed.

Lemma accounted_quiet {A} (m : M A) old start processed w :
  emits quiet m ->
  accounted old start processed w -> accounted old start processed (m w).2.
Proof.
  intros Hm (new & Htr & Heq).
  destruct (Hm w) as (evs & Htr' & Hq).
  exists (evs ++ new). rewrite Htr', Htr, app_assoc. split; [reflexivity|].
  rewrite fetched_set_app, (fetched_set_quiet _ Hq), Heq.
  rewrite (left_id_L ∅ (∪)). reflexivity.
Qed.

Lemma accounted_fetch old start processed w mint k timeout :
  hash_key mint = Ok k ->
  accounted old start processed w ->
  accounted old start ({[ k ]} ∪ processed) (log (EvGet (Summary mint) timeout) w).
Proof.
  intros Hk (new & Htr & Heq).
  exists (EvGet (Summary mint) timeout :: new). cbn. rewrite Htr.
  split; [reflexivity|]. unfold fetched_set in *. cbn. rewrite Hk. cbn.
  rewrite Heq, !(assoc_L (∪)), (comm_L (∪) {[ k ]} start). reflexivity.
Qed.

Lemma process_token_accounted E F old start threshold stamp processed token w p' w' :
  process_token E F threshold stamp processed token w = (Ok p', w') ->
  accounted old start processed w -> accounted old start p' w'.
Proof.
  intros Hrun Hinv. unfold process_token in Hrun. rewrite bind_lift in Hrun.
  destruct (Py.get token "mint" JNull) as [mint|e]; [|discriminate Hrun].
  destruct (Py.truthy mint); cbn [negb] in Hrun;
    [|injection Hrun as <- <-; exact Hinv].
  rewrite bind_lift in Hrun.
  destruct (hash_key mint) as [k|e] eqn:Hk; [|discriminate Hrun].
  destruct (bool_decide (k ∈ processed)); [injection Hrun as <- <-; exact Hinv|].
  destruct (fetch_token_summary_log E mint w) as ([summary|e] & Hfetch);
    [rewrite (bind_Ok _ _ _ _ _ Hfetch) in Hrun
    |rewrite (bind_Raise _ _ _ _ _ Hfetch) in Hrun; discriminate Hrun].
  pose proof (accounted_fetch _ _ _ _ _ _ 30 Hk Hinv) as Hinv'.
  destruct (Py.truthy summary); cbn [negb] in Hrun;
    [|injection Hrun as <- <-; exact Hinv'].
  apply bind_Ok_inv in Hrun as ([] & w2 & Hreport & Hret).
  injection Hret as <- <-.
  pose proof (accounted_quiet _ _ _ _ _
    (quiet_classify_and_report E F threshold stamp token mint summary) Hinv') as Hq.
  rewrite Hreport in Hq. exact Hq.
Qed.

Lemma for_tokens_accounted E F old start threshold stamp tokens processed w p' w' :
  for_tokens E F threshold stamp tokens processed w = (Ok p', w') ->
  accounted old start processed w -> accounted old start p' w'.
Proof.
  revert processed w.
  induction tokens as [|token rest IH]; intros processed w Hrun Hinv;
    cbn [for_tokens] in Hrun.
  - injection Hrun as <- <-. exact Hinv.
  - apply bind_Ok_inv in Hrun as (p1 & w1 & Hstep & Hrest).
    exact (IH _ _ Hrest (process_token_accounted _ _ _ _ _ _ _ _ _ _ _ Hstep Hinv)).
Qed.

Lemma poll_cycle_accounted E F old start threshold interval processed w p' w' :
  poll_cycle E F threshold interval processed w = (Ok p', w') ->
  accounted old start processed w -> accounted old start p' w'.
Proof.
  intros Hrun Hinv. unfold poll_cycle in Hrun.
  apply bind_Ok_inv in Hrun as (tokens & w1 & Hfetch & Hrun).
  pose proof (accounted_quiet _ _ _ _ _ (quiet_fetch_new_tokens E) Hinv) as H1.
  rewrite Hfetch in H1. cbn [snd] in H1.
  apply bind_Ok_inv in Hrun as (stamp & w1' & Hstamp & Hrun).
  injection Hstamp as <- <-.
  rewrite bind_lift in Hrun.
  destruct (Py.iter tokens) as [items|e]; [|discriminate Hrun].
  apply bind_Ok_inv in Hrun as (p2 & w2 & Hloop & Hrun).
  pose proof (for_tokens_accounted _ _ _ _ _ _ _ _ _ _ _ Hloop H1) as H2.
  apply bind_Ok_inv in Hrun as ([] & w3 & Hsleep & Hret).
  injection Hret as <- <-.
  pose proof (accounted_quiet (sleep E interval) _ _ _ _
    ltac:(apply emits_sleep; intros; reflexivity) H2) as H3.
  rewrite Hsleep in H3. exact H3.
Qed.

Lemma monitor_loop_accounted E F old start cycles threshold interval processed w p' w' :
  monitor_loop E F cycles threshold interval processed w = (Ok p', w') ->
  accounted old start processed w -> accounted old start p' w'.
Proof.
  revert processed w.
  induction cycles as [|n IH]; intros processed w Hrun Hinv;
    cbn [monitor_loop] in Hrun.
  - injection Hrun as <- <-. exact Hinv.
  - apply bind_Ok_inv in Hrun as (p1 & w1 & Hstep & Hrest).
    exact (IH _ _ Hrest (poll_cycle_accounted _ _ _ _ _ _ _ _ _ _ Hstep Hinv)).
Qed.

(** After any number of polling cycles the set [processed] holds exactly
    what it held before and the mints whose summary was requested in
    between: a mint is never removed, and none is added without a
    request. *)
Theorem processed_is_start_and_fetched (E : env) (SAFE_TO_BUY_FILE : string)
    (cycles : nat) (threshold interval : json) (processed processed' : gset hkey)
    (w w' : world) :
  monitor_loop E SAFE_TO_BUY_FILE cycles threshold interval processed w =
    (Ok processed', w') ->
  processed' = processed ∪ fetched_set (events_since w w').
Proof.
  intros Hrun.
  destruct (monitor_loop_accounted E SAFE_TO_BUY_FILE (trace w) processed cycles
              threshold interval processed w processed' w' Hrun)
    as (new & Htr & Heq).
  - exists []. split; [reflexivity|]. unfold fetched_set. cbn.
    rewrite (right_id_L ∅ (∪)). reflexivity.
  - rewrite (events_since_app _ _ _ Htr). exact Heq.
Qed.

Lemma processed_is_start_and_fetched_witness :
  let E := sample_env two_token_network in
  let out := monitor_loop E "safe_to_buy.json" 2 (JNum 81) (JNum 30)
               {[ HStr "Z" ]} first_start in
  {[ HStr "A" ]} ∪ ({[ HStr "B" ]} ∪ {[ HStr "Z" ]}) =
    ({[ HStr "Z" ]} : gset hkey) ∪ fetched_set (events_since first_start out.2).
Proof.
  cbn zeta.
  apply (processed_is_start_and_fetched (sample_env two_token_network)
           "safe_to_buy.json" 2 (JNum 81) (JNum 30) {[ HStr "Z" ]}).
  vm_compute. reflexivity.
Defined.

(** ** MonitorLoop: tokens and cycles with nothing to do *)

(** A token without a mint, with an empty one, or with a mint that is
    already in [processed] is passed over: no request, no print, no write,
    and [processed] stays as it is. *)
Theorem known_or_missing_mint_is_skipped (E : env) (SAFE_TO_BUY_FILE : string)
    (threshold : json) (stamp : string) (processed : gset hkey)
    (token mint : json) (w : world) :
  Py.get token "mint" JNull = Ok mint ->
  Py.truthy mint = false \/ (exists k, hash_key mint = Ok k /\ k ∈ processed) ->
  process_token E SAFE_TO_BUY_FILE threshold stamp processed token w =
    (Ok processed, w).
Proof.
  intros Hmint Hskip. unfold process_token. rewrite bind_lift, Hmint.
  destruct (Py.truthy mint) eqn:Htruthy; cbn [negb]; [|reflexivity].
  destruct Hskip as [Hfalse|(k & Hk & Hin)]; [discriminate Hfalse|].
  rewrite bind_lift, Hk, (bool_decide_eq_true_2 _ Hin). reflexivity.
Qed.

Lemma known_or_missing_mint_is_skipped_witness :
  let E := sample_env two_token_network in
  process_token E "safe_to_buy.json" (JNum 81) "now" {[ HStr "A" ]}
    (JObj [("mint", JStr "A")]) first_start = (Ok {[ HStr "A" ]}, first_start) /\
  process_token E "safe_to_buy.json" (JNum 81) "now" {[ HStr "A" ]}
    (JObj [("symbol", JStr "NOMINT")]) first_start = (Ok {[ HStr "A" ]}, first_start).
Proof.
  cbn zeta. split.
  - apply (known_or_missing_mint_is_skipped (sample_env two_token_network)
             "safe_to_buy.json" (JNum 81) "now" {[ HStr "A" ]}
             (JObj [("mint", JStr "A")]) (JStr "A") first_start); [reflexivity|].
    right. exists (HStr "A"). split; [reflexivity|]. apply elem_of_singleton_2. reflexivity.
  - apply (known_or_missing_mint_is_skipped (sample_env two_token_network)
             "safe_to_buy.json" (JNum 81) "now" {[ HStr "A" ]}
             (JObj [("symbol", JStr "NOMINT")]) JNull first_start); [reflexivity|].
    left. reflexivity.
Defined.

Lemma fetch_new_tokens_body E w resp tokens :
  http E (now w) NewTokens 30 = Responds resp ->
  ~ (400 <= status_code resp < 600) ->
  body resp = Ok tokens ->
  fetch_new_tokens E w = (Ok tokens, log (EvGet NewTokens 30) w).
Proof.
  intros Hhttp Hstatus Hbody. unfold fetch_new_tokens, try_except, requests_get.
  rewrite bind_unfold, Hhttp. cbn [fst snd]. rewrite bind_unfold.
  unfold raise_for_status.
  replace ((400 <=? status_code resp) && (status_code resp <? 600)) with false
    by (symmetry; apply andb_false_iff; lia).
  cbn. unfold lift. rewrite Hbody. reflexivity.
Qed.

(** A polling cycle in which the discovery endpoint returns the empty list
    asks for no summary, prints nothing and writes nothing: the files and
    [processed] are as before, and its only events are the discovery request
    and the sleep. *)
Theorem empty_discovery_cycle (E : env) (SAFE_TO_BUY_FILE : string)
    (threshold interval : json) (processed : gset hkey) (w : world)
    (resp : response) :
  http E (now w) NewTokens 30 = Responds resp ->
  ~ (400 <= status_code resp < 600) ->
  body resp = Ok (JArr []) ->
  let out := poll_cycle E SAFE_TO_BUY_FILE threshold interval processed w in
  files out.2 = files w /\
  (forall p, out.1 = Ok p -> p = processed) /\
  (events_since w out.2 = [EvGet NewTokens 30] \/
   exists seconds, events_since w out.2 = [EvSleep seconds; EvGet NewTokens 30]).
Proof.
  intros Hhttp Hstatus Hbody out. subst out. unfold poll_cycle.
  rewrite (bind_Ok _ _ _ _ _ (fetch_new_tokens_body E w resp _ Hhttp Hstatus Hbody)).
  rewrite bind_unfold. cbn [now_str]. rewrite bind_lift. cbn [Py.iter].
  rewrite bind_unfold. cbn [for_tokens mret M_ret]. rewrite bind_unfold.
  unfold sleep. destruct (Py.as_int interval) as [z|].
  - destruct (z <? 0).
    + cbn -[events_since]. split; [reflexivity|]. split; [discriminate|].
      left. apply events_since_log.
    + destruct (sigint E _); cbn -[events_since].
      * split; [reflexivity|]. split; [discriminate|]. right. exists z.
        eapply (events_since_app w _ [_; _]). reflexivity.
      * split; [reflexivity|]. split; [intros p H; injection H as <-; reflexivity|].
        right. exists z. eapply (events_since_app w _ [_; _]). reflexivity.
  - cbn -[events_since]. split; [reflexivity|]. split; [discriminate|].
    left. apply events_since_log.
Qed.

Lemma empty_discovery_cycle_witness :
  let E := sample_env (fun _ => ok_response (JArr [])) in
  let out := poll_cycle E "safe_to_buy.json" (JNum 81) (JNum 30) {[ HStr "A" ]}
               first_start in
  files out.2 = files first_start /\
  (forall p, out.1 = Ok p -> p = {[ HStr "A" ]}) /\
  (events_since first_start out.2 = [EvGet NewTokens 30] \/
   exists seconds,
     events_since first_start out.2 = [EvSleep seconds; EvGet NewTokens 30]).
Proof.
  cbn zeta.
  apply (empty_discovery_cycle (sample_env (fun _ => ok_response (JArr [])))
           "safe_to_buy.json" (JNum 81) (JNum 30) {[ HStr "A" ]} first_start
           {| status_code := 200; body := Ok (JArr []); error_text := EmptyString |}).
  - reflexivity.
  - cbn. lia.
  - reflexivity.
Defined.

(** ** MonitorLoop: what is stored and what is reported *)

Lemma emits_events_since {A} (P : event -> Prop) (m : M A) w :
  emits P m -> Forall P (events_since w (m w).2).
Proof.
  intros Hm. destruct (Hm w) as (evs & Htr & Hall).
  rewrite (events_since_app _ _ _ Htr). exact Hall.
Qed.

Section NotLow.

Variable E : env.
Variable SAFE_TO_BUY_FILE : string.

Hint Resolve emits_ret emits_lift emits_print : emits.
Hint Extern 1 (not_a_write _) => exact I : emits.

Lemma eq_files_print text : run_rel eq (print text).
Proof. apply run_rel_print. exact _. Qed.

Lemma eq_files_lift {A} (r : result A) : run_rel eq (lift r).
Proof. apply run_rel_lift. exact _. Qed.

Lemma eq_files_ret {A} (a : A) : run_rel eq (mret a).
Proof. apply run_rel_ret. exact _. Qed.

Lemma eq_files_bind {A B} (m : M A) (f : A -> M B) :
  run_rel eq m -> (forall a, run_rel eq (f a)) -> run_rel eq (m ≫= f).
Proof. apply run_rel_bind. exact _. Qed.

Hint Resolve eq_files_print eq_files_lift eq_files_ret : files.

(** What follows the classification when the tier is not LOW. *)
Lemma not_low_is_not_written threshold stamp token mint summary score risk w :
  Py.get summary "score_normalised" JNull = Ok score ->
  classify_risk score threshold = Ok risk ->
  risk <> "LOW" ->
  let out := classify_and_report E SAFE_TO_BUY_FILE threshold stamp token mint
               summary w in
  files out.2 = files w /\ Forall not_a_write (events_since w out.2).
Proof.
  intros Hscore Hrisk Hnot out. subst out. unfold classify_and_report.
  rewrite bind_lift, Hscore, bind_lift, Hrisk.
  replace (String.eqb risk "LOW") with false
    by (symmetry; apply String.eqb_neq; exact Hnot).
  match goal with
  | |- files (?m w).2 = _ /\ _ =>
      assert (Hfiles : run_rel eq m)
        by (repeat first [ solve [auto 8 with files]
                         | apply eq_files_bind; [|intros ?] ]);
      assert (Hemits : emits not_a_write m) by (repeat emits_step)
  end.
  split; [symmetry; apply Hfiles|apply emits_events_since; exact Hemits].
Qed.

End NotLow.

(** The record file is written for LOW tokens only: when the summary's score
    does not classify as LOW (also when classifying it raises), handling the
    summary attempts no write and leaves every file as it was. *)
Theorem only_low_is_written (E : env) (SAFE_TO_BUY_FILE : string)
    (threshold : json) (stamp : string) (token mint summary : json) (w : world) :
  (forall score, Py.get summary "score_normalised" JNull = Ok score ->
                 classify_risk score threshold <> Ok "LOW") ->
  let out := classify_and_report E SAFE_TO_BUY_FILE threshold stamp token mint
               summary w in
  files out.2 = files w /\ Forall not_a_write (events_since w out.2).
Proof.
  intros Hnot out.
  destruct (Py.get summary "score_normalised" JNull) as [score|e] eqn:Hscore.
  - destruct (classify_risk score threshold) as [risk|e] eqn:Hrisk.
    + apply (not_low_is_not_written E SAFE_TO_BUY_FILE threshold stamp token mint
               summary score risk w Hscore Hrisk).
      intros ->. exact (Hnot score eq_refl Hrisk).
    + subst out. unfold classify_and_report.
      rewrite bind_lift, Hscore, bind_lift, Hrisk. cbn [fst snd].
      rewrite events_since_same. split; [reflexivity|constructor].
  - subst out. unfold classify_and_report. rewrite bind_lift, Hscore. cbn [fst snd].
    rewrite events_since_same. split; [reflexivity|constructor].
Qed.

Lemma only_low_is_written_witness :
  let E := sample_env two_token_network in
  let out := classify_and_report E "safe_to_buy.json" (JNum 81) "now"
               (JObj [("mint", JStr "B")]) (JStr "B")
               (JObj [("score_normalised", JNum 40)]) first_start in
  files out.2 = files first_start /\
  Forall not_a_write (events_since first_start out.2).
Proof.
  cbn zeta.
  apply (only_low_is_written (sample_env two_token_network) "safe_to_buy.json"
           (JNum 81) "now" (JObj [("mint", JStr "B")]) (JStr "B")
           (JObj [("score_normalised", JNum 40)]) first_start).
  intros score Hscore. injection Hscore as <-. discriminate.
Defined.

Lemma make_entry_shape token summary mint score risk stamp entry :
  make_entry token summary mint score risk stamp = Ok entry ->
  (exists d, token = JObj d) /\
  exists name symbol creator risks,
    entry = JObj [("mint", mint); ("name", name); ("symbol", symbol);
                  ("creator", creator); ("score_normalised", score);
                  ("risk", JStr risk); ("risks", risks);
                  ("detected_at", JStr stamp)].
Proof.
  unfold make_entry.
  destruct (Py.get summary "tokenMeta" (JObj [])) as [meta|]; cbn; [|discriminate].
  destruct (Py.get meta "name" (JStr EmptyString)) as [name|]; cbn; [|discriminate].
  destruct (Py.get token "symbol" JNull) as [ts|] eqn:Hts; cbn; [|discriminate].
  destruct (Py.or_lazy _ _) as [symbol|]; cbn; [|discriminate].
  destruct (Py.get token "creator" JNull) as [tc|]; cbn; [|discriminate].
  destruct (Py.or_lazy _ _) as [creator|]; cbn; [|discriminate].
  destruct (Py.get summary "risks" (JArr [])) as [risks|]; cbn; [|discriminate].
  intros H. injection H as <-. split.
  - destruct token; try discriminate Hts. eauto.
  - eauto 6.
Qed.

Lemma stored_same_files w w' path :
  files w' = files w -> stored w' path = stored w path.
Proof. unfold stored. intros ->. reflexivity. Qed.

(** A token whose score classifies as LOW and whose mint is not yet in the
    record file is stored: with a disk that takes the write, the file holds
    afterwards what it held and, at the end, the entry built from the token
    and its summary, with this mint, score, tier and detection time. *)
Theorem low_token_is_appended (E : env) (SAFE_TO_BUY_FILE : string)
    (threshold : json) (stamp : string) (token mint summary score entry : json)
    (items : list json) (mints : gset hkey) (k : hkey) (w : world) :
  Py.get summary "score_normalised" JNull = Ok score ->
  classify_risk score threshold = Ok "LOW" ->
  make_entry token summary mint score "LOW" stamp = Ok entry ->
  hash_key mint = Ok k ->
  existing_items w SAFE_TO_BUY_FILE = Some items ->
  mint_set items = Ok mints ->
  k ∉ mints ->
  disk E (S (S (now w))) SAFE_TO_BUY_FILE = Written ->
  let out := classify_and_report E SAFE_TO_BUY_FILE threshold stamp token mint
               summary w in
  stored out.2 SAFE_TO_BUY_FILE = items ++ [entry] /\
  Py.getitem entry "mint" = Ok mint /\
  Py.getitem entry "score_normalised" = Ok score /\
  Py.getitem entry "risk" = Ok (JStr "LOW") /\
  Py.getitem entry "detected_at" = Ok (JStr stamp).
Proof.
  intros Hscore Hrisk Hentry Hk Hload Hmints Hfresh Hdisk out. subst out.
  destruct (make_entry_shape _ _ _ _ _ _ _ Hentry)
    as ((d & ->) & name & symbol & creator & risks & Hshape).
  split; [|subst entry; repeat split].
  assert (Hkey : entry_key entry k).
  { exists mint. subst entry. split; [reflexivity|exact Hk]. }
  unfold classify_and_report.
  rewrite bind_lift, Hscore, bind_lift, Hrisk, bind_lift. cbn [Py.get].
  rewrite bind_unfold. cbn [print]. rewrite bind_lift, Hentry.
  rewrite bind_unfold. cbn [String.eqb Ascii.eqb Bool.eqb].
  rewrite bind_lift. cbn [Py.get]. rewrite bind_unfold. cbn [print].
  match goal with
  | |- context [append_if_not_exists E SAFE_TO_BUY_FILE entry ?w2] =>
      rewrite (append_if_not_exists_unfold E SAFE_TO_BUY_FILE entry items mints k w2
                 Hload Hmints Hkey);
      rewrite (bool_decide_eq_false_2 _ Hfresh);
      unfold write_json;
      change (now w2) with (S (S (now w)))
  end.
  rewrite Hdisk.
  match goal with
  | |- stored (?tail ?w3).2 _ = _ =>
      transitivity (stored w3 SAFE_TO_BUY_FILE);
      [apply stored_same_files; symmetry;
       assert (Htail : run_rel eq tail)
         by (repeat first [ apply eq_files_print | apply eq_files_lift
                          | apply eq_files_bind; [|intros ?] ]);
       apply Htail
      |apply stored_written]
  end.
Qed.

Lemma low_token_is_appended_witness :
  let E := sample_env two_token_network in
  let out := classify_and_report E "safe_to_buy.json" (JNum 81) "now"
               sample_token (JStr "A") sample_summary first_start in
  stored out.2 "safe_to_buy.json" = [] ++ [sample_entry] /\
  Py.getitem sample_entry "mint" = Ok (JStr "A") /\
  Py.getitem sample_entry "score_normalised" = Ok (JNum 95) /\
  Py.getitem sample_entry "risk" = Ok (JStr "LOW") /\
  Py.getitem sample_entry "detected_at" = Ok (JStr "now").
Proof.
  cbn zeta.
  apply (low_token_is_appended (sample_env two_token_network) "safe_to_buy.json"
           (JNum 81) "now" sample_token (JStr "A") sample_summary (JNum 95)
           sample_entry [] ∅ (HStr "A") first_start).
  - reflexivity.
  - reflexivity.
  - reflexivity.
  - reflexivity.
  - reflexivity.
  - reflexivity.
  - apply not_elem_of_empty.
  - reflexivity.
Defined.

Lemma emits_extends {A} (P : event -> Prop) (m : M A) w r w' :
  emits P m -> m w = (r, w') -> exists evs, trace w' = evs ++ trace w.
Proof.
  intros Hm Hrun. destruct (Hm w) as (evs & Htr & _).
  rewrite Hrun in Htr. eauto.
Qed.

Section Reported.

Variable E : env.
Variable SAFE_TO_BUY_FILE : string.

Lemma any_append entry : emits any_event (append_if_not_exists E SAFE_TO_BUY_FILE entry).
Proof. apply emits_append_if_not_exists; intros; exact I. Qed.

Lemma any_print text : emits any_event (print text).
Proof. apply emits_print; intros; exact I. Qed.

Hint Resolve emits_ret emits_lift any_append any_print : emits.

Lemma report_is_printed_last threshold stamp token mint summary w w' :
  classify_and_report E SAFE_TO_BUY_FILE threshold stamp token mint summary w =
    (Ok tt, w') ->
  exists report earlier,
    format_report E token summary stamp threshold = Ok report /\
    events_since w w' = EvPrint nl :: EvPrint report :: earlier.
Proof.
  intros Hrun. unfold classify_and_report in Hrun.
  rewrite bind_lift in Hrun.
  destruct (Py.get summary "score_normalised" JNull) as [score|]; [|discriminate Hrun].
  rewrite bind_lift in Hrun.
  destruct (classify_risk score threshold) as [risk|]; [|discriminate Hrun].
  rewrite bind_lift in Hrun.
  destruct (Py.get token "symbol" (JStr "Unknown")) as [shown|]; [|discriminate Hrun].
  apply bind_Ok_inv in Hrun as ([] & w1 & Hdebug & Hrun).
  injection Hdebug as <-.
  rewrite bind_lift in Hrun.
  destruct (make_entry token summary mint score risk stamp) as [entry|];
    [|discriminate Hrun].
  apply bind_Ok_inv in Hrun as ([] & w2 & Hstore & Hrun).
  assert (Hext : exists evs, trace w2 = evs ++ trace (log (EvPrint
            ("🔍 DEBUG: Token " +:+ fmt E shown +:+ " - Score: " +:+
             fmt E score +:+ ", Threshold: " +:+ fmt E threshold +:+
             ", Risk: " +:+ risk)) w)).
  { eapply (emits_extends any_event); [|exact Hstore].
    apply emits_if; repeat emits_step. }
  destruct Hext as (evs & Htr).
  rewrite bind_lift in Hrun.
  destruct (format_report E token summary stamp threshold) as [report|];
    [|discriminate Hrun].
  apply bind_Ok_inv in Hrun as ([] & w3 & Hreport & Hrun).
  injection Hreport as <-. injection Hrun as <-.
  exists report. eexists. split; [reflexivity|].
  eapply (events_since_app w _ (_ :: _ :: evs ++ [_])).
  cbn [log trace]. rewrite Htr. cbn [log trace].
  rewrite <- !app_comm_cons, <- app_assoc. reflexivity.
Qed.

End Reported.

(** Every token whose summary is handled to the end gets its report: when
    the handling returns, the last things printed are the formatted report
    and an empty line, whatever the tier and whether or not the token was
    stored. *)
Theorem report_follows_every_handled_token (E : env) (SAFE_TO_BUY_FILE : string)
    (threshold : json) (stamp : string) (token mint summary : json) (w w' : world) :
  classify_and_report E SAFE_TO_BUY_FILE threshold stamp token mint summary w =
    (Ok tt, w') ->
  exists report earlier,
    format_report E token summary stamp threshold = Ok report /\
    events_since w w' = EvPrint nl :: EvPrint report :: earlier.
Proof. apply report_is_printed_last. Qed.

Lemma report_follows_every_handled_token_witness :
  let E := sample_env two_token_network in
  let token := JObj [("mint", JStr "B")] in
  let summary := JObj [("score_normalised", JNum 40)] in
  exists report earlier,
    format_report E token summary "now" (JNum 81) = Ok report /\
    events_since first_start
      (classify_and_report E "safe_to_buy.json" (JNum 81) "now" token (JStr "B")
         summary first_start).2 =
      EvPrint nl :: EvPrint report :: earlier.
Proof.
  cbn zeta.
  apply (report_follows_every_handled_token (sample_env two_token_network)
           "safe_to_buy.json" (JNum 81) "now" (JObj [("mint", JStr "B")]) (JStr "B")
           (JObj [("score_normalised", JNum 40)]) first_start).
  vm_compute. reflexivity.
Defined.

(** ** The console report *)

Lemma classify_risk_range score threshold risk :
  classify_risk score threshold = Ok risk ->
  risk = "UNKNOWN" \/ risk = "LOW" \/ risk = "MEDIUM" \/ risk = "HIGH".
Proof.
  unfold classify_risk.
  assert (Hrest : (above ← Py.gt score threshold;
                   if above : bool then Ok "LOW"
                   else middle ← Py.ge_int score 50;
                        if middle : bool then Ok "MEDIUM" else Ok "HIGH") = Ok risk ->
                  risk = "UNKNOWN" \/ risk = "LOW" \/ risk = "MEDIUM" \/ risk = "HIGH").
  { destruct (Py.gt score threshold) as [above|]; cbn; [|discriminate].
    destruct above; [intros H; injection H as <-; auto|].
    destruct (Py.ge_int score 50) as [middle|]; cbn; [|discriminate].
    destruct middle; intros H; injection H as <-; auto. }
  destruct score; try exact Hrest.
  intros H. injection H as <-. auto.
Qed.

Lemma recommendation_covers_tier score threshold risk :
  classify_risk score threshold = Ok risk ->
  exists advice, recommendation_of risk = Ok advice.
Proof.
  intros Hrisk.
  destruct (classify_risk_range _ _ _ Hrisk) as [-> | [-> | [-> | ->] ] ];
    eexists; reflexivity.
Qed.

(** The table of recommendations covers every tier [classify_risk] can
    return, so the lookup in [format_report] never fails; and the advice is
    SAFE_TO_BUY for the tier LOW and for no other. *)
Theorem recommendation_covers_every_tier (score threshold : json) (risk : string) :
  classify_risk score threshold = Ok risk ->
  exists advice,
    recommendation_of risk = Ok advice /\
    (advice = "SAFE_TO_BUY" <-> risk = "LOW").
Proof.
  intros Hrisk.
  destruct (classify_risk_range _ _ _ Hrisk) as [-> | [-> | [-> | ->] ] ];
    eexists; (split; [reflexivity|]); split; intros H; try discriminate H; reflexivity.
Qed.

Lemma recommendation_covers_every_tier_witness :
  exists advice,
    recommendation_of "MEDIUM" = Ok advice /\
    (advice = "SAFE_TO_BUY" <-> "MEDIUM" = "LOW").
Proof.
  apply (recommendation_covers_every_tier (JNum 60) (JNum 81) "MEDIUM").
  reflexivity.
Defined.

Lemma mapM_result_Forall2 {A B} (f : A -> result B) (l : list A) (ys : list B) :
  mapM f l = Ok ys -> Forall2 (fun x y => f x = Ok y) l ys.
Proof.
  revert ys. induction l as [|x l IH]; intros ys; cbn.
  - intros H. injection H as <-. constructor.
  - destruct (f x) as [y|] eqn:Hfx; cbn; [|discriminate].
    destruct (mapM f l) as [ys'|]; cbn; [|discriminate].
    intros H. injection H as <-. constructor; [exact Hfx|apply IH; reflexivity].
Qed.

(** What [report_lines] returns: the fifteen fixed lines, then the risk
    reasons. *)
Lemma report_lines_shape E token summary stamp threshold lines :
  report_lines E token summary stamp threshold = Ok lines ->
  exists name symbol mint creator score risk advice risks reasons,
    Py.get summary "score_normalised" JNull = Ok score /\
    classify_risk score threshold = Ok risk /\
    recommendation_of risk = Ok advice /\
    Py.get summary "risks" JNull = Ok risks /\
    (if Py.truthy (Py.or_else risks (JArr [])) then
       exists items bullets,
         Py.iter (Py.or_else risks (JArr [])) = Ok items /\
         Forall2 (fun item bullet => risk_line E item = Ok bullet) items bullets /\
         reasons = "- Risk Reasons:" :: bullets
     else reasons = []) /\
    lines =
      [ Py.times "=" 80%nat; "🚀 NEW TOKEN DETECTED!"; Py.times "=" 80%nat;
        EmptyString; "📋 TOKEN INFORMATION:";
        "✅ Token Name: " +:+ fmt E name;
        "✅ Token Symbol: " +:+ fmt E symbol;
        "✅ Token Mint: " +:+ fmt E mint;
        "👤 Creator Wallet: " +:+ fmt E creator;
        "🕒 Detection Time: " +:+ stamp;
        EmptyString; "📊 RUGCHECK ANALYSIS:";
        "- Safety Score: " +:+
          fmt E (match score with JNull => JStr "N/A" | _ => score end) +:+ "/100";
        "- Risk Level: " +:+ risk;
        "- Recommendation: " +:+ advice ] ++ reasons.
Proof.
  unfold report_lines.
  destruct (Py.get token "mint" (JStr "Unknown")) as [mint|]; cbn [mbind result_bind];
    [|discriminate].
  destruct (Py.get token "symbol" JNull) as [ts|]; cbn [mbind result_bind];
    [|discriminate].
  destruct (Py.or_lazy _ _) as [symbol|]; cbn [mbind result_bind]; [|discriminate].
  destruct (Py.get summary "tokenMeta" (JObj [])) as [meta|]; cbn [mbind result_bind];
    [|discriminate].
  destruct (Py.get meta "name" _) as [name|]; cbn [mbind result_bind]; [|discriminate].
  destruct (Py.get token "creator" JNull) as [tc|]; cbn [mbind result_bind];
    [|discriminate].
  destruct (Py.or_lazy _ _) as [creator|]; cbn [mbind result_bind]; [|discriminate].
  destruct (Py.get summary "score_normalised" JNull) as [score|] eqn:Hscore;
    cbn [mbind result_bind]; [|discriminate].
  destruct (classify_risk score threshold) as [risk|] eqn:Hrisk;
    cbn [mbind result_bind]; [|discriminate].
  destruct (recommendation_of risk) as [advice|] eqn:Hadvice;
    cbn [mbind result_bind]; [|discriminate].
  destruct (Py.get summary "risks" JNull) as [risks|] eqn:Hrisks;
    cbn [mbind result_bind]; [|discriminate].
  destruct (Py.truthy (Py.or_else risks (JArr []))) eqn:Htruthy.
  - destruct (Py.iter (Py.or_else risks (JArr []))) as [items|] eqn:Hiter;
      cbn [mbind result_bind]; [|discriminate].
    destruct (mapM (risk_line E) items) as [bullets|] eqn:Hmap;
      cbn [mbind result_bind]; [|discriminate].
    intros H. injection H as <-.
    exists name, symbol, mint, creator, score, risk, advice, risks,
      ("- Risk Reasons:" :: bullets).
    rewrite Htruthy. split_and!; try reflexivity; try assumption.
    exists items, bullets. split; [exact Hiter|].
    split; [exact (mapM_result_Forall2 _ _ _ Hmap)|reflexivity].
  - cbn [mbind result_bind]. intros H. injection H as <-.
    exists name, symbol, mint, creator, score, risk, advice, risks, [].
    rewrite Htruthy. split_and!; try reflexivity; assumption.
Qed.

(** For an integer score and threshold the report shows the score, the tier
    and the advice that belongs to the tier: SAFE_TO_BUY exactly when the
    score is above the threshold. *)
Theorem report_shows_score_tier_and_advice (E : env) (token summary : json)
    (stamp : string) (s t : Z) (lines : list string) :
  report_lines E token summary stamp (JNum t) = Ok lines ->
  Py.get summary "score_normalised" JNull = Ok (JNum s) ->
  lines !! 12%nat = Some ("- Safety Score: " +:+ pretty s +:+ "/100") /\
  lines !! 13%nat =
    Some ("- Risk Level: " +:+
          (if s >? t then "LOW" else if s >=? 50 then "MEDIUM" else "HIGH")) /\
  lines !! 14%nat =
    Some ("- Recommendation: " +:+
          (if s >? t then "SAFE_TO_BUY"
           else if s >=? 50 then "CAUTION_ADVISED" else "HIGH_RISK_DONT_BUY")).
Proof.
  intros Hlines Hscore.
  destruct (report_lines_shape _ _ _ _ _ _ Hlines)
    as (name & symbol & mint & creator & score & risk & advice & risks & reasons
        & Hscore' & Hrisk & Hadvice & _ & _ & ->).
  rewrite Hscore in Hscore'. injection Hscore' as <-.
  rewrite classify_risk_int in Hrisk. injection Hrisk as <-.
  split; [reflexivity|]. split; [reflexivity|].
  destruct (s >? t); [injection Hadvice as <-; reflexivity|].
  destruct (s >=? 50); injection Hadvice as <-; reflexivity.
Qed.

Lemma report_shows_score_tier_and_advice_witness :
  sample_lines !! 12%nat = Some ("- Safety Score: " +:+ pretty 95 +:+ "/100") /\
  sample_lines !! 13%nat = Some "- Risk Level: LOW" /\
  sample_lines !! 14%nat = Some "- Recommendation: SAFE_TO_BUY".
Proof.
  apply (report_shows_score_tier_and_advice (sample_env one_token_network)
           sample_token sample_summary "now" 95 81 sample_lines).
  - reflexivity.
  - reflexivity.
Defined.

(** For a summary without a score the report shows N/A, the tier UNKNOWN
    and the advice CAUTION_ADVISED, whatever the threshold. *)
Theorem report_without_score (E : env) (token summary : json) (stamp : string)
    (threshold : json) (lines : list string) :
  report_lines E token summary stamp threshold = Ok lines ->
  Py.get summary "score_normalised" JNull = Ok JNull ->
  lines !! 12%nat = Some "- Safety Score: N/A/100" /\
  lines !! 13%nat = Some "- Risk Level: UNKNOWN" /\
  lines !! 14%nat = Some "- Recommendation: CAUTION_ADVISED".
Proof.
  intros Hlines Hscore.
  destruct (report_lines_shape _ _ _ _ _ _ Hlines)
    as (name & symbol & mint & creator & score & risk & advice & risks & reasons
        & Hscore' & Hrisk & Hadvice & _ & _ & ->).
  rewrite Hscore in Hscore'. injection Hscore' as <-.
  cbn in Hrisk. injection Hrisk as <-. cbn in Hadvice. injection Hadvice as <-.
  repeat split.
Qed.

Lemma report_without_score_witness :
  let lines :=
    match report_lines (sample_env one_token_network) (JObj [("mint", JStr "A")])
            (JObj [("creator", JStr "wallet")]) "now" (JStr "n/a") with
    | Ok lines => lines
    | Raise _ => []
    end in
  lines !! 12%nat = Some "- Safety Score: N/A/100" /\
  lines !! 13%nat = Some "- Risk Level: UNKNOWN" /\
  lines !! 14%nat = Some "- Recommendation: CAUTION_ADVISED".
Proof.
  cbn zeta.
  apply (report_without_score (sample_env one_token_network)
           (JObj [("mint", JStr "A")]) (JObj [("creator", JStr "wallet")]) "now"
           (JStr "n/a")).
  - vm_compute. reflexivity.
  - reflexivity.
Defined.

(** The report has fifteen lines when the summary has no risks (none, null
    or an empty list); with a list of risks it has a heading line more and
    then one bullet per risk, in the order of the list. *)
Theorem report_lists_every_risk (E : env) (token summary : json) (stamp : string)
    (threshold : json) (lines : list string) :
  report_lines E token summary stamp threshold = Ok lines ->
  exists risks,
    Py.get summary "risks" JNull = Ok risks /\
    (Py.truthy risks = false -> length lines = 15%nat) /\
    (forall items, risks = JArr items -> items <> [] ->
       length lines = (16 + length items)%nat /\
       lines !! 15%nat = Some "- Risk Reasons:" /\
       forall i item, items !! i = Some item ->
         exists bullet,
           risk_line E item = Ok bullet /\ lines !! (16 + i)%nat = Some bullet).
Proof.
  intros Hlines.
  destruct (report_lines_shape _ _ _ _ _ _ Hlines)
    as (name & symbol & mint & creator & score & risk & advice & risks & reasons
        & _ & _ & _ & Hrisks & Hreasons & ->).
  exists risks. split; [exact Hrisks|]. split.
  - intros Hfalsy. unfold Py.or_else in Hreasons. rewrite Hfalsy in Hreasons.
    cbn in Hreasons. subst reasons. reflexivity.
  - intros items -> Hne. unfold Py.or_else in Hreasons.
    destruct items as [|item0 rest]; [contradiction|]. cbn [Py.truthy] in Hreasons.
    destruct Hreasons as (items' & bullets & Hiter & Hall & ->).
    cbn in Hiter. injection Hiter as <-.
    pose proof (Forall2_length _ _ _ Hall) as Hlen.
    split; [cbn in Hlen |- *; lia|]. split; [reflexivity|].
    intros i item Hitem.
    destruct (Forall2_lookup_l _ _ _ _ _ Hall Hitem) as (bullet & Hbullet & Hline).
    exists bullet. split; [exact Hline|exact Hbullet].
Qed.

Lemma report_lists_every_risk_witness :
  let summary :=
    JObj [("score_normalised", JNum 40);
          ("risks", JArr [JObj [("name", JStr "Mint authority");
                                ("level", JStr "danger")]])] in
  let lines :=
    match report_lines (sample_env one_token_network) (JObj [("mint", JStr "B")])
            summary "now" (JNum 81) with
    | Ok lines => lines
    | Raise _ => []
    end in
  exists risks,
    Py.get summary "risks" JNull = Ok risks /\
    (Py.truthy risks = false -> length lines = 15%nat) /\
    (forall items, risks = JArr items -> items <> [] ->
       length lines = (16 + length items)%nat /\
       lines !! 15%nat = Some "- Risk Reasons:" /\
       forall i item, items !! i = Some item ->
         exists bullet,
           risk_line (sample_env one_token_network) item = Ok bullet /\
           lines !! (16 + i)%nat = Some bullet).
Proof.
  cbn zeta.
  apply (report_lists_every_risk (sample_env one_token_network)
           (JObj [("mint", JStr "B")])
           (JObj [("score_normalised", JNum 40);
                  ("risks", JArr [JObj [("name", JStr "Mint authority");
                                        ("level", JStr "danger")]])])
           "now" (JNum 81)).
  vm_compute. reflexivity.
Defined.

(** ** TokenSource: what a fetch returns *)

(** [fetch_new_tokens] changes no file and makes one request.  A request
    that raises a [RequestException], an answer with a status from 400 to
    599, and a body on which [response.json()] raises a [RequestException]
    each give one printed line with the error and the empty list.  A body
    that parses is returned, and nothing is printed.  An exception of
    [response.json()] that is not a [RequestException] is not caught: it
    leaves [fetch_new_tokens], and nothing is printed. *)
Theorem fetch_new_tokens_answers (E : env) (w : world) :
  let out := fetch_new_tokens E w in
  let failed text :=
    out.1 = Ok (JArr []) /\
    events_since w out.2 =
      [EvPrint ("⚠️  Error fetching new tokens: " +:+ text); EvGet NewTokens 30] in
  files out.2 = files w /\
  match http E (now w) NewTokens 30 with
  | Fails text => failed text
  | Responds resp =>
      if (400 <=? status_code resp) && (status_code resp <? 600) then
        failed (error_text resp)
      else
        match body resp with
        | Ok tokens =>
            out.1 = Ok tokens /\ events_since w out.2 = [EvGet NewTokens 30]
        | Raise (RequestException text) => failed text
        | Raise e =>
            out.1 = Raise e /\ events_since w out.2 = [EvGet NewTokens 30]
        end
  end.
Proof.
  cbn zeta. unfold fetch_new_tokens, try_except, requests_get, raise_for_status.
  rewrite bind_unfold.
  destruct (http E (now w) NewTokens 30) as [text|resp]; cbn [fst snd].
  - cbn -[events_since]. split; [reflexivity|]. split; [reflexivity|].
    eapply (events_since_app w _ [_; _]). reflexivity.
  - rewrite bind_unfold.
    destruct ((400 <=? status_code resp) && (status_code resp <? 600));
      cbn -[events_since].
    + split; [reflexivity|]. split; [reflexivity|].
      eapply (events_since_app w _ [_; _]). reflexivity.
    + unfold lift. destruct (body resp) as [tokens|e]; cbn -[events_since].
      * split; [reflexivity|]. split; [reflexivity|]. apply events_since_log.
      * destruct e; cbn -[events_since];
          (split; [reflexivity|]; split; [reflexivity|]);
          first [apply events_since_log
                |eapply (events_since_app w _ [_; _]); reflexivity].
Qed.

(** [fetch_token_summary] prints nothing and changes no file: it makes one
    request and returns the parsed body when the status is 200, and the
    empty dict for any other status, for a request that raises a
    [RequestException] and for a body on which [response.json()] raises
    one; any other exception of [response.json()] leaves it. *)
Lemma fetch_token_summary_answers (E : env) (mint : json) (w : world) :
  fetch_token_summary E mint w =
    (match http E (now w) (Summary mint) 30 with
     | Responds resp =>
         if status_code resp =? 200 then
           match body resp with
           | Ok summary => Ok summary
           | Raise (RequestException _) => Ok (JObj [])
           | Raise e => Raise e
           end
         else Ok (JObj [])
     | Fails _ => Ok (JObj [])
     end,
     log (EvGet (Summary mint) 30) w).
Proof.
  unfold fetch_token_summary, try_except, requests_get, lift. rewrite bind_unfold.
  destruct (http E (now w) (Summary mint) 30) as [text|resp]; cbn; [reflexivity|].
  destruct (status_code resp =? 200); [|reflexivity].
  destruct (body resp) as [summary|[]]; reflexivity.
Qed.

(** ** Configuration: loading *)

(** Without a configuration file, [load_config] writes the default one and
    returns the default, and the next [load_config] reads the same settings
    back from the file; when the file cannot be written, [load_config]
    raises [OSError] instead of returning the default. *)
Theorem load_config_creates_the_default (E : env) (w : world) :
  files w !! CONFIG_FILE = None ->
  let out := load_config E w in
  match disk E (now w) CONFIG_FILE with
  | Written =>
      out.1 = Ok TheDefault /\
      files out.2 !! CONFIG_FILE = Some (Parses (default_config w)) /\
      load_config E out.2 = (Ok (Loaded (default_config w)), out.2)
  | Refused | Truncated => out.1 = Raise OSError
  end.
Proof.
  intros Hfile out. subst out.
  assert (Hrun : load_config E w =
                   (save_config E (default_config w) ≫= fun _ => mret TheDefault) w).
  { unfold load_config. rewrite bind_unfold, path_exists_unfold.
    rewrite bool_decide_eq_false_2 by (rewrite Hfile; intros [? ?]; discriminate).
    reflexivity. }
  rewrite Hrun. clear Hrun. rewrite bind_unfold. unfold save_config, write_json.
  destruct (disk E (now w) CONFIG_FILE); cbn [fst snd]; try reflexivity.
  cbn [mret M_ret fst snd].
  split; [reflexivity|]. split; [apply lookup_insert_eq|].
  apply load_config_parsed. apply lookup_insert_eq.
Qed.

Lemma load_config_creates_the_default_witness :
  let E := sample_env one_token_network in
  let out := load_config E first_start in
  out.1 = Ok TheDefault /\
  files out.2 !! CONFIG_FILE = Some (Parses DEFAULT_CONFIG) /\
  load_config E out.2 = (Ok (Loaded DEFAULT_CONFIG), out.2).
Proof.
  cbn zeta.
  apply (load_config_creates_the_default (sample_env one_token_network) first_start).
  reflexivity.
Defined.

(** A configuration file that is there but cannot be read or parsed is left
    as it is: [load_config] returns the default without writing anything
    when reading raises [OSError] or [JSONDecodeError], and lets any other
    exception of the reading through. *)
Theorem unreadable_config_is_not_repaired (E : env) (w : world) (e : exn) :
  files w !! CONFIG_FILE = Some (ReadRaises e) ->
  load_config E w = (if is_load_error e then Ok TheDefault else Raise e, w).
Proof.
  intros Hfile. unfold load_config, try_except, read_json.
  rewrite bind_unfold, path_exists_unfold.
  rewrite bool_decide_eq_true_2 by (rewrite Hfile; eauto).
  cbn [negb fst snd]. rewrite bind_unfold, Hfile.
  destruct (is_load_error e); reflexivity.
Qed.

Lemma unreadable_config_is_not_repaired_witness :
  let E := sample_env one_token_network in
  let corrupt := with_file CONFIG_FILE (ReadRaises JSONDecodeError) first_start in
  let garbled := with_file CONFIG_FILE (ReadRaises UnicodeDecodeError) first_start in
  load_config E corrupt = (Ok TheDefault, corrupt) /\
  load_config E garbled = (Raise UnicodeDecodeError, garbled).
Proof.
  cbn zeta. split.
  - apply (unreadable_config_is_not_repaired (sample_env one_token_network)
             (with_file CONFIG_FILE (ReadRaises JSONDecodeError) first_start)
             JSONDecodeError).
    reflexivity.
  - apply (unreadable_config_is_not_repaired (sample_env one_token_network)
             (with_file CONFIG_FILE (ReadRaises UnicodeDecodeError) first_start)
             UnicodeDecodeError).
    reflexivity.
Defined.

(** ** Configuration editing: the other ways an edit can go *)

Lemma dict_get_set_same d key v : Py.dict_get (Py.dict_set d key v) key = Some v.
Proof.
  induction d as [|[k' v'] d IH]; cbn.
  - rewrite String.eqb_refl. reflexivity.
  - destruct (String.eqb k' key) eqn:Heq; cbn.
    + rewrite String.eqb_refl. reflexivity.
    + rewrite Heq. exact IH.
Qed.

Lemma dict_get_set_other d key key' v :
  key' <> key -> Py.dict_get (Py.dict_set d key v) key' = Py.dict_get d key'.
Proof.
  intros Hne. induction d as [|[k' v'] d IH]; cbn.
  - replace (String.eqb key key') with false
      by (symmetry; apply String.eqb_neq; congruence).
    reflexivity.
  - destruct (String.eqb k' key) eqn:Heq; cbn.
    + apply String.eqb_eq in Heq. subst k'.
      replace (String.eqb key key') with false
        by (symmetry; apply String.eqb_neq; congruence).
      reflexivity.
    + destruct (String.eqb k' key'); [reflexivity|exact IH].
Qed.

Lemma setitem_getitem settings settings' key v :
  Py.setitem settings key v = Ok settings' ->
  Py.getitem settings' key = Ok v /\
  forall key', key' <> key -> Py.getitem settings' key' = Py.getitem settings key'.
Proof.
  destruct settings; try discriminate. cbn. intros H. injection H as <-. split.
  - cbn. rewrite dict_get_set_same. reflexivity.
  - intros key' Hne. cbn. rewrite (dict_get_set_other _ _ _ _ Hne). reflexivity.
Qed.

Lemma edit_choice_bounded E config s w :
  edit_choice E config (setting_choice s) w =
    (config' ← edit_bounded E config (setting_key s) (setting_prompt s)
       (setting_bounds s).1 (setting_bounds s).2 (setting_updated s)
       (setting_rejection s);
     mret (config', false)) w.
Proof. destruct s; reflexivity. Qed.

(** An accepted edit is what the next [load_config] returns: the setting
    has the new value, every other key of the configuration has the value
    it had. *)
Theorem accepted_edit_is_loaded_back (E : env) (config : config_ref) (s : setting)
    (current : json) (text : string) (rest : list string) (v : Z) (w : world) :
  Py.getitem (settings_of config w) (setting_key s) = Ok current ->
  stdin w = text :: rest ->
  to_int E text = Some v ->
  (setting_bounds s).1 <= v <= (setting_bounds s).2 ->
  disk E (S (now w)) CONFIG_FILE = Written ->
  let out := edit_choice E config (setting_choice s) w in
  exists settings',
    load_config E out.2 = (Ok (Loaded settings'), out.2) /\
    Py.getitem settings' (setting_key s) = Ok (JNum v) /\
    forall key, key <> setting_key s ->
      Py.getitem settings' key = Py.getitem (settings_of config w) key.
Proof.
  intros Hcurrent Hstdin Hint Hin Hdisk out. subst out.
  destruct (edit_bounded_accepts E config (setting_key s) (setting_prompt s)
              (setting_bounds s).1 (setting_bounds s).2 (setting_updated s)
              (setting_rejection s) current text rest v w
              Hcurrent Hstdin Hint Hin Hdisk)
    as (config' & settings' & w' & Hrun & Hset & _ & Hfile).
  rewrite edit_choice_bounded, (bind_Ok _ _ _ _ _ Hrun). cbn [mret M_ret fst snd].
  exists settings'. split; [exact (load_config_parsed E w' settings' Hfile)|].
  exact (setitem_getitem _ _ _ _ Hset).
Qed.

Lemma accepted_edit_is_loaded_back_witness :
  let E := sample_env one_token_network in
  let out := edit_choice E TheDefault "2" (typing ["45"] first_start) in
  exists settings',
    load_config E out.2 = (Ok (Loaded settings'), out.2) /\
    Py.getitem settings' "polling_interval" = Ok (JNum 45) /\
    forall key, key <> "polling_interval" ->
      Py.getitem settings' key = Py.getitem DEFAULT_CONFIG key.
Proof.
  cbn zeta.
  apply (accepted_edit_is_loaded_back (sample_env one_token_network) TheDefault
           PollingInterval (JNum 30) "45" [] 45 (typing ["45"] first_start)).
  - reflexivity.
  - reflexivity.
  - reflexivity.
  - cbn. lia.
  - reflexivity.
Defined.

Lemma edit_bounded_non_numeric E config key prompt lo hi updated rejected
    current text rest w :
  Py.getitem (settings_of config w) key = Ok current ->
  stdin w = text :: rest ->
  to_int E text = None ->
  edit_bounded E config key prompt lo hi updated rejected w =
    (Ok config,
     log (EvPrint "❌ Please enter a valid number")
       (set_stdin rest (log (EvInput (prompt +:+ fmt E current +:+ "): ")) w))).
Proof.
  intros Hcurrent Hstdin Hint. unfold edit_bounded, try_except.
  rewrite (bind_Ok _ _ _ _ _ (deref_settings config w)).
  rewrite bind_lift, Hcurrent, bind_unfold.
  unfold input at 1. rewrite Hstdin.
  rewrite bind_lift. unfold int_of. rewrite Hint. reflexivity.
Qed.

(** Text that [int] does not accept changes nothing: the edit prints that a
    valid number is needed, and the dict, the module default and the files
    stay as they were. *)
Theorem non_numeric_edit_changes_nothing (E : env) (config : config_ref)
    (s : setting) (current : json) (text : string) (rest : list string) (w : world) :
  Py.getitem (settings_of config w) (setting_key s) = Ok current ->
  stdin w = text :: rest ->
  to_int E text = None ->
  let out := edit_choice E config (setting_choice s) w in
  out.1 = Ok (config, false) /\
  settings_of config out.2 = settings_of config w /\
  default_config out.2 = default_config w /\
  files out.2 = files w /\
  events_since w out.2 =
    [EvPrint "❌ Please enter a valid number";
     EvInput (setting_prompt s +:+ fmt E current +:+ "): ")].
Proof.
  intros Hcurrent Hstdin Hint out. subst out.
  rewrite edit_choice_bounded.
  rewrite (bind_Ok _ _ _ _ _
    (edit_bounded_non_numeric E config _ _ _ _ _ _ _ _ _ _ Hcurrent Hstdin Hint)).
  cbn [mret M_ret fst snd].
  split; [reflexivity|]. split; [destruct config; reflexivity|].
  split; [reflexivity|]. split; [reflexivity|].
  eapply (events_since_app w _ [_; _]). reflexivity.
Qed.

Lemma non_numeric_edit_changes_nothing_witness :
  let E := sample_env one_token_network in
  let w := typing ["ninety"] first_start in
  let out := edit_choice E TheDefault "1" w in
  out.1 = Ok (TheDefault, false) /\
  settings_of TheDefault out.2 = settings_of TheDefault w /\
  default_config out.2 = default_config w /\
  files out.2 = files w /\
  events_since w out.2 =
    [EvPrint "❌ Please enter a valid number";
     EvInput (setting_prompt ScoreThreshold +:+ fmt E (JNum 81) +:+ "): ")].
Proof.
  cbn zeta.
  apply (non_numeric_edit_changes_nothing (sample_env one_token_network) TheDefault
           ScoreThreshold (JNum 81) "ninety" [] (typing ["ninety"] first_start)).
  - reflexivity.
  - reflexivity.
  - reflexivity.
Defined.

Lemma edit_bounded_save_fails E key prompt lo hi updated rejected
    current text rest v w :
  Py.getitem (default_config w) key = Ok current ->
  stdin w = text :: rest ->
  to_int E text = Some v ->
  lo <= v <= hi ->
  disk E (S (now w)) CONFIG_FILE <> Written ->
  exists w',
    edit_bounded E TheDefault key prompt lo hi updated rejected w =
      (Raise OSError, w') /\
    files w' =
      match disk E (S (now w)) CONFIG_FILE with
      | Truncated => <[CONFIG_FILE := ReadRaises JSONDecodeError]> (files w)
      | _ => files w
      end /\
    Py.getitem (default_config w') key = Ok (JNum v).
Proof.
  intros Hcurrent Hstdin Hint Hin Hdisk. unfold edit_bounded, try_except.
  rewrite (bind_Ok _ _ _ _ _ (deref_settings TheDefault w)). cbn [settings_of].
  rewrite bind_lift, Hcurrent, bind_unfold.
  unfold input at 1. rewrite Hstdin.
  rewrite bind_lift. unfold int_of. rewrite Hint.
  replace ((lo <=? v) && (v <=? hi)) with true
    by (symmetry; apply andb_true_iff; lia).
  destruct (default_config w) as [| | | | |d] eqn:Hdefault; try discriminate Hcurrent.
  set (w1 := set_stdin rest (log _ w)).
  rewrite bind_unfold. cbn [assign].
  replace (default_config w1) with (JObj d) by (symmetry; exact Hdefault).
  cbn [Py.setitem]. rewrite bind_unfold. cbn [deref the_default].
  rewrite bind_unfold. unfold save_config, write_json.
  assert (Hnow : forall j, now (set_default_config j w1) = S (now w)) by reflexivity.
  rewrite Hnow.
  destruct (disk E (S (now w)) CONFIG_FILE); [contradiction| |]; cbn;
    (eexists; split; [reflexivity|]; split; [reflexivity|];
     cbn; rewrite dict_get_set_same; reflexivity).
Qed.

(** When the configuration in use is the module default (as [load_config]
    returns it for a file that is missing or whose reading raises [OSError]
    or [JSONDecodeError]) and the save of an accepted edit fails, the edit
    raises [OSError], yet the default itself now holds the new value.  No
    file but the configuration file changes; the configuration file is as
    it was when the write is refused before the file is touched, and is
    left emptied, no longer JSON, when the write fails after
    [open(path, "w")]. *)
Theorem failed_save_changes_the_default (E : env) (s : setting) (current : json)
    (text : string) (rest : list string) (v : Z) (w : world) :
  Py.getitem (default_config w) (setting_key s) = Ok current ->
  stdin w = text :: rest ->
  to_int E text = Some v ->
  (setting_bounds s).1 <= v <= (setting_bounds s).2 ->
  disk E (S (now w)) CONFIG_FILE <> Written ->
  let out := edit_choice E TheDefault (setting_choice s) w in
  out.1 = Raise OSError /\
  Py.getitem (default_config out.2) (setting_key s) = Ok (JNum v) /\
  (forall path, path <> CONFIG_FILE -> files out.2 !! path = files w !! path) /\
  match disk E (S (now w)) CONFIG_FILE with
  | Truncated => files out.2 !! CONFIG_FILE = Some (ReadRaises JSONDecodeError)
  | _ => files out.2 = files w
  end.
Proof.
  intros Hcurrent Hstdin Hint Hin Hdisk out. subst out.
  destruct (edit_bounded_save_fails E (setting_key s) (setting_prompt s)
              (setting_bounds s).1 (setting_bounds s).2 (setting_updated s)
              (setting_rejection s) current text rest v w
              Hcurrent Hstdin Hint Hin Hdisk)
    as (w' & Hrun & Hfiles & Hdefault).
  rewrite edit_choice_bounded, (bind_Raise _ _ _ _ _ Hrun). cbn [fst snd].
  split; [reflexivity|]. split; [exact Hdefault|]. rewrite Hfiles.
  destruct (disk E (S (now w)) CONFIG_FILE); split; try reflexivity.
  - intros path Hpath. apply lookup_insert_ne. congruence.
  - apply lookup_insert_eq.
Qed.

Lemma failed_save_changes_the_default_witness :
  let refusing := with_full_disk (sample_env one_token_network) in
  let truncating := with_truncating_disk (sample_env one_token_network) in
  let w := typing ["90"] (with_file CONFIG_FILE (ReadRaises OSError) first_start) in
  let refused := edit_choice refusing TheDefault "1" w in
  let truncated := edit_choice truncating TheDefault "1" w in
  (refused.1 = Raise OSError /\
   Py.getitem (default_config refused.2) "score_threshold" = Ok (JNum 90) /\
   files refused.2 = files w) /\
  (truncated.1 = Raise OSError /\
   Py.getitem (default_config truncated.2) "score_threshold" = Ok (JNum 90) /\
   files truncated.2 !! CONFIG_FILE = Some (ReadRaises JSONDecodeError)).
Proof.
  cbn zeta. split.
  - destruct (failed_save_changes_the_default
                (with_full_disk (sample_env one_token_network)) ScoreThreshold
                (JNum 81) "90" [] 90
                (typing ["90"] (with_file CONFIG_FILE (ReadRaises OSError) first_start)))
      as (Hres & Hdefault & _ & Hfiles);
      [reflexivity|reflexivity|reflexivity|cbn; lia|discriminate|].
    split; [exact Hres|]. split; [exact Hdefault|exact Hfiles].
  - destruct (failed_save_changes_the_default
                (with_truncating_disk (sample_env one_token_network)) ScoreThreshold
                (JNum 81) "90" [] 90
                (typing ["90"] (with_file CONFIG_FILE (ReadRaises OSError) first_start)))
      as (Hres & Hdefault & _ & Hfiles);
      [reflexivity|reflexivity|reflexivity|cbn; lia|discriminate|].
    split; [exact Hres|]. split; [exact Hdefault|exact Hfiles].
Defined.

(** ** MonitorLoop: how a run ends *)

Lemma start_monitoring_enters_loop E F cycles w d threshold interval :
  files w !! CONFIG_FILE = Some (Parses (JObj d)) ->
  Py.dict_get d "score_threshold" = Some threshold ->
  Py.dict_get d "polling_interval" = Some interval ->
  start_monitoring E F cycles w =
    try_except
      (processed ← monitor_loop E F cycles threshold interval ∅;
       mret (Polling processed))
      is_KeyboardInterrupt
      (fun _ =>
         print (nl +:+ "🛑 Monitoring stopped.");;
         print (nl +:+ "💝 If you loved this tool, feel free to donate to:");;
         print "   FnqoYxGvhzJdiKvw5e8MGT2sL5V69XCTSCqA7uU4WX7v";;
         input "Press Enter to continue...";;
         mret Stopped)
      (after_banner E threshold interval w).
Proof.
  intros Hfile Hthreshold Hinterval. unfold start_monitoring.
  rewrite (bind_Ok _ _ _ _ _ (load_config_parsed E w _ Hfile)).
  cbn [deref]. rewrite bind_unfold. cbn [mret M_ret]. rewrite bind_lift.
  cbn [Py.getitem]. rewrite Hthreshold, bind_lift, Hinterval.
  reflexivity.
Qed.

Lemma print_run text w : print text w = (Ok tt, log (EvPrint text) w).
Proof. reflexivity. Qed.

Lemma input_run prompt w line rest :
  stdin w = line :: rest ->
  input prompt w = (Ok line, set_stdin rest (log (EvInput prompt) w)).
Proof. intros H. unfold input. rewrite H. reflexivity. Qed.

Lemma input_eof prompt w :
  stdin w = [] -> input prompt w = (Raise EOFError, log (EvInput prompt) w).
Proof. intros H. unfold input. rewrite H. reflexivity. Qed.

(** Only Ctrl+C is caught.  When a polling cycle raises anything else (a
    malformed answer of the service, a failed write of the record file),
    the exception leaves [start_monitoring] and the session is over; when
    it raises [KeyboardInterrupt], [start_monitoring] prints its three
    closing lines, waits for Enter and returns. *)
Theorem only_ctrl_c_is_caught (E : env) (SAFE_TO_BUY_FILE : string) (cycles : nat)
    (w w1 : world) (d : list (string * json)) (threshold interval : json) (e : exn) :
  files w !! CONFIG_FILE = Some (Parses (JObj d)) ->
  Py.dict_get d "score_threshold" = Some threshold ->
  Py.dict_get d "polling_interval" = Some interval ->
  monitor_loop E SAFE_TO_BUY_FILE cycles threshold interval ∅
    (after_banner E threshold interval w) = (Raise e, w1) ->
  let out := start_monitoring E SAFE_TO_BUY_FILE cycles w in
  (is_KeyboardInterrupt e = false -> out = (Raise e, w1)) /\
  (is_KeyboardInterrupt e = true ->
   forall line rest, stdin w1 = line :: rest ->
     out.1 = Ok Stopped /\
     events_since w1 out.2 =
       [EvInput "Press Enter to continue...";
        EvPrint "   FnqoYxGvhzJdiKvw5e8MGT2sL5V69XCTSCqA7uU4WX7v";
        EvPrint (nl +:+ "💝 If you loved this tool, feel free to donate to:");
        EvPrint (nl +:+ "🛑 Monitoring stopped.")]).
Proof.
  intros Hfile Hthreshold Hinterval Hloop out. subst out.
  rewrite (start_monitoring_enters_loop E SAFE_TO_BUY_FILE cycles w d threshold
             interval Hfile Hthreshold Hinterval).
  unfold try_except. rewrite (bind_Raise _ _ _ _ _ Hloop). split.
  - intros ->. reflexivity.
  - intros -> line rest Hstdin.
    rewrite !(bind_Ok _ _ _ _ _ (print_run _ _)).
    assert (Hstdin' : forall a b c, stdin (log a (log b (log c w1))) = line :: rest)
      by (intros; exact Hstdin).
    rewrite (bind_Ok _ _ _ _ _
      (input_run "Press Enter to continue..." _ line rest (Hstdin' _ _ _))).
    cbn -[events_since].
    split; [reflexivity|].
    eapply (events_since_app w1 _ [_; _; _; _]). reflexivity.
Qed.

Lemma only_ctrl_c_is_caught_witness :
  let w := with_file CONFIG_FILE (Parses DEFAULT_CONFIG) first_start in
  (start_monitoring (sample_env malformed_network) "safe_to_buy.json" 3 w).1 =
    Raise AttributeError /\
  (start_monitoring (with_ctrl_c (sample_env one_token_network)) "safe_to_buy.json"
     3 (typing [EmptyString] w)).1 = Ok Stopped.
Proof.
  cbn zeta. split.
  - destruct (only_ctrl_c_is_caught (sample_env malformed_network)
                "safe_to_buy.json" 3
                (with_file CONFIG_FILE (Parses DEFAULT_CONFIG) first_start)
                (monitor_loop (sample_env malformed_network) "safe_to_buy.json" 3
                   (JNum 81) (JNum 30) ∅
                   (after_banner (sample_env malformed_network) (JNum 81) (JNum 30)
                      (with_file CONFIG_FILE (Parses DEFAULT_CONFIG) first_start))).2
                [("score_threshold", JNum 81); ("polling_interval", JNum 30);
                 ("api_timeout", JNum 30)]
                (JNum 81) (JNum 30) AttributeError)
      as [Hcrash _]; [reflexivity|reflexivity|reflexivity|vm_compute; reflexivity|].
    rewrite Hcrash; reflexivity.
  - destruct (only_ctrl_c_is_caught (with_ctrl_c (sample_env one_token_network))
                "safe_to_buy.json" 3
                (typing [EmptyString]
                   (with_file CONFIG_FILE (Parses DEFAULT_CONFIG) first_start))
                (monitor_loop (with_ctrl_c (sample_env one_token_network))
                   "safe_to_buy.json" 3 (JNum 81) (JNum 30) ∅
                   (after_banner (with_ctrl_c (sample_env one_token_network))
                      (JNum 81) (JNum 30)
                      (typing [EmptyString]
                         (with_file CONFIG_FILE (Parses DEFAULT_CONFIG) first_start)))).2
                [("score_threshold", JNum 81); ("polling_interval", JNum 30);
                 ("api_timeout", JNum 30)]
                (JNum 81) (JNum 30) KeyboardInterrupt)
      as [_ Hstop]; [reflexivity|reflexivity|reflexivity|vm_compute; reflexivity|].
    destruct (Hstop eq_refl EmptyString []) as [Hres _]; [reflexivity|exact Hres].
Defined.

(** ** The screens that only show *)

(** Viewing the history changes no file, whatever the record file holds and
    however the viewing ends. *)
Theorem history_is_read_only (E : env) (SAFE_TO_BUY_FILE : string) (w : world) :
  files (view_historical_data E SAFE_TO_BUY_FILE w).2 = files w.
Proof.
  symmetry. apply (run_rel_view_historical_data eq E SAFE_TO_BUY_FILE).
Qed.

Lemma load_json_nothing_stored path w :
  nothing_stored w path ->
  exists tokens, load_json path w = (Ok tokens, w) /\ Py.truthy tokens = false.
Proof.
  intros [Hstate|(j & Hfile & Hfalsy)].
  - exists (JArr []). split; [|reflexivity].
    apply load_json_existing. unfold existing_items.
    destruct Hstate as [->|(e & -> & ->)]; reflexivity.
  - exists j. split; [exact (load_json_parsed _ _ _ Hfile)|exact Hfalsy].
Qed.

(** With a record file that is absent, whose reading raises [OSError] or
    [JSONDecodeError], or that holds the empty list (or another value that
    [not tokens] takes for empty), the history screen says that no tokens
    were found, waits for Enter, and shows nothing else. *)
Theorem empty_history_says_so (E : env) (SAFE_TO_BUY_FILE : string) (w : world) :
  nothing_stored w SAFE_TO_BUY_FILE ->
  events_since w (view_historical_data E SAFE_TO_BUY_FILE w).2 =
    [EvInput "Press Enter to continue...";
     EvPrint (nl +:+ "📭 No tokens found in safe_to_buy.json")].
Proof.
  intros Hstate. unfold view_historical_data.
  destruct (load_json_nothing_stored _ _ Hstate) as (tokens & Hload & Hfalsy).
  rewrite (bind_Ok _ _ _ _ _ Hload), Hfalsy.
  cbn [negb]. rewrite (bind_Ok _ _ _ _ _ (print_run _ _)).
  destruct (stdin w) as [|line rest] eqn:Hstdin.
  - assert (Heof : forall a, stdin (log a w) = []) by (intros; exact Hstdin).
    rewrite (bind_Raise _ _ _ _ _ (input_eof _ _ (Heof _))). cbn [snd].
    apply (events_since_app w _ [_; _]). reflexivity.
  - assert (Hline : forall a, stdin (log a w) = line :: rest)
      by (intros; exact Hstdin).
    rewrite (bind_Ok _ _ _ _ _ (input_run _ _ line rest (Hline _))).
    cbn [mret M_ret snd].
    apply (events_since_app w _ [_; _]). reflexivity.
Qed.

Lemma empty_history_says_so_witness :
  let E := sample_env one_token_network in
  let w := with_file "data/safe_to_buy.json" (ReadRaises JSONDecodeError) first_start in
  nothing_stored w "data/safe_to_buy.json" /\
  events_since w (view_historical_data E "data/safe_to_buy.json" w).2 =
    [EvInput "Press Enter to continue...";
     EvPrint (nl +:+ "📭 No tokens found in safe_to_buy.json")].
Proof.
  cbn zeta.
  assert (Hstate : nothing_stored
            (with_file "data/safe_to_buy.json" (ReadRaises JSONDecodeError) first_start)
            "data/safe_to_buy.json").
  { left. right. exists JSONDecodeError. split; reflexivity. }
  split; [exact Hstate|].
  exact (empty_history_says_so (sample_env one_token_network) "data/safe_to_buy.json"
           (with_file "data/safe_to_buy.json" (ReadRaises JSONDecodeError) first_start)
           Hstate).
Defined.

(** Showing the configuration leaves an existing configuration file, and
    every other file, as it is; only when there is no configuration file
    does it write one. *)
Theorem showing_keeps_the_configuration (E : env) (w : world) :
  is_Some (files w !! CONFIG_FILE) ->
  files (show_configuration E w).2 = files w.
Proof.
  intros Hsome. unfold show_configuration. rewrite bind_unfold.
  assert (Hload : (load_config E w).2 = w \/ files w !! CONFIG_FILE = None).
  { unfold load_config, try_except, read_json.
    rewrite bind_unfold, path_exists_unfold.
    destruct (files w !! CONFIG_FILE) as [[j|e]|] eqn:Hfile; [| |right; reflexivity].
    - rewrite bool_decide_eq_true_2 by eauto. cbn [negb].
      rewrite bind_unfold, Hfile. left. reflexivity.
    - rewrite bool_decide_eq_true_2 by eauto. cbn [negb].
      rewrite bind_unfold, Hfile. left. destruct (is_load_error e); reflexivity. }
  destruct Hload as [Hsame|Hnone];
    [|rewrite Hnone in Hsome; destruct Hsome as [? ?]; discriminate].
  destruct (load_config E w) as [[config|e] w0]; cbn in Hsame; subst w0;
    [|reflexivity].
  match goal with
  | |- files (?rest w).2 = _ =>
      assert (Hrest : run_rel eq rest)
        by (repeat first [ apply eq_files_print | apply eq_files_lift
                         | apply eq_files_ret
                         | apply (run_rel_deref eq) | apply (run_rel_input eq)
                         | apply eq_files_bind; [|intros ?] ]);
      symmetry; apply Hrest
  end.
Qed.

Lemma showing_keeps_the_configuration_witness :
  let E := sample_env one_token_network in
  let w := with_file CONFIG_FILE (Parses (JObj [("score_threshold", JNum 70)]))
             first_start in
  files (show_configuration E w).2 = files w.
Proof.
  cbn zeta.
  apply (showing_keeps_the_configuration (sample_env one_token_network)
           (with_file CONFIG_FILE (Parses (JObj [("score_threshold", JNum 70)]))
              first_start)).
  eexists. reflexivity.
Defined.

(** ** RiskClassifier: order *)

(** A higher score never gives a riskier tier: above a score classified LOW
    everything is LOW, and below a score classified HIGH everything is
    HIGH. *)
Theorem classify_risk_is_monotone (s s' t : Z) :
  s <= s' ->
  (classify_risk (JNum s) (JNum t) = Ok "LOW" ->
   classify_risk (JNum s') (JNum t) = Ok "LOW") /\
  (classify_risk (JNum s') (JNum t) = Ok "HIGH" ->
   classify_risk (JNum s) (JNum t) = Ok "HIGH").
Proof.
  intros Hle. rewrite !classify_risk_int.
  destruct (Z.gtb_spec s t), (Z.gtb_spec s' t), (Z.geb_spec s 50), (Z.geb_spec s' 50);
    split; intros Hc; try discriminate Hc; try reflexivity; lia.
Qed.

Lemma classify_risk_is_monotone_witness :
  (classify_risk (JNum 82) (JNum 81) = Ok "LOW" ->
   classify_risk (JNum 95) (JNum 81) = Ok "LOW") /\
  (classify_risk (JNum 95) (JNum 81) = Ok "HIGH" ->
   classify_risk (JNum 82) (JNum 81) = Ok "HIGH").
Proof. apply (classify_risk_is_monotone 82 95 81). lia. Defined.

(** ** The console report and the entry on well-formed data *)

Lemma mapM_risk_line_dicts E items :
  Forall (fun item => Py.is_dict item = true) items ->
  exists bullets, mapM (risk_line E) items = Ok bullets.
Proof.
  induction 1 as [|item items Hitem _ (bullets & IH)]; [eexists; reflexivity|].
  destruct item; try discriminate Hitem.
  cbn. rewrite IH. cbn. eexists. reflexivity.
Qed.

Lemma get_dict d key dflt :
  exists v, Py.get (JObj d) key dflt = Ok v.
Proof. eexists. reflexivity. Qed.

(** On a discovery record that is a dict, a well-formed summary and an
    integer threshold, neither building the entry nor formatting the report
    raises. *)
Theorem well_formed_token_is_reported (E : env) (token summary mint : json)
    (stamp : string) (t : Z) (td : list (string * json)) :
  token = JObj td ->
  well_formed_summary summary ->
  exists score risk entry report,
    Py.get summary "score_normalised" JNull = Ok score /\
    classify_risk score (JNum t) = Ok risk /\
    make_entry token summary mint score risk stamp = Ok entry /\
    format_report E token summary stamp (JNum t) = Ok report.
Proof.
  intros -> (sd & -> & Hmeta & Hscore & Hrisks).
  assert (Hm : exists md, Py.get (JObj sd) "tokenMeta" (JObj []) = Ok (JObj md)).
  { cbn. destruct (Py.dict_get sd "tokenMeta") as [[]|]; try contradiction; eauto. }
  destruct Hm as (md & Hm).
  assert (Hs : exists score risk,
             Py.get (JObj sd) "score_normalised" JNull = Ok score /\
             classify_risk score (JNum t) = Ok risk).
  { cbn. destruct (Py.dict_get sd "score_normalised") as [[]|]; try contradiction.
    - exists JNull, "UNKNOWN". split; reflexivity.
    - eexists _, _. split; [reflexivity|apply classify_risk_int].
    - exists JNull, "UNKNOWN". split; reflexivity. }
  destruct Hs as (score & risk & Hget & Hrisk).
  exists score, risk.
  assert (Hentry : exists entry,
             make_entry (JObj td) (JObj sd) mint score risk stamp = Ok entry).
  { unfold make_entry. rewrite Hm. cbn [mbind result_bind Py.get].
    unfold Py.or_lazy.
    destruct (Py.truthy _); cbn [mbind result_bind];
      destruct (Py.truthy _); cbn [mbind result_bind]; eexists; reflexivity. }
  destruct Hentry as (entry & Hentry). exists entry.
  destruct (recommendation_covers_tier _ _ _ Hrisk) as (advice & Hadvice).
  assert (Hreasons : exists reasons,
             (if Py.truthy (Py.or_else
                   (match Py.dict_get sd "risks" with Some v => v | None => JNull end)
                   (JArr []))
              then items ← Py.iter (Py.or_else
                     (match Py.dict_get sd "risks" with Some v => v | None => JNull end)
                     (JArr []));
                   bullets ← mapM (risk_line E) items;
                   Ok ("- Risk Reasons:" :: bullets)
              else Ok []) = Ok reasons).
  { unfold Py.or_else.
    destruct (Py.dict_get sd "risks") as [v|]; [|eexists; reflexivity].
    destruct v as [|b|z|s|items|d]; cbn beta iota in Hrisks;
      try (rewrite Hrisks; eexists; reflexivity).
    destruct items as [|item rest]; [eexists; reflexivity|].
    cbn [Py.truthy Py.iter mbind result_bind].
    destruct (mapM_risk_line_dicts E _ Hrisks) as (bullets & ->).
    eexists. reflexivity. }
  destruct Hreasons as (reasons & Hreasons).
  cut (exists report, format_report E (JObj td) (JObj sd) stamp (JNum t) = Ok report).
  { intros (report & Hreport). exists report. split_and!; assumption. }
  unfold format_report, report_lines. 
  rewrite Hm, Hget. cbn [Py.get mbind result_bind].
  unfold Py.or_lazy.
  set (sym := match Py.dict_get td "symbol" with Some v => v | None => JNull end).
  set (cre := match Py.dict_get td "creator" with Some v => v | None => JNull end).
  destruct (Py.truthy sym), (Py.truthy cre); cbn [mbind result_bind];
    rewrite Hrisk; cbn [mbind result_bind]; rewrite Hadvice; cbn [mbind result_bind];
    rewrite Hreasons; cbn [mbind result_bind]; eexists; reflexivity.
Qed.

Lemma well_formed_token_is_reported_witness :
  well_formed_summary sample_summary /\
  exists score risk entry report,
    Py.get sample_summary "score_normalised" JNull = Ok score /\
    classify_risk score (JNum 81) = Ok risk /\
    make_entry sample_token sample_summary (JStr "A") score risk "now" = Ok entry /\
    format_report (sample_env one_token_network) sample_token sample_summary
      "now" (JNum 81) = Ok report.
Proof.
  assert (Hwf : well_formed_summary sample_summary).
  { eexists. split; [reflexivity|]. cbn. split_and!; exact I. }
  split; [exact Hwf|].
  exact (well_formed_token_is_reported (sample_env one_token_network)
           sample_token sample_summary (JStr "A") "now" 81 _ eq_refl Hwf).
Defined.
